(** * Campus news watcher: de-duplication and personalised ranking

    A shallow embedding of [daily_report.py] (the seen-link store, the
    filter of already delivered items, the DeepSeek scorer, the
    thread-pool fan-out, the ranking step and [main]), of
    [fetch_feed.py] and of [send_email.py], followed by the properties
    the specification states about them.

    Conventions of the embedding.
    - A Python value is a [pyval]; a [dict] with string keys is a
      [gmap string pyval]; a [set] of strings is a [gset string].
    - A Python [str] is a Rocq [string] whose characters are code points
      below 256.  On that alphabet the regular expression class [\d] is
      exactly ['0'..'9'].
    - A function that can raise returns a [Result]; [try_except] is the
      [try: ... except Exception:] block.
    - A value of a YAML file is a [yaml_value]: what the file holds
      decides the type, so a null, a number or a list can stand where
      the program expects text.
    - What pandas and the Python runtime decide (how a column of dates
      is parsed, the rendering of a timestamp, the order in which
      [sort_values] leaves rows with equal keys, what [read_csv] makes
      of a column of texts) is a member of the class [Pandas].  Where
      versions of pandas differ the embedding follows pandas 3:
      [astype(str)] keeps a missing value missing. *)

From Stdlib Require Import ZArith String Ascii List DecimalString Permutation Sorted Lia.
From stdpp Require Import base option gmap strings list sorting relations.

Local Open Scope Z_scope.

(** ** Python values and exceptions *)

Inductive pyval : Type :=
| VNone
| VBool (b : bool)
| VInt (z : Z)
| VFloat (z : Z)   (* a float whose value is the integer [z], e.g. 85.0 *)
| VNaN             (* float('nan'): what pandas puts in an empty cell *)
| VStr (s : string)
| VTime (t : Z)    (* pandas Timestamp, nanoseconds since the epoch, UTC *)
| VNaT.

#[global] Instance pyval_eq_dec : EqDecision pyval.
Proof. solve_decision. Defined.

Inductive exn : Type :=
| AttributeError
| KeyError (k : string)
| ValueError
| TypeError
| OverflowError
| FileNotFoundError
| ApiError
| OtherError (name : string).   (* any other exception, by the name of its class *)

Inductive Result (A : Type) : Type :=
| Ok (a : A)
| Raise (e : exn).
Arguments Ok {A} a.
Arguments Raise {A} e.

#[global] Instance Result_ret : MRet Result := fun A a => Ok a.

#[global] Instance Result_bind : MBind Result := fun A B k m =>
  match m with
  | Ok a => k a
  | Raise e => Raise e
  end.

(** [try: body / except Exception: handler]. *)
Definition try_except {A : Type} (body : Result A) (handler : exn -> Result A) : Result A :=
  match body with
  | Ok a => Ok a
  | Raise e => handler e
  end.

(** [bool(v)]. *)
Definition py_truthy (v : pyval) : bool :=
  match v with
  | VNone => false
  | VBool b => b
  | VInt z => negb (z =? 0)
  | VFloat z => negb (z =? 0)
  | VNaN => true
  | VStr s => negb (String.eqb s "")
  | VTime _ => true
  | VNaT => true
  end.

(** [a or b]. *)
Definition py_or (a b : pyval) : pyval := if py_truthy a then a else b.

(** [d.get(k, dflt)]. *)
Definition dict_get (d : gmap string pyval) (k : string) (dflt : pyval) : pyval :=
  default dflt (d !! k).

(** ** Strings *)

Definition is_digit (c : ascii) : bool :=
  let n := N_of_ascii c in ((48 <=? n) && (n <=? 57))%N.

Definition digit_value (c : ascii) : Z := Z.of_N (N_of_ascii c) - 48.

(** Whitespace removed by [str.strip()], among code points below 256. *)
Definition py_isspace (c : ascii) : bool :=
  let n := N_of_ascii c in
  (((9 <=? n) && (n <=? 13)) || ((28 <=? n) && (n <=? 32))
   || (n =? 133) || (n =? 160))%N.

Fixpoint lstrip (s : string) : string :=
  match s with
  | EmptyString => EmptyString
  | String c rest => if py_isspace c then lstrip rest else s
  end.

Fixpoint rstrip (s : string) : string :=
  match s with
  | EmptyString => EmptyString
  | String c rest =>
      match rstrip rest with
      | EmptyString => if py_isspace c then EmptyString else String c EmptyString
      | r => String c r
      end
  end.

Definition strip (s : string) : string := lstrip (rstrip s).

(** [v.strip()]: only [str] has the method. *)
Definition py_strip (v : pyval) : Result string :=
  match v with
  | VStr s => Ok (strip s)
  | _ => Raise AttributeError
  end.

(** [re.findall(r"\d+", s)]: the maximal runs of digits, left to right. *)
Fixpoint findall_digits (s : string) : list string :=
  match s with
  | EmptyString => []
  | String c rest =>
      if is_digit c then
        match rest with
        | EmptyString => [String c EmptyString]
        | String c' _ =>
            if is_digit c' then
              match findall_digits rest with
              | run :: runs => String c run :: runs
              | [] => [String c EmptyString]
              end
            else String c EmptyString :: findall_digits rest
        end
      else findall_digits rest
  end.

(** The integer a run of digits denotes. *)
Fixpoint digits_value_from (acc : Z) (s : string) : Z :=
  match s with
  | EmptyString => acc
  | String c rest => digits_value_from (10 * acc + digit_value c) rest
  end.

Definition digits_value (s : string) : Z := digits_value_from 0 s.

(** [max(0.0, min(100.0, float(digits)))].  [float] rounds the integer to
    the nearest double; rounding is monotone and leaves every integer up
    to 2^53 unchanged, so the clamped double is the double of the
    clamped integer, which is what a score of type [Z] stands for. *)
Definition clamp_score (n : Z) : Z := Z.max 0 (Z.min 100 n).

(** [int(text)]: surrounding whitespace is dropped, one sign may stand
    first, and the rest is decimal digits in which single underscores
    may stand between two digits.  [None] is [ValueError]; the
    interpreter also raises it for more than 4300 digits. *)
Fixpoint int_digits (after_digit : bool) (acc : Z) (count : nat) (s : string)
    : option (Z * nat) :=
  match s with
  | EmptyString => if after_digit then Some (acc, count) else None
  | String c rest =>
      if is_digit c then int_digits true (10 * acc + digit_value c) (S count) rest
      else if Ascii.eqb c "_" then
        if after_digit then int_digits false acc count rest else None
      else None
  end.

Definition max_str_digits : nat := 4300.

Definition unsigned_of_text (s : string) : option Z :=
  match int_digits false 0 0 s with
  | Some (n, count) => if (count <=? max_str_digits)%nat then Some n else None
  | None => None
  end.

Definition int_of_text (text : string) : option Z :=
  match strip text with
  | String "-" rest => Z.opp <$> unsigned_of_text rest
  | String "+" rest => unsigned_of_text rest
  | s => unsigned_of_text s
  end.

(** The texts [read_csv] takes for a missing value. *)
Definition na_values : list string :=
  [""; "#N/A"; "#N/A N/A"; "#NA"; "-1.#IND"; "-1.#QNAN"; "-NaN"; "-nan";
   "1.#IND"; "1.#QNAN"; "<NA>"; "N/A"; "NA"; "NULL"; "NaN"; "None";
   "n/a"; "nan"; "null"]%string.

Definition is_na_text (s : string) : bool :=
  existsb (String.eqb s) na_values.

(** ** What the libraries decide *)

(** Order of two sort keys under [ascending=False, na_position="last"]:
    [a] may stand before [b]. *)
Definition desc_le (a b : option Z) : Prop :=
  match a, b with
  | Some x, Some y => y <= x
  | Some _, None => True
  | None, None => True
  | None, Some _ => False
  end.

Class Pandas : Type := {
  (** [pd.to_datetime(col, errors="coerce", utc=True)] at a cell that
      holds text or a number: [to_datetime_raw col i] is what the
      conversion of the whole column [col] leaves at position [i], where
      [None] is NaT.  The column is an argument because the parse is
      not cell by cell: pandas settles the format on the column (the
      first text that parses decides it) and a cell in another format
      becomes NaT, though it would parse on its own. *)
  to_datetime_raw : list pyval -> nat -> option Z;
  (** [str(ts)] of a Timestamp. *)
  timestamp_str : Z -> string;
  (** The indexer of [sort_values(by, ascending=False)] with the default
      [kind] and [na_position]: position [i] of the result takes the row
      at position [nth i (nargsort_desc keys)] of the frame. *)
  nargsort_desc : list (option Z) -> list nat;
  (** [str] of the cell [read_csv] makes of the text [t] of a column
      whose texts are [cells]: the type of the cell is inferred from the
      whole column, so ["007"] may come back as ["7"] or ["7.0"].
      [None] is a cell read as missing. *)
  csv_read_back : list string -> string -> option string;
  (** No cell that is there renders as one of the texts of a missing
      value: those texts are read as missing, and a number, a truth
      value or any other text renders differently. *)
  csv_read_back_not_na : forall cells t s,
    csv_read_back cells t = Some s -> is_na_text s = false;
}.

(** What pandas documents about that indexer: it reorders the rows and
    puts the keys in descending order with the missing ones last.  The
    source passes no [kind], and the default ["quicksort"] is documented
    as not stable, so nothing is promised about rows with equal keys. *)
Definition sort_contract (P : Pandas) : Prop :=
  forall keys,
    Permutation (nargsort_desc keys) (seq 0 (length keys)) /\
    StronglySorted desc_le (map (fun i => nth i keys None) (nargsort_desc keys)).

(** ** The thread pool

    [ThreadPoolExecutor(max_workers).map(fn, items)] submits one task per
    item, in order, to a FIFO queue; at most [max_workers] worker threads
    take tasks from the queue, one at a time each; a worker that finishes
    a call stores its outcome (a value or the exception raised) in the
    future of its task.  Which worker finishes first is not determined.
    The iterator [map] returns reads the futures in submission order and
    re-raises the first stored exception it meets; on its way out it
    cancels the tasks still waiting, which can only be tasks submitted
    after the one whose exception it met. *)

Inductive event : Type :=
| Take              (* an idle worker takes the next task *)
| Finish (n : nat)  (* the call in flight at position [n] returns *)
| Cancel.           (* the reader, stopped by an exception, cancels the next task *)

Section ThreadPool.

Context {A B : Type}.
Variable fn : A -> Result B.
Variable items : list A.
Variable max_workers : nat.

Record pool : Type := {
  queue : list nat;                 (* submitted, not taken yet *)
  running : list nat;               (* taken by a worker, call in flight *)
  futures : gmap nat (Result B);    (* outcomes stored so far *)
  calls : list nat;                 (* tasks whose call was started, in order *)
  cancelled : list nat;             (* tasks cancelled while waiting *)
}.

Definition pool_init : pool :=
  {| queue := seq 0 (length items); running := []; futures := ∅;
     calls := []; cancelled := [] |}.

(** Some task submitted before [i] has stored an exception. *)
Definition raised_before (fs : gmap nat (Result B)) (i : nat) : bool :=
  existsb (fun j => match fs !! j with
                    | Some (Raise _) => true
                    | _ => false
                    end) (seq 0 i).

Inductive pool_step : pool -> pool -> Prop :=
| step_take (i : nat) (q : list nat) (st : pool) :
    queue st = i :: q ->
    (length (running st) < max_workers)%nat ->
    pool_step st {| queue := q; running := running st ++ [i];
                    futures := futures st; calls := calls st ++ [i];
                    cancelled := cancelled st |}
| step_finish (i : nat) (a : A) (pre post : list nat) (st : pool) :
    running st = pre ++ i :: post ->
    items !! i = Some a ->
    pool_step st {| queue := queue st; running := pre ++ post;
                    futures := <[i := fn a]> (futures st); calls := calls st;
                    cancelled := cancelled st |}
| step_cancel (i : nat) (q : list nat) (st : pool) :
    queue st = i :: q ->
    raised_before (futures st) i = true ->
    pool_step st {| queue := q; running := running st;
                    futures := futures st; calls := calls st;
                    cancelled := cancelled st ++ [i] |}.

Definition pool_done (st : pool) : Prop := queue st = [] /\ running st = [].

(** What holds of every state the pool can reach: each task is waiting,
    or its call was started, or it was cancelled, and only one of
    these; a started call is in flight or its future is set; a future
    holds the outcome of the call on its own item; a cancelled task
    comes after an item on which the call raises. *)
Record pool_inv (st : pool) : Prop := {
  inv_tasks :
    Permutation (queue st ++ calls st ++ cancelled st) (seq 0 (length items));
  inv_calls : forall i, i ∈ calls st -> i ∈ running st \/ is_Some (futures st !! i);
  inv_running : forall i, i ∈ running st -> i ∈ calls st;
  inv_futures : forall i r, futures st !! i = Some r ->
                            exists a, items !! i = Some a /\ r = fn a;
  inv_cancelled : forall i, i ∈ cancelled st ->
                            exists j a e, (j < i)%nat /\ items !! j = Some a /\
                                          fn a = Raise e;
}.

(** Reading the futures in submission order. *)
Fixpoint collect (fs : gmap nat (Result B)) (ids : list nat) : Result (list B) :=
  match ids with
  | [] => Ok []
  | i :: ids' =>
      match fs !! i with
      | Some (Ok b) => bs ← collect fs ids'; Ok (b :: bs)
      | Some (Raise e) => Raise e
      | None => Raise ValueError
      end
  end.

(** A run of the pool driven by a schedule of events.  An event that is
    not enabled is skipped; [Finish n] counts modulo the number of
    calls in flight. *)
Definition take_task (st : pool) : pool :=
  match queue st with
  | i :: q =>
      if decide (length (running st) < max_workers)%nat
      then {| queue := q; running := running st ++ [i];
              futures := futures st; calls := calls st ++ [i];
              cancelled := cancelled st |}
      else st
  | [] => st
  end.

Definition finish_task (n : nat) (st : pool) : pool :=
  match running st with
  | [] => st
  | _ :: _ =>
      let k := (n mod length (running st))%nat in
      match running st !! k with
      | Some i =>
          match items !! i with
          | Some a => {| queue := queue st;
                         running := take k (running st) ++ drop (S k) (running st);
                         futures := <[i := fn a]> (futures st);
                         calls := calls st;
                         cancelled := cancelled st |}
          | None => st
          end
      | None => st
      end
  end.

Definition cancel_task (st : pool) : pool :=
  match queue st with
  | i :: q =>
      if raised_before (futures st) i
      then {| queue := q; running := running st;
              futures := futures st; calls := calls st;
              cancelled := cancelled st ++ [i] |}
      else st
  | [] => st
  end.

Definition pool_event (st : pool) (ev : event) : pool :=
  match ev with
  | Take => take_task st
  | Finish n => finish_task n st
  | Cancel => cancel_task st
  end.

(** When the schedule is used up the pool runs on until nothing waits
    and nothing is in flight ([shutdown(wait=True)] at the end of the
    [with] block). *)
Fixpoint drain (fuel : nat) (st : pool) : pool :=
  match fuel with
  | O => st
  | S fuel' =>
      match queue st, running st with
      | [], [] => st
      | _ :: _, _ =>
          if decide (length (running st) < max_workers)%nat
          then drain fuel' (take_task st)
          else drain fuel' (finish_task 0 st)
      | [], _ :: _ => drain fuel' (finish_task 0 st)
      end
  end.

Definition pool_run (schedule : list event) : pool :=
  let st := fold_left pool_event schedule pool_init in
  drain (2 * length (queue st) + length (running st)) st.

(** [with ThreadPoolExecutor(max_workers=...) as executor:
       scores = list(executor.map(fn, items))].
    The constructor raises [ValueError] for a bound that is not
    positive. *)
Definition executor_map (schedule : list event) : Result (list B) :=
  if decide (max_workers = 0)%nat then Raise ValueError
  else collect (futures (pool_run schedule)) (seq 0 (length items)).

End ThreadPool.

(** ** The scoring service *)

(** The text of the request is a fixed template around five
    interpolated values. *)
Record Prompt : Type := {
  p_user_profile : string;
  p_feed_name : string;
  p_title : string;
  p_content_snippet : string;
  p_link : string;
}.

(** What [client.chat.completions.create(...)] followed by
    [resp.choices[0].message.content] can do: raise, or give the content
    field, which the API types as an optional string. *)
Inductive api_outcome : Type :=
| ApiRaises
| ApiContent (content : option string).

Record Client : Type := { chat_completions_create : Prompt -> api_outcome }.

(** ** Data frames

    A frame is its column labels and its rows; a row maps a label to the
    cell.  The frames of this program descend from one [read_csv] by
    row selection and reordering, so their index labels are distinct and
    label alignment is position alignment. *)

Record DataFrame : Type := {
  columns : list string;
  rows : list (gmap string pyval);
}.

Definition has_column (df : DataFrame) (c : string) : bool :=
  bool_decide (c ∈ columns df).

Definition cell (r : gmap string pyval) (c : string) : pyval :=
  default VNaN (r !! c).

(** [df.empty]: one of the two axes has length 0. *)
Definition df_empty (df : DataFrame) : bool :=
  match rows df, columns df with
  | [], _ => true
  | _, [] => true
  | _, _ => false
  end.

(** [df[mask]] with the mask computed row by row. *)
Definition select_rows (df : DataFrame) (keep : gmap string pyval -> bool) : DataFrame :=
  {| columns := columns df; rows := List.filter keep (rows df) |}.

(** [df[c] = f(row)] / [df.assign(c=...)] with a value computed row by
    row. *)
Definition with_column (df : DataFrame) (c : string)
    (f : gmap string pyval -> pyval) : DataFrame :=
  {| columns := if has_column df c then columns df else columns df ++ [c];
     rows := map (fun r => <[c := f r]> r) (rows df) |}.

Fixpoint zip_column (c : string) (rs : list (gmap string pyval)) (vs : list pyval)
    : list (gmap string pyval) :=
  match rs, vs with
  | r :: rs', v :: vs' => <[c := v]> r :: zip_column c rs' vs'
  | _, _ => []
  end.

(** [df.assign(c=values)] with a list: the lengths must agree. *)
Definition assign (df : DataFrame) (c : string) (values : list pyval) : Result DataFrame :=
  if decide (length values = length (rows df))
  then Ok {| columns := if has_column df c then columns df else columns df ++ [c];
             rows := zip_column c (rows df) values |}
  else Raise ValueError.

(** [df.head(n)]: the first [n] rows, or all but the last [-n] for a
    negative [n]. *)
Definition truncate {T : Type} (n : Z) (l : list T) : list T :=
  if decide (0 <= n) then take (Z.to_nat n) l
  else take (length l - Z.to_nat (- n)) l.

Definition head (df : DataFrame) (n : Z) : DataFrame :=
  {| columns := columns df; rows := truncate n (rows df) |}.

(** [row.get(key, dflt)] on a row of [df.iterrows()]. *)
Definition row_get (df : DataFrame) (r : gmap string pyval) (key : string)
    (dflt : pyval) : pyval :=
  if has_column df key then cell r key else dflt.

(** [df.to_dict(orient="records")]. *)
Definition to_dict_records (df : DataFrame) : list (gmap string pyval) :=
  map (fun r => list_to_map (map (fun c => (c, cell r c)) (columns df))) (rows df).

Definition isna (v : pyval) : bool :=
  match v with
  | VNone | VNaN | VNaT => true
  | _ => false
  end.

(** One element of [a.fillna(b)]. *)
Definition fillna (a b : pyval) : pyval := if isna a then b else a.

(** The sort key of a cell of a datetime or float column; a missing
    value has none.  The two columns the program sorts by, [_ts] and
    [_personal_score], hold nothing else. *)
Definition sort_key (v : pyval) : option Z :=
  match v with
  | VTime t => Some t
  | VFloat z => Some z
  | VInt z => Some z
  | _ => None
  end.

(** [df[c]], top to bottom. *)
Definition column (df : DataFrame) (c : string) : list pyval :=
  map (fun r => cell r c) (rows df).

(** [df[c] = values] with one value per row. *)
Definition set_column (df : DataFrame) (c : string) (values : list pyval) : DataFrame :=
  {| columns := if has_column df c then columns df else columns df ++ [c];
     rows := imap (fun i r => <[c := default VNaN (values !! i)]> r) (rows df) |}.

(** A cell as [read_csv] can leave it: a number, a truth value, text
    that is not one of the texts of a missing value, or NaN for a cell
    that is empty or holds such a text.  Dates are read as text. *)
Definition csv_cell (v : pyval) : bool :=
  match v with
  | VNone | VTime _ | VNaT => false
  | VStr s => negb (is_na_text s)
  | _ => true
  end.

Definition csv_cells (df : DataFrame) : bool :=
  forallb (fun r => forallb (fun c => csv_cell (cell r c)) (columns df)) (rows df).

(** What [pd.read_csv] returns. *)
Record CsvFrame : Type := {
  frame :> DataFrame;
  frame_cells : csv_cells frame = true;
}.

(** ** YAML values *)

(** A value of a YAML document as [yaml.safe_load] returns it: null, a
    scalar, or another object (a sequence, a mapping, a date), of which
    the program can take no more than the truth value and the text
    [str] gives.  A float has an integral value, as in [pyval]. *)
Inductive yaml_value : Type :=
| YNull
| YBool (b : bool)
| YInt (z : Z)
| YFloat (z : Z)
| YNaN
| YStr (s : string)
| YObject (truthy : bool) (text : string).

(** [bool(v)]. *)
Definition yaml_truthy (v : yaml_value) : bool :=
  match v with
  | YNull => false
  | YBool b => b
  | YInt z => negb (z =? 0)
  | YFloat z => negb (z =? 0)
  | YNaN => true
  | YStr s => negb (String.eqb s "")
  | YObject truthy _ => truthy
  end.

(** [v.strip()]: only [str] has the method. *)
Definition yaml_strip (v : yaml_value) : Result string :=
  match v with
  | YStr s => Ok (strip s)
  | _ => Raise AttributeError
  end.

(** [int(v)]. *)
Definition yaml_int (v : yaml_value) : Result Z :=
  match v with
  | YBool b => Ok (if b then 1 else 0)
  | YInt z => Ok z
  | YFloat z => Ok z
  | YNaN => Raise ValueError
  | YStr s => match int_of_text s with
              | Some z => Ok z
              | None => Raise ValueError
              end
  | YNull | YObject _ _ => Raise TypeError
  end.

(** [str(v)]. *)
Definition yaml_str (v : yaml_value) : string :=
  match v with
  | YNull => "None"
  | YBool true => "True"
  | YBool false => "False"
  | YInt z => NilZero.string_of_int (Z.to_int z)
  | YFloat z => NilZero.string_of_int (Z.to_int z) ++ ".0"
  | YNaN => "nan"
  | YStr s => s
  | YObject _ text => text
  end.

(** The number of days of [timedelta(days=v)], whose magnitude is at
    most 999999999. *)
Definition timedelta_days (v : yaml_value) : Result Z :=
  match v with
  | YBool b => Ok (if b then 1 else 0)
  | YInt z | YFloat z => if Z.abs z <=? 999999999 then Ok z else Raise OverflowError
  | YNaN => Raise ValueError
  | YNull | YStr _ | YObject _ _ => Raise TypeError
  end.

(** A value the program subscripts or calls [.get] on: a mapping, or
    anything else (null, a scalar, a sequence). *)
Inductive yaml_node (A : Type) : Type :=
| YMapping (m : A)
| YNotMapping.
Arguments YMapping {A} m.
Arguments YNotMapping {A}.

(** ** Choosing the news file

    [data/raw] as [load_today_news] sees it: the entries of the
    directory in the order [glob] lists them, each with its name, its
    modification time and what [pd.read_csv] makes of it (a frame, or
    the exception it raises).  Names are matched as on a POSIX system,
    with case. *)

Record RawFile : Type := {
  file_name : string;
  mtime : Z;
  read_csv : Result CsvFrame;
}.

Definition is_suffix (suffix s : string) : bool :=
  let n := String.length s in
  let m := String.length suffix in
  (m <=? n)%nat && String.eqb (substring (n - m) m s) suffix.

(** [fnmatch(name, "news_*.csv")]. *)
Definition glob_news (name : string) : bool :=
  String.prefix "news_" name && is_suffix ".csv" name
  && (9 <=? String.length name)%nat.

(** [f"news_{today_str}.csv"]. *)
Definition today_name (today_str : string) : string :=
  ("news_" ++ today_str ++ ".csv")%string.

(** [max(files, key=os.path.getmtime)] after the first file: the first
    of the files with the largest modification time. *)
Fixpoint latest_from (best : RawFile) (files : list RawFile) : RawFile :=
  match files with
  | [] => best
  | f :: files' => latest_from (if mtime best <? mtime f then f else best) files'
  end.

(** The file [load_today_news] reads; [None] is [FileNotFoundError]. *)
Definition load_today_news (raw_dir : list RawFile) (today_str : string) : option RawFile :=
  match List.find (fun f => String.eqb (file_name f) (today_name today_str)) raw_dir with
  | Some today => Some today
  | None =>
      match List.filter (fun f => glob_news (file_name f)) raw_dir with
      | [] => None
      | f :: files => Some (latest_from f files)
      end
  end.

(** ** Configuration, environment and the seen-link store *)

(** [settings.yaml] as [yaml.safe_load] returns it, as far as the
    program reads it.  A key of a mapping is missing ([None]) or has a
    value of whatever type the file gives it. *)
Record Personalization : Type := {
  enable : option yaml_value;
  user_profile : option yaml_value;
  max_candidates : option yaml_value;
  top_n : option yaml_value;
  max_workers : option yaml_value;
}.

Record HotTopics : Type := {
  days_window : option yaml_value;
}.

Record SettingsMap : Type := {
  personalization : option (yaml_node Personalization);
  hot_topics : option (yaml_node HotTopics);
}.

Definition Settings : Type := yaml_node SettingsMap.

(** [{}], the default of [settings.get("personalization", {})]. *)
Definition no_personalization : Personalization :=
  {| enable := None; user_profile := None; max_candidates := None;
     top_n := None; max_workers := None |}.

(** What one run finds outside the program. *)
Record World : Type := {
  raw_dir : list RawFile;               (* the files of data/raw *)
  today_str : string;                   (* the date of the run, as in the file names *)
  settings_file : Result Settings;      (* what [load_settings] returns or raises *)
  DEEPSEEK_API_KEY : option string;     (* the environment variable *)
  deepseek : Client;                    (* the answers of the scoring requests *)
  translator : string -> api_outcome;   (* the answers of the translation requests *)
  now : Z;                              (* the clock, in nanoseconds *)
  schedule : list event;                (* how the threads interleave *)
}.

(** [seen_items.csv]: absent, unreadable or without a [link] column
    ([None]), or the texts of the cells of its [link] column, top to
    bottom. *)
Definition SeenStore : Type := option (list string).

(** The order of [str]: by code point. *)
Definition str_le (a b : string) : Prop := String.leb a b = true.

#[global] Instance str_le_dec : RelDecision str_le.
Proof. intros a b. unfold str_le. apply _. Defined.

(** [sorted(links)]. *)
Definition sorted_links (links : gset string) : list string :=
  merge_sort str_le (elements links).

(** [pd.DataFrame(sorted(links), columns=["link"]).to_csv(...)]. *)
Definition save_seen_links (links : gset string) : SeenStore := Some (sorted_links links).

Section Pipeline.

Context `{P : Pandas}.

(** [str(v)]. *)
Definition py_str (v : pyval) : string :=
  match v with
  | VNone => "None"
  | VBool true => "True"
  | VBool false => "False"
  | VInt z => NilZero.string_of_int (Z.to_int z)
  | VFloat z => NilZero.string_of_int (Z.to_int z) ++ ".0"
  | VNaN => "nan"
  | VStr s => s
  | VTime t => timestamp_str t
  | VNaT => "NaT"
  end.

(** One element of [col.astype(str)]: a missing value stays missing
    ([None]), anything else is rendered. *)
Definition astype_str (v : pyval) : option string :=
  if isna v then None else Some (py_str v).

(** [pd.to_datetime(col, errors="coerce", utc=True)] on a column: a
    timestamp stays, a missing value is NaT, and what becomes of text
    or a number depends on the column it stands in. *)
Definition to_datetime (col : list pyval) : list pyval :=
  imap (fun i v =>
          match v with
          | VTime t => VTime t
          | VNone | VNaN | VNaT => VNaT
          | _ => match to_datetime_raw col i with
                 | Some t => VTime t
                 | None => VNaT
                 end
          end) col.

(** The loop over [["published", "fetched_at"]]: each of the two
    columns the frame has is replaced by its conversion. *)
Definition convert_date_columns (df : DataFrame) : DataFrame :=
  fold_left
    (fun d col => if has_column d col
                  then set_column d col (to_datetime (column d col))
                  else d)
    ["published"; "fetched_at"]%string df.

(** [df.sort_values(c, ascending=False)]. *)
Definition sort_values_desc (df : DataFrame) (c : string) : DataFrame :=
  let keys := map (fun r => sort_key (cell r c)) (rows df) in
  {| columns := columns df;
     rows := map (fun i => nth i (rows df) ∅) (nargsort_desc keys) |}.

(** [set(df_seen["link"].dropna().astype(str))] of the file read by
    [read_csv]: a cell whose text is one of those of a missing value is
    dropped, and so is any other cell read as missing; the others are
    rendered as their column was typed.  Every failure gives the empty
    set. *)
Definition read_links (cells : list string) : gset string :=
  list_to_set
    (omap (fun t => if is_na_text t then None else csv_read_back cells t) cells).

Definition load_seen_links (store : SeenStore) : gset string :=
  match store with
  | None => ∅
  | Some cells => read_links cells
  end.

(** ** The scorer *)

Definition score_item_with_deepseek
    (client : Client) (user_profile : string) (item : gmap string pyval) : Result Z :=
  let title := py_or (dict_get item "title" (VStr "")) (VStr "") in
  let summary := py_or (dict_get item "summary" (VStr "")) (VStr "") in
  let feed_name := py_or (dict_get item "feed_name" (VStr "")) (VStr "") in
  let link := py_or (dict_get item "link" (VStr "")) (VStr "") in
  stripped ← py_strip summary;
  let content_snippet := if negb (String.eqb stripped "") then summary else title in
  let prompt := {| p_user_profile := user_profile;
                   p_feed_name := py_str feed_name;
                   p_title := py_str title;
                   p_content_snippet := py_str content_snippet;
                   p_link := py_str link |} in
  try_except
    (raw ← match chat_completions_create client prompt with
            | ApiRaises => Raise ApiError
            | ApiContent None => Raise AttributeError
            | ApiContent (Some c) => Ok c
            end;
     let content := strip raw in
     let digits := findall_digits content in
     match digits with
     | [] => Ok 0
     | d :: _ =>
         let score := digits_value d in
         Ok (clamp_score score)
     end)
    (fun _ => Ok 0).


(** ** The recency window *)

Definition nanoseconds_per_day : Z := 86400 * 1000000000.

(** [datetime.min] and [datetime.max], in nanoseconds since the epoch. *)
Definition datetime_min : Z := -62135596800 * 1000000000.
Definition datetime_max : Z := 253402300799999999 * 1000.

(** [datetime.now(timezone.utc) - timedelta(days=days_window)]: the
    difference is a [datetime], so it lies between [datetime.min] and
    [datetime.max]. *)
Definition cutoff_of (now : Z) (days_window : yaml_value) : Result Z :=
  days ← timedelta_days days_window;
  let cutoff := now - days * nanoseconds_per_day in
  if (datetime_min <=? cutoff) && (cutoff <=? datetime_max) then Ok cutoff
  else Raise OverflowError.

Definition get_recent_data (df : DataFrame) (days_window : yaml_value) (now : Z)
    : Result DataFrame :=
  let df := convert_date_columns df in
  if negb (has_column df "published") then Raise (KeyError "published")
  else if negb (has_column df "fetched_at") then Raise (KeyError "fetched_at")
  else
    let ts r := fillna (cell r "published") (cell r "fetched_at") in
    cutoff ← cutoff_of now days_window;
    Ok (select_rows df (fun r => match ts r with
                                 | VTime t => cutoff <=? t
                                 | _ => false
                                 end)).

(** ** Filtering what was already delivered *)

(** [~df["link"].astype(str).isin(seen_links)]: a row whose link is
    missing is in no set and is kept. *)
Definition filter_unseen_items (df : DataFrame) (seen_links : gset string) : DataFrame :=
  if negb (has_column df "link") then df
  else if decide (seen_links = ∅) then df
  else
    select_rows df (fun r => match astype_str (cell r "link") with
                             | Some link => negb (bool_decide (link ∈ seen_links))
                             | None => true
                             end).

(** ** Personalised recommendations *)

Definition get_deepseek_client (w : World) : option Client :=
  match DEEPSEEK_API_KEY w with
  | None => None
  | Some key => if String.eqb key "" then None else Some (deepseek w)
  end.

(** Lines 264-273 of [personalized_recommendations]: newest first, then
    the first [max_candidates]. *)
Definition select_candidates (recent_df : DataFrame) (max_candidates : Z) : Result DataFrame :=
  let tmp := convert_date_columns recent_df in
  if negb (has_column tmp "published") then Raise (KeyError "published")
  else if negb (has_column tmp "fetched_at") then Raise (KeyError "fetched_at")
  else
    let tmp := with_column tmp "_ts"
                 (fun r => fillna (cell r "published") (cell r "fetched_at")) in
    let tmp := sort_values_desc tmp "_ts" in
    Ok (head tmp max_candidates).

(** Lines 288-289: attach the scores, sort by them, keep [top_n]. *)
Definition rank (candidates : DataFrame) (scores : list Z) (top_n : Z) : Result DataFrame :=
  candidates ← assign candidates "_personal_score" (map VFloat scores);
  Ok (head (sort_values_desc candidates "_personal_score") top_n).

(** [settings.get("personalization", {})], as the mapping the [.get]
    calls that follow read: [.get] on what is not a mapping raises
    [AttributeError]. *)
Definition get_personalization (settings : Settings) : Result Personalization :=
  match settings with
  | YNotMapping => Raise AttributeError
  | YMapping m =>
      match personalization m with
      | None => Ok no_personalization
      | Some (YMapping p) => Ok p
      | Some YNotMapping => Raise AttributeError
      end
  end.

Definition personalized_recommendations (w : World) (recent_df : DataFrame)
    (settings : Settings) : Result (option DataFrame) :=
  personalization ← get_personalization settings;
  let enable := default (YBool false) (enable personalization) in
  if negb (yaml_truthy enable) then Ok None
  else
    user_profile ← yaml_strip (default (YStr "") (user_profile personalization));
    if String.eqb user_profile "" then Ok None
    else
      match get_deepseek_client w with
      | None => Ok None
      | Some client =>
          max_candidates ← yaml_int (default (YInt 80) (max_candidates personalization));
          top_n ← yaml_int (default (YInt 10) (top_n personalization));
          max_workers ← yaml_int (default (YInt 30) (max_workers personalization));
          if df_empty recent_df then Ok None
          else
            candidates ← select_candidates recent_df max_candidates;
            let items := to_dict_records candidates in
            let _score item_dict := score_item_with_deepseek client user_profile item_dict in
            scores ← executor_map _score items (Z.to_nat max_workers) (schedule w);
            ranked ← rank candidates scores top_n;
            Ok (Some ranked)
      end.

(** ** The main program *)

Definition translate_to_zh (w : World) (text : pyval) : Result string :=
  let text := py_or text (VStr "") in
  stripped ← py_strip text;
  if String.eqb stripped "" then Ok ""%string
  else
    match DEEPSEEK_API_KEY w with
    | None => Ok (py_str text)
    | Some key =>
        if String.eqb key "" then Ok (py_str text)
        else
          try_except
            (match translator w (py_str text) with
             | ApiRaises => Raise ApiError
             | ApiContent None => Raise AttributeError
             | ApiContent (Some c) => Ok (strip c)
             end)
            (fun _ => Ok (py_str text))
    end.

(** [int(v)]. *)
Definition py_int (v : pyval) : Result Z :=
  match v with
  | VBool b => Ok (if b then 1 else 0)
  | VInt z => Ok z
  | VFloat z => Ok z
  | _ => Raise ValueError
  end.

(** The loop over [personalized.iterrows()]: the set of links it
    collects.  The lines it prints and stores for the mail are text only
    and are left out. *)
Fixpoint recommend_rows (w : World) (personalized : DataFrame)
    (rs : list (gmap string pyval)) (recommended_links : gset string)
    : Result (gset string) :=
  match rs with
  | [] => Ok recommended_links
  | row :: rs' =>
      zh_title ← translate_to_zh w (row_get personalized row "title" (VStr ""));
      let link := py_str (row_get personalized row "link" (VStr "")) in
      score ← py_int (row_get personalized row "_personal_score" (VInt 0));
      let recommended_links :=
        if negb (String.eqb link "") then {[ link ]} ∪ recommended_links
        else recommended_links in
      recommend_rows w personalized rs' recommended_links
  end.

Inductive outcome : Type :=
| NoNewsFile                       (* [FileNotFoundError] caught *)
| NoNewItems                       (* everything was delivered before *)
| NothingToRecommend               (* no report, or an empty one *)
| Reported (report : DataFrame).


(** [settings["hot_topics"]["days_window"]]: a subscript on what is not
    a mapping raises [TypeError], a missing key [KeyError]. *)
Definition get_days_window (settings : Settings) : Result yaml_value :=
  match settings with
  | YNotMapping => Raise TypeError
  | YMapping m =>
      match hot_topics m with
      | None => Raise (KeyError "hot_topics")
      | Some YNotMapping => Raise TypeError
      | Some (YMapping h) =>
          match days_window h with
          | None => Raise (KeyError "days_window")
          | Some v => Ok v
          end
      end
  end.

(** One run: what it ends with, and the store it leaves. *)
Definition main (w : World) (store : SeenStore) : Result outcome * SeenStore :=
  match load_today_news (raw_dir w) (today_str w) with
  | None => (Ok NoNewsFile, store)
  | Some file =>
      match read_csv file with
      | Raise FileNotFoundError => (Ok NoNewsFile, store)
      | Raise e => (Raise e, store)
      | Ok df =>
          let seen_links := load_seen_links store in
          let df := filter_unseen_items df seen_links in
          if df_empty df then (Ok NoNewItems, store)
          else
            let body : Result (option (DataFrame * gset string)) :=
              settings ← settings_file w;
              days_window ← get_days_window settings;
              recent ← get_recent_data df days_window (now w);
              personalized ← personalized_recommendations w recent settings;
              match personalized with
              | None => Ok None
              | Some personalized =>
                  if df_empty personalized then Ok None
                  else
                    recommended_links ← recommend_rows w personalized (rows personalized) ∅;
                    Ok (Some (personalized, recommended_links))
              end in
            match body with
            | Raise e => (Raise e, store)
            | Ok None => (Ok NothingToRecommend, store)
            | Ok (Some (personalized, recommended_links)) =>
                if decide (recommended_links = ∅) then (Ok (Reported personalized), store)
                else (Ok (Reported personalized),
                      save_seen_links (seen_links ∪ recommended_links))
            end
      end
  end.

End Pipeline.

(** ** A sort backend for the examples

    It meets [sort_contract].  Indices are inserted from the last to
    the first into the sorted indexer of the later ones, an index going
    before the later indices with the same key: a stable sort, what
    [kind="stable"] would give. *)

Definition desc_leb (a b : option Z) : bool :=
  match a, b with
  | Some x, Some y => y <=? x
  | Some _, None => true
  | None, None => true
  | None, Some _ => false
  end.

Fixpoint insert_index (keys : list (option Z)) (i : nat) (l : list nat) : list nat :=
  match l with
  | [] => [i]
  | j :: l' =>
      if desc_leb (nth i keys None) (nth j keys None)
      then i :: j :: l'
      else j :: insert_index keys i l'
  end.

Definition insertion_argsort (keys : list (option Z)) : list nat :=
  fold_right (insert_index keys) [] (seq 0 (length keys)).

(** The dates of the examples are numbers: [pd.to_datetime] takes a
    number for nanoseconds since the epoch, whatever else the column
    holds.  Text is left unparsed. *)
Definition epoch_to_datetime (col : list pyval) (i : nat) : option Z :=
  match col !! i with
  | Some (VInt z) | Some (VFloat z) => Some z
  | _ => None
  end.

(** The links of the examples come back from the CSV file as they were
    written. *)
Definition read_back_text (cells : list string) (t : string) : option string :=
  if is_na_text t then None else Some t.

Lemma read_back_text_not_na (cells : list string) (t s : string) :
  read_back_text cells t = Some s -> is_na_text s = false.
Proof.
  unfold read_back_text. destruct (is_na_text t) eqn:E; [discriminate|].
  now intros [= <-].
Qed.

Definition stable_pandas : Pandas :=
  {| to_datetime_raw := epoch_to_datetime;
     timestamp_str := fun t => NilZero.string_of_int (Z.to_int t);
     nargsort_desc := insertion_argsort;
     csv_read_back := read_back_text;
     csv_read_back_not_na := read_back_text_not_na |}.

(** ** Sample data *)

Definition news_columns : list string :=
  ["feed_id"; "feed_name"; "tags"; "title"; "link"; "summary"; "published"; "fetched_at"]%string.

Definition news_row (feed title : string) (link summary published fetched : pyval)
    : gmap string pyval :=
  list_to_map
    [("feed_id", VStr feed); ("feed_name", VStr feed); ("tags", VNaN);
     ("title", VStr title); ("link", link); ("summary", summary);
     ("published", published); ("fetched_at", fetched)]%string.

Definition row_A : gmap string pyval :=
  news_row "mit" "Alpha" (VStr "https://a") (VStr "about a") (VFloat 300) (VInt 1000).
Definition row_B : gmap string pyval :=
  news_row "mit" "Beta" (VStr "https://b") (VStr "about b") (VFloat 200) (VInt 1000).
Definition row_C : gmap string pyval :=
  news_row "cmu" "Gamma" (VStr "https://c") (VStr "about c") VNaN (VInt 100).
(** An entry the feed gave no summary for: the cell is empty in the CSV
    file and [read_csv] makes it NaN. *)
Definition row_D : gmap string pyval :=
  news_row "cmu" "Delta" (VStr "https://d") VNaN (VFloat 50) (VInt 1000).
(** An entry the feed gave no link for. *)
Definition row_E : gmap string pyval :=
  news_row "cmu" "Epsilon" VNaN (VStr "about e") (VFloat 250) (VInt 1000).

Definition batch_ABC : DataFrame := {| columns := news_columns; rows := [row_A; row_B; row_C] |}.

Definition empty_batch : DataFrame := {| columns := news_columns; rows := [] |}.

(** A frame without the [link] column. *)
Definition batch_no_link : DataFrame :=
  {| columns := ["title"; "summary"]%string;
     rows := [ list_to_map [("title", VStr "Alpha"); ("summary", VStr "about a")]%string ] |}.

(** What [read_csv] makes of a file that holds a header line and
    nothing else, the header naming no date column. *)
Definition batch_header_only : DataFrame :=
  {| columns := ["title"; "link"]%string; rows := [] |}.

(** A batch of one item without a link. *)
Definition batch_E : DataFrame := {| columns := news_columns; rows := [row_E] |}.

Definition csv_ABC : CsvFrame := Build_CsvFrame batch_ABC ltac:(vm_compute; reflexivity).
Definition csv_empty : CsvFrame := Build_CsvFrame empty_batch ltac:(vm_compute; reflexivity).
Definition csv_E : CsvFrame := Build_CsvFrame batch_E ltac:(vm_compute; reflexivity).

(** A service that answers 80 for B, "40/100" for C, and fails for
    everything else. *)
Definition sample_client : Client :=
  {| chat_completions_create := fun p =>
       if String.eqb (p_title p) "Beta" then ApiContent (Some "80")
       else if String.eqb (p_title p) "Gamma" then ApiContent (Some " 40/100 ")
       else ApiRaises |}.

Definition sample_personalization : Personalization :=
  {| enable := Some (YBool true); user_profile := Some (YStr "likes robots");
     max_candidates := Some (YInt 80); top_n := Some (YInt 1); max_workers := Some (YInt 2) |}.

Definition one_day : HotTopics := {| days_window := Some (YInt 1) |}.

Definition sample_settings : Settings :=
  YMapping {| personalization := Some (YMapping sample_personalization);
              hot_topics := Some (YMapping one_day) |}.

(** [data/raw] with the file of the day and nothing else. *)
Definition todays_file (df : CsvFrame) : list RawFile :=
  [ {| file_name := "news_2024-05-01.csv"; mtime := 100; read_csv := Ok df |} ].

Definition sample_world : World :=
  {| raw_dir := todays_file csv_ABC;
     today_str := "2024-05-01";
     settings_file := Ok sample_settings;
     DEEPSEEK_API_KEY := Some "sk-test"%string;
     deepseek := sample_client;
     translator := fun _ => ApiRaises;
     now := 1000;
     schedule := [Take; Take; Finish 1; Take; Finish 0] |}.

Definition seen_A : SeenStore := Some ["https://a"%string].

(** A run that finds an empty batch, with no key in the environment. *)
Definition empty_world : World :=
  {| raw_dir := todays_file csv_empty;
     today_str := "2024-05-01";
     settings_file := Ok sample_settings;
     DEEPSEEK_API_KEY := None;
     deepseek := sample_client;
     translator := fun _ => ApiRaises;
     now := 1000;
     schedule := [] |}.

(** A run on the item without a link. *)
Definition linkless_world : World :=
  {| raw_dir := todays_file csv_E;
     today_str := "2024-05-01";
     settings_file := Ok sample_settings;
     DEEPSEEK_API_KEY := Some "sk-test"%string;
     deepseek := sample_client;
     translator := fun _ => ApiRaises;
     now := 1000;
     schedule := [Take; Finish 0] |}.

(** Settings that say nothing about personalisation. *)
Definition bare_settings : Settings :=
  YMapping {| personalization := None; hot_topics := Some (YMapping one_day) |}.

(** Personalisation switched on, with [user_profile:] left blank in the
    file: the value of the key is null. *)
Definition blank_profile_settings : Settings :=
  YMapping {| personalization :=
                Some (YMapping {| enable := Some (YBool true); user_profile := Some YNull;
                                  max_candidates := None; top_n := None;
                                  max_workers := None |});
              hot_topics := Some (YMapping one_day) |}.

(** Personalisation switched on, with a [top_n] that is not a number. *)
Definition bad_top_n_settings : Settings :=
  YMapping {| personalization :=
                Some (YMapping {| enable := Some (YBool true);
                                  user_profile := Some (YStr "likes robots");
                                  max_candidates := None; top_n := Some (YStr "ten");
                                  max_workers := None |});
              hot_topics := Some (YMapping one_day) |}.

(** Two tasks for the pool alone. *)
Definition tenfold (n : Z) : Result Z := Ok (10 * n).

Definition fails_on_first (n : Z) : Result Z :=
  if n =? 1 then Raise ApiError else Ok (10 * n).

(** ** Vocabulary of the statements *)

Fixpoint no_digits (s : string) : bool :=
  match s with
  | EmptyString => true
  | String c rest => negb (is_digit c) && no_digits rest
  end.

Fixpoint all_digits (s : string) : bool :=
  match s with
  | EmptyString => true
  | String c rest => is_digit c && all_digits rest
  end.

Definition starts_with_digit (s : string) : bool :=
  match s with
  | EmptyString => false
  | String c _ => is_digit c
  end.

(** The [summary] the scorer works with, after [or ""]. *)
Definition summary_of (item : gmap string pyval) : pyval :=
  py_or (dict_get item "summary" (VStr "")) (VStr "").

(** What the [try] block makes of the outcome of the request. *)
Definition score_of_outcome (o : api_outcome) : Z :=
  match o with
  | ApiRaises => 0
  | ApiContent None => 0
  | ApiContent (Some c) =>
      match findall_digits c with
      | [] => 0
      | d :: _ => clamp_score (digits_value d)
      end
  end.

(** The order of two indices by their keys. *)
Definition key_order (keys : list (option Z)) (i j : nat) : Prop :=
  desc_le (nth i keys None) (nth j keys None).

(** The candidates with their scores attached, in input order. *)
Definition scored_rows (candidates : DataFrame) (scores : list Z)
    : list (gmap string pyval) :=
  zip_column "_personal_score" (rows candidates) (map VFloat scores).

Definition row_score (r : gmap string pyval) : Z :=
  match cell r "_personal_score" with
  | VFloat z => z
  | _ => 0
  end.

Definition score_order (r1 r2 : gmap string pyval) : Prop := row_score r2 <= row_score r1.


(** The news file [main] reads, if there is one, and what [read_csv]
    makes of it. *)
Definition news_of (w : World) : option (Result CsvFrame) :=
  read_csv <$> load_today_news (raw_dir w) (today_str w).

(** The tunables [personalized_recommendations] reads. *)
Definition cfg_enabled (settings : Settings) : bool :=
  match get_personalization settings with
  | Ok p => yaml_truthy (default (YBool false) (enable p))
  | Raise _ => false
  end.
Definition cfg_profile (settings : Settings) : Result string :=
  p ← get_personalization settings;
  yaml_strip (default (YStr "") (user_profile p)).
Definition cfg_max_candidates (settings : Settings) : Result Z :=
  p ← get_personalization settings;
  yaml_int (default (YInt 80) (max_candidates p)).
Definition cfg_top_n (settings : Settings) : Result Z :=
  p ← get_personalization settings;
  yaml_int (default (YInt 10) (top_n p)).
Definition cfg_max_workers (settings : Settings) : Result Z :=
  p ← get_personalization settings;
  yaml_int (default (YInt 30) (max_workers p)).

(** The settings are well-formed for [personalized_recommendations]:
    it reads the profile and the three numbers without an exception. *)
Definition well_formed (settings : Settings) : Prop :=
  exists profile max_candidates top_n max_workers,
    cfg_profile settings = Ok profile /\
    cfg_max_candidates settings = Ok max_candidates /\
    cfg_top_n settings = Ok top_n /\
    cfg_max_workers settings = Ok max_workers.

(** The identifier of a row under [str(row.get("link", ""))]. *)
Definition link_id `{P : Pandas} (df : DataFrame) (r : gmap string pyval) : string :=
  py_str (row_get df r "link" (VStr "")).

(** The identifiers of the rows of a report; the empty string is none. *)
Definition report_links `{P : Pandas} (report : DataFrame) : gset string :=
  list_to_set
    (List.filter (fun l => negb (String.eqb l "")) (map (link_id report) (rows report))).

(** What the conversion of the column [c] of [df] leaves in row [i]. *)
Definition converted `{P : Pandas} (df : DataFrame) (c : string) (i : nat) : pyval :=
  default VNaT (to_datetime (column df c) !! i).

(** The effective timestamp of row [i] of a frame, in the words of the
    specification: [published] if present and parseable, else
    [fetched_at]; [None] when neither is.  A cell is parseable when
    [pd.to_datetime] gives a timestamp for it in its column. *)
Definition effective_ts `{P : Pandas} (df : DataFrame) (i : nat) : option Z :=
  match converted df "published" i with
  | VTime t => Some t
  | _ => match converted df "fetched_at" i with
         | VTime t => Some t
         | _ => None
         end
  end.

(** What [get_recent_data] makes of row [i]: the two date columns
    converted. *)
Definition convert_dates `{P : Pandas} (df : DataFrame) (i : nat) (r : gmap string pyval)
    : gmap string pyval :=
  <["fetched_at" := converted df "fetched_at" i]>
    (<["published" := converted df "published" i]> r).

(** What [select_candidates] makes of row [i]: the two date columns
    converted and [_ts] added. *)
Definition prepare `{P : Pandas} (df : DataFrame) (i : nat) (r : gmap string pyval)
    : gmap string pyval :=
  <["_ts" := fillna (converted df "published" i) (converted df "fetched_at" i)]>
    (convert_dates df i r).

(** The effective timestamp of row [i] is not before the cutoff. *)
Definition in_window `{P : Pandas} (df : DataFrame) (cutoff : Z) (i : nat) : bool :=
  match effective_ts df i with
  | Some t => cutoff <=? t
  | None => false
  end.

(** The rows of a frame whose effective timestamp is not before the
    cutoff, in their order, with the two date columns converted. *)
Definition window_rows `{P : Pandas} (df : DataFrame) (cutoff : Z)
    : list (gmap string pyval) :=
  omap (fun ir => if in_window df cutoff ir.1
                  then Some (convert_dates df ir.1 ir.2) else None)
       (imap pair (rows df)).

(** [(v or "").strip()] finds a [str]. *)
Definition has_strip (v : pyval) : bool :=
  match py_or v (VStr "") with
  | VStr _ => true
  | _ => false
  end.

(** A field of an item as the scorer reads it: [item.get(k, "") or ""]. *)
Definition field_of (item : gmap string pyval) (k : string) : pyval :=
  py_or (dict_get item k (VStr "")) (VStr "").

(** The request the scorer sends for an item with a textual summary. *)
Definition request_of `{P : Pandas} (profile : string) (item : gmap string pyval)
    (summary : string) : Prompt :=
  {| p_user_profile := profile;
     p_feed_name := py_str (field_of item "feed_name");
     p_title := py_str (field_of item "title");
     p_content_snippet := if String.eqb (strip summary) "" then py_str (field_of item "title")
                          else summary;
     p_link := py_str (field_of item "link") |}.

(** ** The fetcher ([fetch_feed.py])

    A feed is one entry of [config/feeds.yaml]: a dictionary whose keys
    [url], [id] and [name] may each be missing; [tags], when present, is
    a list of strings.  An entry of a parsed feed is seen through
    [getattr(e, attribute, "")], so it is the map of the attributes it
    has.  [feedparser.parse] is the outside world: it returns the
    entries of a feed or raises. *)

Record Feed : Type := {
  feed_url : option pyval;
  feed_id : option pyval;
  feed_name : option pyval;
  feed_tags : option (list string);
}.

Definition Entry : Type := gmap string pyval.

(** [feed[k]]. *)
Definition feed_item (k : string) (field : option pyval) : Result pyval :=
  match field with
  | Some v => Ok v
  | None => Raise (KeyError k)
  end.

(** [getattr(e, attribute, "")]. *)
Definition getattr (e : Entry) (attribute : string) : pyval :=
  default (VStr "") (e !! attribute).

(** The dictionary appended for one entry, once [feed["id"]] and
    [feed["name"]] are there; [fetched_at] is the reading of the clock
    made for it. *)
Definition feed_row (id name : pyval) (tags : option (list string))
    (fetched_at : string) (e : Entry) : gmap string pyval :=
  list_to_map
    [("feed_id", id); ("feed_name", name);
     ("tags", VStr (String.concat "," (default [] tags)));
     ("title", getattr e "title"); ("link", getattr e "link");
     ("summary", getattr e "summary"); ("published", getattr e "published");
     ("fetched_at", VStr fetched_at)]%string.

Definition entry_row (feed : Feed) (fetched_at : string) (e : Entry)
    : Result (gmap string pyval) :=
  id ← feed_item "id" (feed_id feed);
  name ← feed_item "name" (feed_name feed);
  Ok (feed_row id name (feed_tags feed) fetched_at e).

Section Fetcher.
(** [feedparser.parse(url).entries]. *)
Variable parse : pyval -> Result (list Entry).

(** [clock k] is [datetime.now(timezone.utc).isoformat()] as read for
    the [k]-th entry of the feed being fetched. *)
Definition fetch_feed (clock : nat -> string) (feed : Feed)
    : Result (list (gmap string pyval)) :=
  url ← feed_item "url" (feed_url feed);
  entries ← parse url;
  mapM (fun ke => entry_row feed (clock ke.1) ke.2) (imap pair entries).

(** One turn of the loop of [main], from the rows gathered so far.
    Both [print] calls format [feed['name']]: the one of the [try]
    body after the rows were added, the one of the handler after any
    exception; a [KeyError] raised in the handler leaves [main]. *)
Definition fetch_turn (clock : nat -> string) (feed : Feed)
    (all_rows : list (gmap string pyval)) : Result (list (gmap string pyval)) :=
  try_except
    (rows ← fetch_feed clock feed;
     _ ← feed_item "name" (feed_name feed);
     Ok (all_rows ++ rows))
    (fun _ => _ ← feed_item "name" (feed_name feed); Ok all_rows).

Fixpoint fetch_loop (clock : nat -> nat -> string) (i : nat) (feeds : list Feed)
    (all_rows : list (gmap string pyval)) : Result (list (gmap string pyval)) :=
  match feeds with
  | [] => Ok all_rows
  | feed :: feeds' =>
      all_rows' ← fetch_turn (clock i) feed all_rows;
      fetch_loop clock (S i) feeds' all_rows'
  end.

(** [main]: the file it writes, as its name and the frame saved in
    it; [None] when it returns after "No data fetched.".
    [load_feeds] is the list under [feeds] of the configuration, or
    the exception that reading it raises; [clock i] is the clock
    during the fetch of the [i]-th feed. *)
Definition fetch_main (load_feeds : Result (list Feed)) (clock : nat -> nat -> string)
    (today : string) : Result (option (string * DataFrame)) :=
  feeds ← load_feeds;
  all_rows ← fetch_loop clock 0 feeds [];
  match all_rows with
  | [] => Ok None
  | _ => Ok (Some (today_name today,
                   {| columns := news_columns; rows := all_rows |}))
  end.
End Fetcher.

(** The rows a feed contributes to the file: those of its fetch, none
    when the fetch raised. *)
Definition rows_of_feed (parse : pyval -> Result (list Entry)) (clock : nat -> string)
    (feed : Feed) : list (gmap string pyval) :=
  match fetch_feed parse clock feed with
  | Ok rows => rows
  | Raise _ => []
  end.

(** ** Mail ([send_email.py])

    [os.environ] is a map from names to text.  [config/email.yaml],
    when the file exists, is what [yaml.safe_load(f)] makes of it: an
    exception for a file that is not YAML, a mapping, or another value
    (null for an empty file, a sequence, text, a number).  Of a mapping
    the entries under text keys are kept; the program stores the others
    under their own keys and never reads them.  Both functions raise
    [RuntimeError] for what they refuse. *)

Inductive mail_error : Type :=
| RuntimeError
| PortValueError                 (* the [ValueError] of [int(port)] *)
| MailKeyError (k : string)
| MailAttributeError             (* [y.items()] on what is not a mapping *)
| YAMLError.                     (* raised by [yaml.safe_load] *)

Inductive yaml_document : Type :=
| YamlInvalid                                  (* [yaml.safe_load] raises *)
| YamlDict (y : gmap string yaml_value)
| YamlOther (v : yaml_value).                  (* anything but a mapping *)

Definition env_keys : list string :=
  ["EMAIL_FROM"; "EMAIL_TO"; "EMAIL_PASSWORD"; "EMAIL_SMTP_SERVER"; "EMAIL_SMTP_PORT"]%string.

Definition required_keys : list string :=
  ["EMAIL_FROM"; "EMAIL_TO"; "EMAIL_PASSWORD"]%string.

(** [val = os.environ.get(key)] under [if val:]. *)
Definition env_value (environ : gmap string string) (key : string) : option string :=
  match environ !! key with
  | Some val => if String.eqb val "" then None else Some val
  | None => None
  end.

(** The first loop. *)
Definition from_environ (environ : gmap string string) : gmap string string :=
  fold_left
    (fun cfg key =>
       match env_value environ key with
       | Some val => <[key := val]> cfg
       | None => cfg
       end)
    env_keys ∅.

(** [all(k in cfg for k in required_keys)]. *)
Definition has_required (cfg : gmap string string) : bool :=
  forallb (fun k => bool_decide (is_Some (cfg !! k))) required_keys.

(** [cfg.setdefault(k, v)]. *)
Definition setdefault (k v : string) (cfg : gmap string string) : gmap string string :=
  match cfg !! k with
  | Some _ => cfg
  | None => <[k := v]> cfg
  end.

(** [text.encode("ascii")] succeeds. *)
Fixpoint is_ascii (s : string) : bool :=
  match s with
  | EmptyString => true
  | String c rest => (N_of_ascii c <? 128)%N && is_ascii rest
  end.

(** ["".join(text.split())]. *)
Fixpoint remove_whitespace (s : string) : string :=
  match s with
  | EmptyString => EmptyString
  | String c rest =>
      if py_isspace c then remove_whitespace rest else String c (remove_whitespace rest)
  end.

(** What [send_email] asks of the SMTP server. *)
Record SmtpSession : Type := {
  smtp_server : string;
  smtp_port : Z;
  login_user : string;
  login_password : string;
  mail_from : string;
  mail_to : list string;
  mail_subject : string;
  mail_body : string;
}.

(** The loop over [y.items()]. *)
Definition from_yaml (y : gmap string yaml_value) (cfg : gmap string string)
    : gmap string string :=
  map_fold
    (fun k v cfg =>
       match v, cfg !! k with
       | YNull, _ => cfg
       | _, Some _ => cfg
       | _, None => <[k := yaml_str v]> cfg
       end)
    cfg y.

(** [y = yaml.safe_load(f) or {}] followed by the loop. *)
Definition read_yaml (doc : yaml_document) (cfg : gmap string string)
    : mail_error + gmap string string :=
  match doc with
  | YamlInvalid => inl YAMLError
  | YamlDict y => inr (from_yaml y cfg)
  | YamlOther v => if yaml_truthy v then inl MailAttributeError else inr cfg
  end.

(** [load_email_config]; [inl RuntimeError] for either of its two
    [raise].  [yaml_file] is [None] when the file does not exist. *)
Definition load_email_config (environ : gmap string string)
    (yaml_file : option yaml_document) : mail_error + gmap string string :=
  let cfg := from_environ environ in
  match (if has_required cfg then inr cfg
         else match yaml_file with
              | None => inl RuntimeError
              | Some doc => read_yaml doc cfg
              end) with
  | inl e => inl e
  | inr cfg =>
      if has_required cfg
      then inr (setdefault "EMAIL_SMTP_PORT" "587"
                  (setdefault "EMAIL_SMTP_SERVER" "smtp.gmail.com" cfg))
      else inl RuntimeError
  end.

(** [cfg[k]]. *)
Definition cfg_item (cfg : gmap string string) (k : string) : mail_error + string :=
  match cfg !! k with
  | Some v => inr v
  | None => inl (MailKeyError k)
  end.

(** [send_email], up to the session it opens. *)
Definition send_email (environ : gmap string string)
    (yaml_file : option yaml_document) (subject body : string)
    : mail_error + SmtpSession :=
  match load_email_config environ yaml_file with
  | inl e => inl e
  | inr cfg =>
      match cfg_item cfg "EMAIL_FROM", cfg_item cfg "EMAIL_TO",
            cfg_item cfg "EMAIL_SMTP_SERVER", cfg_item cfg "EMAIL_SMTP_PORT" with
      | inl e, _, _, _ => inl e
      | _, inl e, _, _ => inl e
      | _, _, inl e, _ => inl e
      | _, _, _, inl e => inl e
      | inr email_from, inr email_to, inr server, inr port_text =>
          match int_of_text port_text with
          | None => inl PortValueError
          | Some port =>
              match cfg_item cfg "EMAIL_PASSWORD" with
              | inl e => inl e
              | inr raw_pwd =>
                  let email_password := remove_whitespace raw_pwd in
                  if is_ascii email_from && is_ascii email_password
                  then inr {| smtp_server := server; smtp_port := port;
                              login_user := email_from; login_password := email_password;
                              mail_from := email_from; mail_to := [email_to];
                              mail_subject := subject; mail_body := body |}
                  else inl RuntimeError
              end
          end
      end
  end.

(** A key is given by the environment when it is set there to text that
    is not empty, by the YAML dictionary when it is there and not null. *)
Definition given_by_environ (environ : gmap string string) (k : string) : Prop :=
  is_Some (env_value environ k).

Definition yaml_entry (y : gmap string yaml_value) (k : string) : option string :=
  match y !! k with
  | Some YNull | None => None
  | Some v => Some (yaml_str v)
  end.

(** The entries the file contributes: those of a mapping, none for a
    value the program takes for an empty mapping. *)
Definition yaml_entries (doc : yaml_document) (k : string) : option string :=
  match doc with
  | YamlDict y => yaml_entry y k
  | _ => None
  end.

(** The file is read without an exception. *)
Definition yaml_loads (doc : yaml_document) : bool :=
  match doc with
  | YamlInvalid => false
  | YamlDict _ => true
  | YamlOther v => negb (yaml_truthy v)
  end.

(** The configuration before the defaults, in the words of the
    docstring: the environment first, the YAML file for the rest, the
    file being read only when the environment lacks a required key. *)
Definition merged (environ : gmap string string)
    (yaml_file : option yaml_document) (k : string) : option string :=
  match (if bool_decide (k ∈ env_keys) then env_value environ k else None) with
  | Some v => Some v
  | None =>
      if has_required (from_environ environ) then None
      else match yaml_file with
           | Some doc => yaml_entries doc k
           | None => None
           end
  end.

Definition with_defaults (k : string) (v : option string) : option string :=
  match v with
  | Some x => Some x
  | None =>
      if String.eqb k "EMAIL_SMTP_SERVER" then Some "smtp.gmail.com"%string
      else if String.eqb k "EMAIL_SMTP_PORT" then Some "587"%string
      else None
  end.

(** ** More sample data *)

(** A frame with [published] but without [fetched_at]. *)
Definition batch_no_fetched_at : DataFrame :=
  {| columns := ["title"; "published"]%string;
     rows := [ list_to_map [("title", VStr "Alpha"); ("published", VFloat 300)]%string ] |}.

(** A batch whose second row has no summary. *)
Definition batch_BD : DataFrame := {| columns := news_columns; rows := [row_B; row_D] |}.

(** A batch of one row whose title cell is empty. *)
Definition row_untitled : gmap string pyval := <["title" := VNaN]> row_B.

Definition batch_untitled : DataFrame :=
  {| columns := news_columns; rows := [row_untitled] |}.

Definition csv_BD : CsvFrame := Build_CsvFrame batch_BD ltac:(vm_compute; reflexivity).
Definition csv_untitled : CsvFrame :=
  Build_CsvFrame batch_untitled ltac:(vm_compute; reflexivity).

Definition untitled_world : World :=
  {| raw_dir := todays_file csv_untitled;
     today_str := "2024-05-01";
     settings_file := Ok sample_settings;
     DEEPSEEK_API_KEY := Some "sk-test"%string;
     deepseek := sample_client;
     translator := fun _ => ApiRaises;
     now := 1000;
     schedule := [Take; Finish 0] |}.

(** Settings that ask for a pool of no worker. *)
Definition no_workers_settings : Settings :=
  YMapping {| personalization :=
                Some (YMapping {| enable := Some (YBool true);
                                  user_profile := Some (YStr "likes robots");
                                  max_candidates := Some (YInt 80); top_n := Some (YInt 1);
                                  max_workers := Some (YInt 0) |});
              hot_topics := Some (YMapping one_day) |}.

(** Services that give the same answer to every request. *)
Definition failing_client : Client :=
  {| chat_completions_create := fun _ => ApiRaises |}.

Definition constant_client (content : string) : Client :=
  {| chat_completions_create := fun _ => ApiContent (Some content) |}.

(** A directory of three news files and a stranger, the newest news
    file listed last but one. *)
Definition news_of_may_1 : RawFile :=
  {| file_name := "news_2024-05-01.csv"; mtime := 100; read_csv := Ok csv_ABC |}.
Definition notes_file : RawFile :=
  {| file_name := "notes.txt"; mtime := 900; read_csv := Raise ValueError |}.
Definition news_of_may_3 : RawFile :=
  {| file_name := "news_2024-05-03.csv"; mtime := 300; read_csv := Ok csv_empty |}.
Definition news_of_may_2 : RawFile :=
  {| file_name := "news_2024-05-02.csv"; mtime := 200; read_csv := Ok csv_BD |}.

Definition sample_raw_dir : list RawFile :=
  [news_of_may_1; notes_file; news_of_may_3; news_of_may_2].

(** Feeds: one that parses to two entries, the second without summary
    and date; one whose server is down; one without a name, and one
    without an identifier, at the address of the first. *)
Definition sample_feed : Feed :=
  {| feed_url := Some (VStr "https://mit/rss"); feed_id := Some (VStr "mit");
     feed_name := Some (VStr "MIT News"); feed_tags := Some ["ai"; "campus"]%string |}.

Definition broken_feed : Feed :=
  {| feed_url := Some (VStr "https://down/rss"); feed_id := Some (VStr "down");
     feed_name := Some (VStr "Down"); feed_tags := None |}.

Definition nameless_feed : Feed :=
  {| feed_url := Some (VStr "https://mit/rss"); feed_id := Some (VStr "x");
     feed_name := None; feed_tags := None |}.

Definition idless_feed : Feed :=
  {| feed_url := Some (VStr "https://mit/rss"); feed_id := None;
     feed_name := Some (VStr "No id"); feed_tags := None |}.

Definition sample_entries : list Entry :=
  [ list_to_map [("title", VStr "Alpha"); ("link", VStr "https://a");
                 ("summary", VStr "about a"); ("published", VStr "300")]%string;
    list_to_map [("title", VStr "Delta"); ("link", VStr "https://d")]%string ].

Definition sample_parse (url : pyval) : Result (list Entry) :=
  match url with
  | VStr u => if String.eqb u "https://mit/rss" then Ok sample_entries else Raise ApiError
  | _ => Raise ApiError
  end.

Definition sample_clock : nat -> string := fun _ => "2024-05-01T08:00:00+00:00"%string.

(** Environments and a YAML file for the mailer. *)
Definition sample_environ : gmap string string :=
  list_to_map
    [("EMAIL_FROM", "me@example.org"); ("EMAIL_TO", "you@example.org");
     ("EMAIL_PASSWORD", "abcd efgh"); ("EMAIL_SMTP_PORT", "")]%string.

Definition partial_environ : gmap string string :=
  list_to_map [("EMAIL_FROM", "me@example.org")]%string.


Definition sample_yaml : gmap string yaml_value :=
  list_to_map
    [("EMAIL_FROM", YStr "other@example.org"); ("EMAIL_TO", YStr "you@example.org");
     ("EMAIL_PASSWORD", YStr "abcd efgh"); ("EMAIL_SMTP_SERVER", YStr "smtp.example.org");
     ("EMAIL_SMTP_PORT", YInt 2525)]%string.

(** * Properties *)

(** ** Strings *)

Lemma isspace_not_digit (c : ascii) : py_isspace c = true -> is_digit c = false.
Proof.
  destruct c as [[] [] [] [] [] [] [] []]; vm_compute; congruence.
Qed.

Lemma findall_digits_cons_nondigit (c : ascii) (s : string) :
  is_digit c = false -> findall_digits (String c s) = findall_digits s.
Proof. intros H. cbn. now rewrite H. Qed.

Lemma findall_digits_nil (s : string) :
  findall_digits s = [] <-> no_digits s = true.
Proof.
  induction s as [|c s IH]; cbn [findall_digits no_digits]; [tauto|].
  destruct (is_digit c) eqn:Hc; cbn [negb andb].
  - split; [|discriminate].
    destruct s as [|c' s']; [discriminate|].
    destruct (is_digit c'); [|discriminate].
    destruct (findall_digits (String c' s')); discriminate.
  - exact IH.
Qed.

Lemma findall_digits_lstrip (s : string) :
  findall_digits (lstrip s) = findall_digits s.
Proof.
  induction s as [|c s IH]; [reflexivity|].
  cbn [lstrip]. destruct (py_isspace c) eqn:Hc; [|reflexivity].
  rewrite IH. symmetry. apply findall_digits_cons_nondigit.
  now apply isspace_not_digit.
Qed.

Lemma rstrip_head (c : ascii) (s : string) :
  rstrip (String c s) = EmptyString \/ exists r, rstrip (String c s) = String c r.
Proof.
  cbn [rstrip]. destruct (rstrip s).
  - destruct (py_isspace c); eauto.
  - eauto.
Qed.

Lemma findall_digits_rstrip (s : string) :
  findall_digits (rstrip s) = findall_digits s.
Proof.
  induction s as [|c s IH]; [reflexivity|].
  cbn [rstrip]. destruct (rstrip s) as [|c2 r2] eqn:Hr.
  - (* the rest is white space only, so it holds no digit *)
    assert (Hnil : findall_digits s = []) by (now rewrite <- IH).
    destruct (is_digit c) eqn:Hc.
    + assert (Hsp : py_isspace c = false).
      { destruct (py_isspace c) eqn:E; [|reflexivity].
        apply isspace_not_digit in E. congruence. }
      rewrite Hsp. cbn [findall_digits]. rewrite Hc.
      destruct s as [|c' s']; [reflexivity|].
      destruct (is_digit c') eqn:Hc'.
      * exfalso. apply findall_digits_nil in Hnil. cbn in Hnil.
        rewrite Hc' in Hnil. discriminate.
      * now rewrite Hnil.
    + rewrite (findall_digits_cons_nondigit c s Hc), Hnil.
      destruct (py_isspace c); [reflexivity|].
      cbn. now rewrite Hc.
  - destruct s as [|c' s']; [discriminate|].
    destruct (rstrip_head c' s') as [E|[r E]]; rewrite E in Hr; [discriminate|].
    injection Hr as <- <-.
    remember (String c' r) as x eqn:Hx. remember (String c' s') as y eqn:Hy.
    cbn [findall_digits]. rewrite Hx, Hy, <- Hx, <- Hy, IH.
    reflexivity.
Qed.

Lemma findall_digits_strip (s : string) :
  findall_digits (strip s) = findall_digits s.
Proof.
  unfold strip. now rewrite findall_digits_lstrip, findall_digits_rstrip.
Qed.

(** The first match of [\d+] is the first maximal run of digits. *)
Lemma findall_digits_run (run post : string) :
  all_digits run = true -> run <> EmptyString -> starts_with_digit post = false ->
  findall_digits (run ++ post) = run :: findall_digits post.
Proof.
  induction run as [|c run IH]; [congruence|].
  intros Hall _ Hpost. cbn [all_digits] in Hall.
  apply andb_prop in Hall as [Hc Hall].
  destruct run as [|c' run'].
  - change (String c EmptyString ++ post)%string with (String c post).
    destruct post as [|d post'].
    + cbn [findall_digits]. now rewrite Hc.
    + cbn [starts_with_digit] in Hpost.
      remember (String d post') as y eqn:Hy.
      cbn [findall_digits]. rewrite Hc, Hy, Hpost. reflexivity.
  - assert (Hc' : is_digit c' = true).
    { cbn [all_digits] in Hall. now apply andb_prop in Hall as [? _]. }
    specialize (IH Hall ltac:(discriminate) Hpost).
    change (String c (String c' run') ++ post)%string
      with (String c (String c' (run' ++ post))).
    change (String c' run' ++ post)%string
      with (String c' (run' ++ post)) in IH.
    remember (String c' (run' ++ post)) as rest eqn:Hrest.
    cbn [findall_digits].
    rewrite Hc. rewrite Hrest at 1. rewrite Hc', IH. reflexivity.
Qed.

Lemma findall_digits_skip (pre s : string) :
  no_digits pre = true -> findall_digits (pre ++ s) = findall_digits s.
Proof.
  induction pre as [|c pre IH]; [reflexivity|].
  cbn [no_digits]. intros H. apply andb_prop in H as [Hc Hpre].
  change (String c pre ++ s)%string with (String c (pre ++ s)).
  rewrite findall_digits_cons_nondigit.
  - now apply IH.
  - now destruct (is_digit c).
Qed.

Example findall_digits_fraction :
  findall_digits " 85/100 points" = ["85"; "100"]%string.
Proof. reflexivity. Qed.

Example findall_digits_decimal_and_sign :
  findall_digits "-3.75" = ["3"; "75"]%string.
Proof. reflexivity. Qed.

Example strip_both_ends : strip "  40/100 " = "40/100"%string.
Proof. reflexivity. Qed.

Example digits_value_150 : clamp_score (digits_value "150") = 100.
Proof. reflexivity. Qed.

Lemma clamp_score_bounds (n : Z) : 0 <= clamp_score n <= 100.
Proof. unfold clamp_score. lia. Qed.

Lemma digits_value_from_nonneg (s : string) (acc : Z) :
  0 <= acc -> all_digits s = true -> 0 <= digits_value_from acc s.
Proof.
  revert acc. induction s as [|c s IH]; intros acc Hacc Hall; [exact Hacc|].
  cbn [all_digits] in Hall. apply andb_prop in Hall as [Hc Hall].
  cbn [digits_value_from]. apply IH; [|exact Hall].
  unfold is_digit in Hc. unfold digit_value.
  apply andb_prop in Hc as [H1 H2].
  apply N.leb_le in H1. lia.
Qed.

(** ** The scorer *)

Section ScorerFacts.

Context `{P : Pandas}.

Lemma score_of_outcome_bounds (o : api_outcome) : 0 <= score_of_outcome o <= 100.
Proof.
  destruct o as [|[c|]]; cbn; try lia.
  destruct (findall_digits c); [lia|apply clamp_score_bounds].
Qed.

(** With a textual summary the request is made, and whatever comes of
    it the scorer returns the score the [try] block computes. *)
Lemma scorer_on_text (client : Client) (profile : string)
    (item : gmap string pyval) (s : string) :
  summary_of item = VStr s ->
  exists prompt,
    p_user_profile prompt = profile /\
    score_item_with_deepseek client profile item
    = Ok (score_of_outcome (chat_completions_create client prompt)).
Proof.
  intros Hs. unfold score_item_with_deepseek. fold (summary_of item). rewrite Hs.
  cbn [py_strip mbind Result_bind].
  eexists. split; [|destruct (chat_completions_create client _) as [|[c|]] eqn:E].
  2-4: rewrite E; cbn [mbind Result_bind try_except score_of_outcome].
  - reflexivity.
  - reflexivity.
  - rewrite findall_digits_strip. now destruct (findall_digits c).
  - reflexivity.
Qed.

(** Without one, [summary.strip()] raises before the [try] block is
    entered. *)
Lemma scorer_on_other (client : Client) (profile : string) (item : gmap string pyval) :
  (forall s, summary_of item <> VStr s) ->
  score_item_with_deepseek client profile item = Raise AttributeError.
Proof.
  intros Hs. unfold score_item_with_deepseek. fold (summary_of item).
  destruct (summary_of item); try reflexivity. now destruct (Hs s).
Qed.

(** C2.  Score bound: whatever the profile, the item and the answer of
    the service (a number out of range, text without a number, text
    around a number, no content, an exception), a value the scorer
    returns lies in [0, 100]; and the scorer returns a value for every
    outcome of the request, the only exception it lets through being
    the [AttributeError] of an item whose summary is not text, raised
    before any request is made. *)
Theorem score_bound (client : Client) (profile : string) (item : gmap string pyval) :
  match score_item_with_deepseek client profile item with
  | Ok v => 0 <= v <= 100
                /\ exists prompt, v = score_of_outcome (chat_completions_create client prompt)
  | Raise e => e = AttributeError /\ forall s, summary_of item <> VStr s
  end.
Proof.
  assert (Hcase : (exists s, summary_of item = VStr s)
                  \/ (forall s, summary_of item <> VStr s)).
  { destruct (summary_of item); eauto; right; discriminate. }
  destruct Hcase as [[s Hs]|Hs].
  - destruct (scorer_on_text client profile item s Hs) as (prompt & _ & ->).
    split; [apply score_of_outcome_bounds|eauto].
  - rewrite scorer_on_other by exact Hs. now split.
Qed.

(** The three cases of the [try] block. *)
Lemma scorer_call_raises (client : Client) (profile : string)
    (item : gmap string pyval) (s : string) :
  summary_of item = VStr s ->
  (forall prompt, chat_completions_create client prompt = ApiRaises) ->
  score_item_with_deepseek client profile item = Ok 0.
Proof.
  intros Hs Hraise.
  destruct (scorer_on_text client profile item s Hs) as (prompt & _ & ->).
  now rewrite Hraise.
Qed.

Lemma scorer_no_number (client : Client) (profile : string)
    (item : gmap string pyval) (s content : string) :
  summary_of item = VStr s ->
  (forall prompt, chat_completions_create client prompt = ApiContent (Some content)) ->
  no_digits content = true ->
  score_item_with_deepseek client profile item = Ok 0.
Proof.
  intros Hs Hc Hno.
  destruct (scorer_on_text client profile item s Hs) as (prompt & _ & ->).
  rewrite Hc. cbn. apply findall_digits_nil in Hno. now rewrite Hno.
Qed.

Lemma scorer_first_number (client : Client) (profile : string)
    (item : gmap string pyval) (s pre run post : string) :
  summary_of item = VStr s ->
  (forall prompt,
      chat_completions_create client prompt = ApiContent (Some (pre ++ run ++ post)%string)) ->
  no_digits pre = true -> all_digits run = true -> run <> EmptyString ->
  starts_with_digit post = false ->
  score_item_with_deepseek client profile item = Ok (Z.min 100 (digits_value run)).
Proof.
  intros Hs Hc Hpre Hrun Hne Hpost.
  destruct (scorer_on_text client profile item s Hs) as (prompt & _ & ->).
  rewrite Hc. cbn [score_of_outcome].
  rewrite findall_digits_skip, findall_digits_run by assumption.
  unfold clamp_score.
  pose proof (digits_value_from_nonneg run 0 ltac:(lia) Hrun) as Hnn.
  fold (digits_value run) in Hnn. f_equal. lia.
Qed.

(** The sample service on the sample rows: a plain number, a number
    inside other text, and a request that fails. *)
Example score_row_B (profile : string) :
  score_item_with_deepseek sample_client profile row_B = Ok 80.
Proof. reflexivity. Qed.

Example score_row_C (profile : string) :
  score_item_with_deepseek sample_client profile row_C = Ok 40.
Proof. reflexivity. Qed.

Example score_row_A (profile : string) :
  score_item_with_deepseek sample_client profile row_A = Ok 0.
Proof. reflexivity. Qed.

(** C7.  The scorer at an item whose [summary] cell is empty in the CSV
    file, hence NaN in the frame: NaN is truthy, so [or ""] keeps it,
    and [summary.strip()], which stands before the [try], raises
    [AttributeError] out of the scorer, whatever the service would have
    answered. *)
Theorem scorer_raises_on_empty_summary_cell (client : Client) (profile : string) :
  dict_get row_D "summary" (VStr "") = VNaN /\
  score_item_with_deepseek client profile row_D = Raise AttributeError.
Proof. split; reflexivity. Qed.

End ScorerFacts.

(** ** The thread pool *)

Section PoolFacts.

Context {A B : Type}.
Variable fn : A -> Result B.
Variable items : list A.
Variable max_workers : nat.

Local Abbreviation step := (pool_step fn items max_workers).
Local Abbreviation pool_inv := (pool_inv fn items).

Lemma pool_inv_init : pool_inv (pool_init items).
Proof.
  split; cbn.
  - now rewrite app_nil_r.
  - intros i Hi. inversion Hi.
  - intros i Hi. inversion Hi.
  - intros i r Hi. now rewrite lookup_empty in Hi.
  - intros i Hi. inversion Hi.
Qed.

Lemma raised_before_spec (fs : gmap nat (Result B)) (i : nat) :
  raised_before fs i = true ->
  exists j e, (j < i)%nat /\ fs !! j = Some (Raise e).
Proof.
  unfold raised_before. intros H. apply existsb_exists in H as (j & Hj & H).
  apply in_seq in Hj. exists j.
  destruct (fs !! j) as [[b|e]|]; try discriminate. exists e. split; [lia|reflexivity].
Qed.

Lemma pool_inv_step (st st' : pool) : pool_inv st -> step st st' -> pool_inv st'.
Proof.
  intros [Ht Hc Hr Hf Hx] Hstep.
  destruct Hstep as [i q st Hq Hlt|i a pre post st Hrun Hi|i q st Hq Hraised].
  - split; cbn.
    + rewrite Hq in Ht. rewrite <- Ht. symmetry.
      replace (q ++ (calls st ++ [i]) ++ cancelled st)
        with ((q ++ calls st) ++ i :: cancelled st)
        by (now rewrite <- !app_assoc).
      apply Permutation_cons_app. now rewrite <- app_assoc.
    + intros j Hj. apply elem_of_app in Hj as [Hj|Hj].
      * destruct (Hc j Hj) as [H|H]; [left; apply elem_of_app; now left|now right].
      * left. apply elem_of_app. now right.
    + intros j Hj. apply elem_of_app in Hj as [Hj|Hj]; apply elem_of_app; auto.
    + exact Hf.
    + exact Hx.
  - split; cbn.
    + exact Ht.
    + intros j Hj. destruct (decide (j = i)) as [->|Hne].
      * right. rewrite lookup_insert_eq. eauto.
      * destruct (Hc j Hj) as [H|H].
        -- left. rewrite Hrun in H.
           apply elem_of_app in H as [H|H]; apply elem_of_app; [now left|].
           apply elem_of_cons in H as [H|H]; [congruence|now right].
        -- right. now rewrite lookup_insert_ne.
    + intros j Hj. apply Hr. rewrite Hrun.
      apply elem_of_app in Hj as [Hj|Hj]; apply elem_of_app; [now left|].
      right. now apply elem_of_cons; right.
    + intros j r Hj. destruct (decide (i = j)) as [->|Hne].
      * rewrite lookup_insert_eq in Hj. injection Hj as <-. eauto.
      * rewrite lookup_insert_ne in Hj by exact Hne. eauto.
    + exact Hx.
  - split; cbn.
    + rewrite Hq in Ht. rewrite <- Ht. symmetry.
      replace (q ++ calls st ++ cancelled st ++ [i])
        with ((q ++ calls st ++ cancelled st) ++ [i])
        by (now rewrite <- !app_assoc).
      apply Permutation_cons_app. now rewrite app_nil_r.
    + exact Hc.
    + exact Hr.
    + exact Hf.
    + intros j Hj. apply elem_of_app in Hj as [Hj|Hj]; [now apply Hx|].
      apply list_elem_of_singleton in Hj as ->.
      destruct (raised_before_spec _ _ Hraised) as (j & e & Hlt & Hj).
      destruct (Hf j _ Hj) as (a & Ha & He). exists j, a, e. now repeat split.
Qed.

Lemma pool_inv_rtc (st st' : pool) : pool_inv st -> rtc step st st' -> pool_inv st'.
Proof.
  intros Hinv H. induction H as [|x y z Hxy _ IH]; [exact Hinv|].
  apply IH. exact (pool_inv_step x y Hinv Hxy).
Qed.

Lemma pool_inv_reachable (st : pool) : rtc step (pool_init items) st -> pool_inv st.
Proof. apply pool_inv_rtc, pool_inv_init. Qed.

(** When nothing waits and nothing is in flight, every task was called
    once or cancelled, the future of a called task holds the outcome of
    the call on its own item, and a task without a future comes after
    an item on which the call raises. *)
Lemma pool_done_futures (st : pool) :
  pool_inv st -> pool_done st ->
  Permutation (calls st ++ cancelled st) (seq 0 (length items)) /\
  (forall i, i ∈ calls st -> exists a, items !! i = Some a /\ futures st !! i = Some (fn a)) /\
  forall i a, items !! i = Some a ->
    futures st !! i = Some (fn a) \/
    exists j a' e, (j < i)%nat /\ items !! j = Some a' /\ fn a' = Raise e.
Proof.
  intros [Ht Hc Hr Hf Hx] [Hq Hrun]. rewrite Hq in Ht. cbn in Ht.
  assert (Hcalled : forall i, i ∈ calls st ->
            exists a, items !! i = Some a /\ futures st !! i = Some (fn a)).
  { intros i Hin. destruct (Hc i Hin) as [H|[r H]].
    - rewrite Hrun in H. inversion H.
    - destruct (Hf i r H) as (a & Ha & ->). eauto. }
  split; [exact Ht|]. split; [exact Hcalled|].
  intros i a Hi.
  assert (Hin : i ∈ calls st ++ cancelled st).
  { rewrite Ht. apply elem_of_seq. apply lookup_lt_Some in Hi. lia. }
  apply elem_of_app in Hin as [Hin|Hin].
  - left. destruct (Hcalled i Hin) as (a' & Ha' & Hfut). congruence.
  - right. now apply Hx.
Qed.

Lemma collect_aligned (fs : gmap nat (Result B)) (l : list A) (n : nat) :
  (forall j a, l !! j = Some a ->
     fs !! (n + j)%nat = Some (fn a) \/
     exists j' a' e, (j' < j)%nat /\ l !! j' = Some a' /\ fn a' = Raise e) ->
  collect fs (seq n (length l)) = mapM fn l.
Proof.
  revert n. induction l as [|a l IH]; intros n H; [reflexivity|].
  cbn [length seq collect mapM].
  destruct (H 0%nat a eq_refl) as [H0|(j' & _ & _ & Hlt & _)]; [|lia].
  rewrite Nat.add_0_r in H0. rewrite H0.
  destruct (fn a) as [b|e] eqn:Ha; [|reflexivity].
  rewrite IH; [reflexivity|].
  intros j x Hj. replace (S n + j)%nat with (n + S j)%nat by lia.
  destruct (H (S j) x Hj) as [Hset|(j' & a' & e & Hlt & Hj' & He)]; [now left|].
  right. destruct j' as [|j'].
  - cbn in Hj'. injection Hj' as <-. congruence.
  - exists j', a', e. split; [lia|]. split; assumption.
Qed.

Lemma mapM_aligned (l : list A) (out : list B) :
  mapM fn l = Ok out ->
  length out = length l /\
  forall i a, l !! i = Some a -> exists b, out !! i = Some b /\ fn a = Ok b.
Proof.
  revert out. induction l as [|a l IH]; intros out H.
  - injection H as <-. split; [reflexivity|]. intros i a Hi. inversion Hi.
  - cbn [mapM] in H. destruct (fn a) as [b|e] eqn:Ha; [|discriminate].
    cbn [mbind Result_bind] in H.
    destruct (mapM fn l) as [bs|e]; [|discriminate].
    injection H as <-. destruct (IH bs eq_refl) as [Hlen Hnth].
    split; [cbn; now rewrite Hlen|].
    intros [|i] a' Hi; cbn in Hi.
    + injection Hi as <-. eauto.
    + now apply Hnth.
Qed.

Lemma mapM_returns (l : list A) :
  (forall a, a ∈ l -> exists b, fn a = Ok b) -> exists out, mapM fn l = Ok out.
Proof.
  induction l as [|a l IH]; intros H; [now exists []|].
  destruct (H a ltac:(left)) as [b Hb].
  destruct IH as [out Hout]; [intros a' Ha'; apply H; now right|].
  exists (b :: out). cbn [mapM]. now rewrite Hb, Hout.
Qed.

(** The events of a schedule are steps of the pool, or change nothing. *)
Lemma take_task_step (st : pool) : rtc step st (take_task max_workers st).
Proof.
  unfold take_task. destruct (queue st) as [|i q] eqn:Hq; [reflexivity|].
  destruct (decide _) as [Hlt|]; [|reflexivity].
  apply rtc_once. now apply step_take.
Qed.

Lemma finish_task_step (n : nat) (st : pool) : rtc step st (finish_task fn items n st).
Proof.
  unfold finish_task. destruct (running st) as [|j r] eqn:Hr; [reflexivity|].
  destruct ((j :: r) !! _) as [i|] eqn:Hi; [|reflexivity].
  destruct (items !! i) as [a|] eqn:Ha; [|reflexivity].
  apply rtc_once. eapply step_finish; [|exact Ha].
  rewrite Hr. symmetry. now apply take_drop_middle.
Qed.

Lemma cancel_task_step (st : pool) : rtc step st (cancel_task st).
Proof.
  unfold cancel_task. destruct (queue st) as [|i q] eqn:Hq; [reflexivity|].
  destruct (raised_before _ _) eqn:Hraised; [|reflexivity].
  apply rtc_once. now apply step_cancel.
Qed.

Lemma pool_event_step (st : pool) (ev : event) :
  rtc step st (pool_event fn items max_workers st ev).
Proof.
  destruct ev; [apply take_task_step|apply finish_task_step|apply cancel_task_step].
Qed.

Lemma schedule_steps (sched : list event) (st : pool) :
  rtc step st (fold_left (pool_event fn items max_workers) sched st).
Proof.
  revert st. induction sched as [|ev sched IH]; intros st; [reflexivity|].
  cbn [fold_left]. etrans; [apply pool_event_step|apply IH].
Qed.

Lemma finish_first (st : pool) (i : nat) (r : list nat) :
  pool_inv st -> running st = i :: r ->
  exists a, items !! i = Some a /\
    finish_task fn items 0 st
    = {| queue := queue st; running := r;
         futures := <[i := fn a]> (futures st); calls := calls st;
         cancelled := cancelled st |}.
Proof.
  intros Hinv Hr.
  assert (Hlt : (i < length items)%nat).
  { assert (Hin : i ∈ queue st ++ calls st ++ cancelled st).
    { apply elem_of_app. right. apply elem_of_app. left.
      apply (inv_running _ _ st Hinv). rewrite Hr. left. }
    rewrite (inv_tasks _ _ st Hinv) in Hin. apply elem_of_seq in Hin. lia. }
  destruct (lookup_lt_is_Some_2 items i Hlt) as [a Ha].
  exists a. split; [exact Ha|].
  unfold finish_task. rewrite Hr. cbn [length].
  rewrite Nat.Div0.mod_0_l. cbn [lookup list_lookup]. now rewrite Ha.
Qed.

(** Once the schedule is used up the pool runs to completion, provided
    there is at least one worker. *)
Lemma drain_done (fuel : nat) (st : pool) :
  (0 < max_workers)%nat -> pool_inv st ->
  (2 * length (queue st) + length (running st) <= fuel)%nat ->
  rtc step st (drain fn items max_workers fuel st) /\
  pool_done (drain fn items max_workers fuel st).
Proof.
  intros Hw. revert st. induction fuel as [|fuel IH]; intros st Hinv Hm.
  - cbn [drain]. split; [reflexivity|].
    unfold pool_done. destruct (queue st), (running st); cbn in Hm; try lia. now split.
  - cbn [drain].
    destruct (queue st) as [|i q] eqn:Hq; destruct (running st) as [|j r] eqn:Hr.
    + split; [reflexivity|now split].
    + destruct (finish_first st j r Hinv Hr) as (a & Ha & Hfin).
      pose proof (finish_task_step 0 st) as Hstep.
      destruct (IH (finish_task fn items 0 st)) as [H1 H2].
      * eapply pool_inv_rtc; eauto.
      * rewrite Hfin. cbn. rewrite Hq. cbn in Hm |- *. lia.
      * split; [etrans; eauto|exact H2].
    + destruct (decide _) as [Hlt|Hge]; [|cbn in Hge; lia].
      pose proof (take_task_step st) as Hstep.
      destruct (IH (take_task max_workers st)) as [H1 H2].
      * eapply pool_inv_rtc; eauto.
      * unfold take_task. rewrite Hq, Hr.
        destruct (decide _); cbn in *; lia.
      * split; [etrans; eauto|exact H2].
    + destruct (decide _) as [Hlt|Hge].
      * pose proof (take_task_step st) as Hstep.
        destruct (IH (take_task max_workers st)) as [H1 H2].
        -- eapply pool_inv_rtc; eauto.
        -- unfold take_task. rewrite Hq, Hr.
           destruct (decide _); cbn in *; [rewrite length_app; cbn; lia|lia].
        -- split; [etrans; eauto|exact H2].
      * destruct (finish_first st j r Hinv Hr) as (a & Ha & Hfin).
        pose proof (finish_task_step 0 st) as Hstep.
        destruct (IH (finish_task fn items 0 st)) as [H1 H2].
        -- eapply pool_inv_rtc; eauto.
        -- rewrite Hfin. cbn. rewrite Hq. cbn in Hm |- *. lia.
        -- split; [etrans; eauto|exact H2].
Qed.

Lemma pool_run_done (sched : list event) :
  (0 < max_workers)%nat ->
  rtc step (pool_init items) (pool_run fn items max_workers sched) /\
  pool_done (pool_run fn items max_workers sched).
Proof.
  intros Hw. unfold pool_run.
  pose proof (schedule_steps sched (pool_init items)) as Hs.
  set (st := fold_left _ sched _) in *.
  destruct (drain_done (2 * length (queue st) + length (running st)) st Hw) as [H1 H2].
  - apply pool_inv_reachable, Hs.
  - lia.
  - split; [etrans; eauto|exact H2].
Qed.

Lemma executor_map_mapM (sched : list event) :
  (0 < max_workers)%nat ->
  executor_map fn items max_workers sched = mapM fn items.
Proof.
  intros Hw. unfold executor_map.
  destruct (decide (max_workers = 0)%nat); [lia|].
  destruct (pool_run_done sched Hw) as [Hreach Hdone].
  destruct (pool_done_futures _ (pool_inv_reachable _ Hreach) Hdone) as (_ & _ & Hf).
  apply (collect_aligned _ items 0). exact Hf.
Qed.

(** C3.  Order alignment.  With at least one worker:
    - in every state the pool can reach in which nothing waits and
      nothing is in flight, whatever the order in which the calls
      returned, reading the futures in order gives what a sequential
      map gives; no call was started twice, and the future of a called
      task [i] holds the outcome of the call on [items[i]];
    - when the call returns on every item, each item's call was started
      exactly once and every future is set;
    - every schedule drives the pool into such a state, so
      [executor.map] is the sequential map, also when there are fewer
      workers than items;
    - a list of scores it returns has the length of the item list, and
      its [i]-th entry is the score of the [i]-th item;
    - it does return one when every call returns. *)
Theorem order_alignment :
  (0 < max_workers)%nat ->
  (forall st, rtc step (pool_init items) st -> pool_done st ->
      collect (futures st) (seq 0 (length items)) = mapM fn items /\
      Permutation (calls st ++ cancelled st) (seq 0 (length items)) /\
      (forall i, i ∈ calls st ->
                 exists a, items !! i = Some a /\ futures st !! i = Some (fn a)) /\
      ((forall a, a ∈ items -> exists b, fn a = Ok b) ->
       Permutation (calls st) (seq 0 (length items)) /\
       forall i a, items !! i = Some a -> futures st !! i = Some (fn a))) /\
  (forall sched,
      rtc step (pool_init items) (pool_run fn items max_workers sched) /\
      pool_done (pool_run fn items max_workers sched) /\
      executor_map fn items max_workers sched = mapM fn items) /\
  (forall sched scores,
      executor_map fn items max_workers sched = Ok scores ->
      length scores = length items /\
      forall i a, items !! i = Some a ->
        exists b, scores !! i = Some b /\ fn a = Ok b) /\
  ((forall a, a ∈ items -> exists b, fn a = Ok b) ->
   forall sched, exists scores, executor_map fn items max_workers sched = Ok scores).
Proof.
  intros Hw. split; [|split; [|split]].
  - intros st Hreach Hdone.
    pose proof (pool_inv_reachable st Hreach) as Hinv.
    destruct (pool_done_futures st Hinv Hdone) as (Hc & Hcalled & Hf).
    split; [apply (collect_aligned _ items 0); exact Hf|].
    split; [exact Hc|]. split; [exact Hcalled|].
    intros Hall.
    assert (Hnone : cancelled st = []).
    { destruct (cancelled st) as [|i l] eqn:E; [reflexivity|].
      destruct (inv_cancelled _ _ st Hinv i) as (j & a & e & _ & Hj & He).
      { rewrite E. left. }
      destruct (Hall a) as [b Hb]; [now apply list_elem_of_lookup_2 with j|].
      congruence. }
    rewrite Hnone, app_nil_r in Hc. split; [exact Hc|].
    intros i a Hi. destruct (Hf i a Hi) as [H|(j & a' & e & _ & Hj & He)]; [exact H|].
    destruct (Hall a') as [b Hb]; [now apply list_elem_of_lookup_2 with j|].
    congruence.
  - intros sched. destruct (pool_run_done sched Hw) as [Hreach Hdone].
    split; [exact Hreach|split; [exact Hdone|]]. now apply executor_map_mapM.
  - intros sched scores H.
    rewrite executor_map_mapM in H by exact Hw. now apply mapM_aligned in H.
  - intros Hall sched. rewrite executor_map_mapM by exact Hw. now apply mapM_returns.
Qed.

End PoolFacts.

Lemma order_alignment_witness :
  (0 < 2)%nat /\
  executor_map tenfold [1; 2; 3] 2 [Take; Take; Finish 1; Take; Finish 5] = Ok [10; 20; 30].
Proof.
  split; [lia|].
  destruct (order_alignment tenfold [1; 2; 3] 2 ltac:(lia)) as (_ & H & _).
  destruct (H [Take; Take; Finish 1; Take; Finish 5]) as (_ & _ & ->).
  reflexivity.
Defined.

(** A run in which the call on the first item raises and the reader
    cancels the two tasks still waiting: [map] raises what the
    sequential map raises, and the cancelled items were never scored. *)
Example pool_cancels_after_exception :
  let st := fold_left (pool_event fails_on_first [1; 2; 3] 1)
                      [Take; Finish 0; Cancel; Cancel] (pool_init [1; 2; 3]) in
  calls st = [0%nat] /\ cancelled st = [1%nat; 2%nat] /\
  executor_map fails_on_first [1; 2; 3] 1 [Take; Finish 0; Cancel; Cancel] = Raise ApiError.
Proof. repeat split. Qed.

(** ** Sorting and truncation *)

Lemma map_nth_seq {T : Type} (l : list T) (d : T) :
  map (fun i => nth i l d) (seq 0 (length l)) = l.
Proof.
  induction l as [|x l IH]; [reflexivity|].
  cbn [length seq map nth]. f_equal.
  rewrite <- seq_shift, map_map. exact IH.
Qed.


Lemma desc_le_trans (a b c : option Z) : desc_le a b -> desc_le b c -> desc_le a c.
Proof. destruct a, b, c; cbn; try tauto; lia. Qed.

Lemma desc_le_total (a b : option Z) : desc_le a b \/ desc_le b a.
Proof. destruct a, b; cbn; try tauto; lia. Qed.

Lemma desc_leb_spec (a b : option Z) : desc_leb a b = true <-> desc_le a b.
Proof. destruct a, b; cbn; try tauto; try (split; [discriminate|tauto]); apply Z.leb_le. Qed.

Section SortFacts.

Context `{P : Pandas}.
Hypothesis contract : sort_contract P.

Lemma sort_values_desc_perm (df : DataFrame) (c : string) :
  Permutation (rows (sort_values_desc df c)) (rows df).
Proof.
  unfold sort_values_desc. cbn [rows].
  set (keys := map _ (rows df)).
  destruct (contract keys) as [Hperm _].
  rewrite Hperm. subst keys. rewrite length_map. now rewrite map_nth_seq.
Qed.

Lemma sort_values_desc_sorted (df : DataFrame) (c : string) :
  StronglySorted desc_le
    (map (fun r => sort_key (cell r c)) (rows (sort_values_desc df c))).
Proof.
  unfold sort_values_desc. cbn [rows].
  set (keys := map _ (rows df)).
  destruct (contract keys) as [_ Hsorted].
  rewrite map_map.
  erewrite map_ext; [exact Hsorted|].
  intros i. cbn beta. subst keys.
  change None with (sort_key (cell ∅ c)) at 1.
  symmetry. apply (map_nth (fun r => sort_key (cell r c))).
Qed.

End SortFacts.

Lemma truncate_nonneg {T : Type} (n : Z) (l : list T) :
  0 <= n -> truncate n l = take (Z.to_nat n) l.
Proof. intros H. unfold truncate. now destruct (decide (0 <= n)). Qed.

Lemma truncate_is_take {T : Type} (n : Z) (l : list T) : exists k, truncate n l = take k l.
Proof. unfold truncate. destruct (decide _); eauto. Qed.

Lemma truncate_length {T : Type} (n : Z) (l : list T) :
  0 <= n -> length (truncate n l) = Nat.min (Z.to_nat n) (length l).
Proof. intros H. rewrite truncate_nonneg by exact H. apply length_take. Qed.

(** ** The sample backend meets the contract *)

Lemma insert_index_perm (keys : list (option Z)) (i : nat) (l : list nat) :
  Permutation (insert_index keys i l) (i :: l).
Proof.
  induction l as [|j l IH]; cbn [insert_index]; [reflexivity|].
  destruct (desc_leb _ _); [reflexivity|].
  rewrite IH. apply perm_swap.
Qed.

Lemma insertion_sort_perm (keys : list (option Z)) (l : list nat) :
  Permutation (fold_right (insert_index keys) [] l) l.
Proof.
  induction l as [|i l IH]; cbn [fold_right]; [reflexivity|].
  now rewrite insert_index_perm, IH.
Qed.

Lemma insert_index_sorted (keys : list (option Z)) (i : nat) (l : list nat) :
  StronglySorted (key_order keys) l ->
  StronglySorted (key_order keys) (insert_index keys i l).
Proof.
  induction 1 as [|j l Hsorted IH Hall]; cbn [insert_index].
  - repeat constructor.
  - destruct (desc_leb _ _) eqn:Hgo.
    + apply desc_leb_spec in Hgo.
      constructor; [now constructor|].
      constructor; [exact Hgo|].
      eapply Forall_impl; [exact Hall|].
      intros x Hx. unfold key_order in *. eapply desc_le_trans; eauto.
    + assert (Hji : desc_le (nth j keys None) (nth i keys None)).
      { destruct (desc_le_total (nth i keys None) (nth j keys None)) as [Hab|]; [|assumption].
        apply desc_leb_spec in Hab. congruence. }
      constructor; [exact IH|].
      rewrite insert_index_perm. now constructor.
Qed.

Lemma insertion_sort_sorted (keys : list (option Z)) (l : list nat) :
  StronglySorted (key_order keys) (fold_right (insert_index keys) [] l).
Proof.
  induction l as [|i l IH]; cbn [fold_right]; [constructor|].
  now apply insert_index_sorted.
Qed.

Lemma StronglySorted_map {S T : Type} (R : T -> T -> Prop) (f : S -> T) (l : list S) :
  StronglySorted (fun a b => R (f a) (f b)) l -> StronglySorted R (map f l).
Proof.
  induction 1 as [|a l _ IH Hall]; cbn [map]; constructor; [exact IH|].
  apply Forall_map. exact Hall.
Qed.

Lemma insertion_argsort_contract (keys : list (option Z)) :
  Permutation (insertion_argsort keys) (seq 0 (length keys)) /\
  StronglySorted desc_le (map (fun i => nth i keys None) (insertion_argsort keys)).
Proof.
  split; [apply insertion_sort_perm|].
  apply StronglySorted_map. apply insertion_sort_sorted.
Qed.

Lemma stable_pandas_contract : sort_contract stable_pandas.
Proof. intros keys. apply insertion_argsort_contract. Qed.

(** ** Ranking *)

Lemma zip_column_length (c : string) (rs : list (gmap string pyval)) (vs : list pyval) :
  length vs = length rs -> length (zip_column c rs vs) = length rs.
Proof.
  revert vs. induction rs as [|r rs IH]; intros [|v vs] H; cbn in *; try lia.
  now rewrite IH by lia.
Qed.

(** [assign] with a list is positional: row [i] gets [values[i]]. *)
Lemma zip_column_lookup (c : string) (rs : list (gmap string pyval)) (vs : list pyval)
    (i : nat) (r : gmap string pyval) (v : pyval) :
  rs !! i = Some r -> vs !! i = Some v ->
  zip_column c rs vs !! i = Some (<[c := v]> r).
Proof.
  revert vs i. induction rs as [|r0 rs IH]; intros [|v0 vs] [|i] Hr Hv;
    cbn in *; try discriminate.
  - congruence.
  - now apply IH.
Qed.

Lemma zip_column_scores (rs : list (gmap string pyval)) (scores : list Z) :
  Forall (fun r => exists z, cell r "_personal_score" = VFloat z)
         (zip_column "_personal_score" rs (map VFloat scores)).
Proof.
  revert scores. induction rs as [|r rs IH]; intros [|z scores]; cbn; constructor.
  - exists z. unfold cell. now rewrite lookup_insert_eq.
  - apply IH.
Qed.

Lemma assign_ok (df : DataFrame) (c : string) (values : list pyval) :
  length values = length (rows df) ->
  exists df', assign df c values = Ok df' /\ rows df' = zip_column c (rows df) values.
Proof.
  intros H. unfold assign. destruct (decide _); [|contradiction]. eauto.
Qed.

Lemma score_order_sorted (l : list (gmap string pyval)) :
  Forall (fun r => exists z, cell r "_personal_score" = VFloat z) l ->
  StronglySorted desc_le (map (fun r => sort_key (cell r "_personal_score")) l) ->
  StronglySorted score_order l.
Proof.
  induction l as [|r l IH]; intros Hall Hs; [constructor|].
  cbn [map] in Hs. apply StronglySorted_inv in Hs as [Hs Hhd].
  apply Forall_cons in Hall as [[z Hz] Hall].
  constructor; [now apply IH|].
  rewrite List.Forall_map in Hhd.
  rewrite Forall_forall in Hhd, Hall |- *.
  intros x Hx. destruct (Hall x Hx) as [zx Hzx]. specialize (Hhd x Hx).
  unfold score_order, row_score. rewrite Hz, Hzx.
  cbn in Hhd. rewrite Hz, Hzx in Hhd. exact Hhd.
Qed.

Section RankFacts.

Context `{P : Pandas}.
Hypothesis contract : sort_contract P.

(** What the ranking step returns: the first [top_n] of a reordering of
    the scored candidates by non-increasing score. *)
Lemma rank_sorted (candidates : DataFrame) (scores : list Z) (top_n : Z) :
  length scores = length (rows candidates) ->
  exists report order,
    rank candidates scores top_n = Ok report /\
    Permutation order (scored_rows candidates scores) /\
    StronglySorted score_order order /\
    rows report = truncate top_n order.
Proof.
  intros Hlen. unfold rank.
  destruct (assign_ok candidates "_personal_score" (map VFloat scores)) as (df' & -> & Hrows).
  { now rewrite length_map. }
  cbn [mbind Result_bind].
  eexists. exists (rows (sort_values_desc df' "_personal_score")).
  split; [reflexivity|].
  pose proof (sort_values_desc_perm contract df' "_personal_score") as Hperm.
  split; [|split; [|reflexivity]].
  - rewrite Hperm, Hrows. reflexivity.
  - apply score_order_sorted.
    + rewrite Hperm, Hrows. apply zip_column_scores.
    + apply (sort_values_desc_sorted contract).
Qed.

(** X30.  Ranking.  The ranking step sorts by score, descending, and
    keeps the first rows: the report followed by the
    candidates left out is a reordering of the scored candidates in
    which the scores never increase, and for a [top_n] that is not
    negative the report is its first [top_n] rows.  The order of
    candidates with equal scores is the one [sort_values] leaves. *)
Theorem ranking_descending (candidates : DataFrame) (scores : list Z) (top_n : Z) :
  length scores = length (rows candidates) ->
  exists report rest,
    rank candidates scores top_n = Ok report /\
    Permutation (rows report ++ rest) (scored_rows candidates scores) /\
    StronglySorted score_order (rows report ++ rest) /\
    (0 <= top_n -> rows report = take (Z.to_nat top_n) (rows report ++ rest)).
Proof.
  intros Hlen.
  destruct (rank_sorted candidates scores top_n Hlen)
    as (report & order & Hrank & Hperm & Hsorted & Hrows).
  destruct (truncate_is_take top_n order) as [k Hk].
  exists report, (drop k order).
  rewrite Hrows, Hk, take_drop. repeat split; try assumption.
  intros Hn. rewrite <- Hk. now apply truncate_nonneg.
Qed.

Lemma rank_length (candidates : DataFrame) (scores : list Z) (top_n : Z) :
  0 <= top_n -> length scores = length (rows candidates) ->
  exists report,
    rank candidates scores top_n = Ok report /\
    length (rows report) = Nat.min (Z.to_nat top_n) (length (rows candidates)).
Proof.
  intros Hn Hlen.
  destruct (rank_sorted candidates scores top_n Hlen)
    as (report & order & Hrank & Hperm & _ & Hrows).
  exists report. split; [exact Hrank|].
  rewrite Hrows, truncate_length by exact Hn.
  rewrite Hperm. unfold scored_rows.
  rewrite zip_column_length; [reflexivity|now rewrite length_map].
Qed.

Lemma to_dict_records_length (df : DataFrame) :
  length (to_dict_records df) = length (rows df).
Proof. unfold to_dict_records. apply length_map. Qed.

(** What a returned report went through. *)
Lemma personalized_recommendations_some (w : World) (recent_df : DataFrame)
    (settings : Settings) (report : DataFrame) :
  personalized_recommendations w recent_df settings = Ok (Some report) ->
  exists client profile max_candidates top_n max_workers candidates scores,
    get_deepseek_client w = Some client /\
    cfg_enabled settings = true /\
    cfg_profile settings = Ok profile /\
    cfg_max_candidates settings = Ok max_candidates /\
    cfg_top_n settings = Ok top_n /\
    cfg_max_workers settings = Ok max_workers /\
    df_empty recent_df = false /\
    select_candidates recent_df max_candidates = Ok candidates /\
    executor_map (score_item_with_deepseek client profile)
      (to_dict_records candidates) (Z.to_nat max_workers) (schedule w)
    = Ok scores /\
    length scores = length (rows candidates) /\
    rank candidates scores top_n = Ok report.
Proof.
  unfold personalized_recommendations, cfg_enabled, cfg_profile, cfg_max_candidates,
    cfg_top_n, cfg_max_workers.
  intros H.
  destruct (get_personalization settings) as [p|]; [|discriminate H].
  cbn [mbind Result_bind] in *.
  destruct (yaml_truthy (default (YBool false) (enable p))); [|discriminate H].
  cbn [negb] in H.
  destruct (yaml_strip (default (YStr "") (user_profile p))) as [profile|];
    [|discriminate H].
  cbn [mbind Result_bind] in H.
  destruct (String.eqb profile ""); [discriminate H|].
  destruct (get_deepseek_client w) as [client|] eqn:Hclient; [|discriminate H].
  destruct (yaml_int (default (YInt 80) (max_candidates p))) as [max_candidates|];
    [|discriminate H].
  cbn [mbind Result_bind] in H.
  destruct (yaml_int (default (YInt 10) (top_n p))) as [top_n|]; [|discriminate H].
  cbn [mbind Result_bind] in H.
  destruct (yaml_int (default (YInt 30) (max_workers p))) as [max_workers|];
    [|discriminate H].
  cbn [mbind Result_bind] in H.
  destruct (df_empty recent_df) eqn:Hne; [discriminate H|].
  destruct (select_candidates recent_df max_candidates) as [candidates|] eqn:Hsel;
    [|discriminate H].
  cbn [mbind Result_bind] in H.
  destruct (executor_map _ _ _ _) as [scores|] eqn:Hex; [|discriminate H].
  cbn [mbind Result_bind] in H.
  destruct (rank _ _ _) as [ranked|] eqn:Hrank; [|discriminate H].
  cbn [mbind Result_bind] in H. injection H as <-.
  exists client, profile, max_candidates, top_n, max_workers, candidates, scores.
  do 9 (split; [first [reflexivity|assumption]|]).
  split; [|exact Hrank].
  assert (Hw : (0 < Z.to_nat max_workers)%nat).
  { unfold executor_map in Hex. destruct (decide _); [discriminate|lia]. }
  rewrite executor_map_mapM in Hex by exact Hw.
  apply mapM_aligned in Hex as [Hlen _]. now rewrite to_dict_records_length in Hlen.
Qed.

(** C5.  Bounded output, for a positive [top_n]: the ranking step
    returns a report of [min(top_n, number of candidates)] rows, hence
    never more than [top_n], none for no candidates, and every candidate
    when there are at most [top_n]; and a report
    [personalized_recommendations] returns has that many rows, the
    candidates being what [select_candidates] kept. *)
Theorem bounded_output (top_n : Z) :
  0 < top_n ->
  (forall candidates scores,
      length scores = length (rows candidates) ->
      exists report,
        rank candidates scores top_n = Ok report /\
        length (rows report) = Nat.min (Z.to_nat top_n) (length (rows candidates)) /\
        Z.of_nat (length (rows report)) <= top_n /\
        (rows candidates = [] -> rows report = []) /\
        (Z.of_nat (length (rows candidates)) <= top_n ->
         length (rows report) = length (rows candidates))) /\
  (forall w recent_df settings report,
      cfg_top_n settings = Ok top_n ->
      personalized_recommendations w recent_df settings = Ok (Some report) ->
      exists max_candidates candidates,
        cfg_max_candidates settings = Ok max_candidates /\
        select_candidates recent_df max_candidates = Ok candidates /\
        length (rows report) = Nat.min (Z.to_nat top_n) (length (rows candidates))).
Proof.
  intros Hn. split.
  - intros candidates scores Hlen.
    destruct (rank_length candidates scores top_n ltac:(lia) Hlen) as (report & Hrank & Hl).
    exists report. repeat split; try assumption; try lia.
    intros Hnil. rewrite Hnil in Hl. cbn in Hl. rewrite Nat.min_0_r in Hl.
    now destruct (rows report).
  - intros w recent_df settings report Htop Hrec.
    destruct (personalized_recommendations_some _ _ _ _ Hrec)
      as (client & profile & mc & tn & mw & candidates & scores
          & _ & _ & _ & Hmc & Htn & _ & _ & Hsel & _ & Hlen & Hrank).
    exists mc, candidates. split; [exact Hmc|]. split; [exact Hsel|].
    assert (tn = top_n) as -> by congruence.
    destruct (rank_length candidates scores top_n ltac:(lia) Hlen) as (report' & Hrank' & Hl).
    congruence.
Qed.

End RankFacts.

(** ** Candidate selection *)

Lemma cell_insert_eq (r : gmap string pyval) (c : string) (v : pyval) :
  cell (<[c := v]> r) c = v.
Proof. unfold cell. now rewrite lookup_insert_eq. Qed.

Lemma cell_insert_ne (r : gmap string pyval) (c c' : string) (v : pyval) :
  c <> c' -> cell (<[c := v]> r) c' = cell r c'.
Proof. intros H. unfold cell. now rewrite lookup_insert_ne. Qed.

Lemma column_lookup (df : DataFrame) (c : string) (i : nat) :
  column df c !! i = (fun r => cell r c) <$> rows df !! i.
Proof. unfold column. apply list_lookup_fmap. Qed.

Lemma column_length (df : DataFrame) (c : string) :
  length (column df c) = length (rows df).
Proof. unfold column. apply length_map. Qed.

Lemma imap_imap {A B C : Type} (f : nat -> B -> C) (g : nat -> A -> B) (l : list A) :
  imap f (imap g l) = imap (fun i x => f i (g i x)) l.
Proof.
  apply list_eq. intros i. rewrite !list_lookup_imap. now destruct (l !! i).
Qed.

(** A record of [to_dict] holds the cells of its row under the labels
    of the frame, and nothing else. *)
Lemma record_lookup (f : string -> pyval) (cols : list string) (c : string) :
  (list_to_map (map (fun c => (c, f c)) cols) : gmap string pyval) !! c
  = if bool_decide (c ∈ cols) then Some (f c) else None.
Proof.
  induction cols as [|c0 cols IH]; cbn [map list_to_map foldr].
  - rewrite lookup_empty. rewrite bool_decide_eq_false_2; [reflexivity|].
    apply not_elem_of_nil.
  - destruct (decide (c0 = c)) as [->|Hne].
    + rewrite lookup_insert_eq. rewrite bool_decide_eq_true_2; [reflexivity|]. left.
    + rewrite lookup_insert_ne by exact Hne. rewrite IH.
      destruct (decide (c ∈ cols)) as [Hin|Hnin].
      * rewrite !bool_decide_eq_true_2; [reflexivity|now right|exact Hin].
      * rewrite !bool_decide_eq_false_2; [reflexivity| |exact Hnin].
        intros Hin. apply elem_of_cons in Hin as [->|Hin]; [now apply Hne|now apply Hnin].
Qed.

Lemma to_dict_records_lookup (df : DataFrame) (k : nat) (item : gmap string pyval) :
  to_dict_records df !! k = Some item ->
  exists r, rows df !! k = Some r /\
            forall c, item !! c = if has_column df c then Some (cell r c) else None.
Proof.
  unfold to_dict_records. rewrite list_lookup_fmap.
  destruct (rows df !! k) as [r|]; [|discriminate].
  cbn. intros [= <-]. exists r. split; [reflexivity|].
  intros c. apply record_lookup.
Qed.

Section SelectionFacts.

Context `{P : Pandas}.
Hypothesis contract : sort_contract P.

Lemma to_datetime_length (col : list pyval) : length (to_datetime col) = length col.
Proof. unfold to_datetime. apply length_imap. Qed.

Lemma to_datetime_lookup (col : list pyval) (i : nat) (v : pyval) :
  to_datetime col !! i = Some v -> (exists t, v = VTime t) \/ v = VNaT.
Proof.
  unfold to_datetime. rewrite list_lookup_imap.
  destruct (col !! i) as [x|]; [|discriminate]. cbn. intros [= <-].
  destruct x; eauto; destruct (to_datetime_raw col i); eauto.
Qed.

Lemma converted_cases (df : DataFrame) (c : string) (i : nat) :
  (exists t, converted df c i = VTime t) \/ converted df c i = VNaT.
Proof.
  unfold converted. destruct (to_datetime (column df c) !! i) as [v|] eqn:E.
  - cbn. eapply to_datetime_lookup. exact E.
  - now right.
Qed.


Lemma set_column_converted (df : DataFrame) (c : string) :
  has_column df c = true ->
  set_column df c (to_datetime (column df c))
  = {| columns := columns df;
       rows := imap (fun i r => <[c := converted df c i]> r) (rows df) |}.
Proof.
  intros H. unfold set_column. rewrite H. f_equal.
  apply imap_ext. intros i r Hr. unfold converted.
  destruct (to_datetime (column df c) !! i) eqn:E; [reflexivity|].
  apply lookup_ge_None in E. rewrite to_datetime_length, column_length in E.
  apply lookup_lt_Some in Hr. lia.
Qed.

Lemma column_insert_ne (df : DataFrame) (cols : list string) (c c' : string)
    (f : nat -> pyval) :
  c <> c' ->
  column {| columns := cols; rows := imap (fun i r => <[c := f i]> r) (rows df) |} c'
  = column df c'.
Proof.
  intros Hne. unfold column. cbn [rows]. apply list_eq. intros i.
  rewrite !list_lookup_fmap, list_lookup_imap.
  destruct (rows df !! i) as [r|]; [|reflexivity].
  cbn. now rewrite cell_insert_ne.
Qed.

(** The conversion loop on a frame that has both columns. *)
Lemma convert_date_columns_eq (df : DataFrame) :
  has_column df "published" = true ->
  has_column df "fetched_at" = true ->
  convert_date_columns df
  = {| columns := columns df; rows := imap (convert_dates df) (rows df) |}.
Proof.
  intros Hp Hf. unfold convert_date_columns. cbn [fold_left].
  rewrite Hp. rewrite set_column_converted by exact Hp.
  match goal with |- context [has_column ?d "fetched_at"] => set (d1 := d) end.
  assert (Hf1 : has_column d1 "fetched_at" = true) by exact Hf.
  rewrite Hf1. rewrite set_column_converted by exact Hf1.
  subst d1. cbn [columns rows]. f_equal.
  rewrite imap_imap. apply imap_ext. intros i r _.
  unfold convert_dates. f_equal.
  unfold converted. now rewrite column_insert_ne by discriminate.
Qed.




(** The frame [select_candidates] sorts, when both date columns are
    there. *)
Lemma select_candidates_eq (recent_df : DataFrame) (max_candidates : Z) :
  has_column recent_df "published" = true ->
  has_column recent_df "fetched_at" = true ->
  select_candidates recent_df max_candidates
  = Ok (head (sort_values_desc
                {| columns := if has_column recent_df "_ts" then columns recent_df
                              else columns recent_df ++ ["_ts"%string];
                   rows := imap (prepare recent_df) (rows recent_df) |} "_ts")
             max_candidates).
Proof.
  intros Hp Hf. unfold select_candidates.
  rewrite convert_date_columns_eq by assumption.
  match goal with |- context [has_column ?d "published"] => set (d2 := d) end.
  assert (Hp2 : has_column d2 "published" = true) by exact Hp.
  assert (Hf2 : has_column d2 "fetched_at" = true) by exact Hf.
  rewrite Hp2, Hf2. subst d2. cbn [negb]. do 3 f_equal.
  unfold with_column. cbn [rows columns].
  change (has_column {| columns := columns recent_df;
                        rows := imap (convert_dates recent_df) (rows recent_df) |} "_ts")
    with (has_column recent_df "_ts").
  f_equal. change (map ?f ?l) with (f <$> l). rewrite fmap_imap.
  apply imap_ext. intros i r _. unfold compose, prepare. f_equal. f_equal.
  - unfold convert_dates. rewrite cell_insert_ne by discriminate. apply cell_insert_eq.
  - unfold convert_dates. apply cell_insert_eq.
Qed.

Lemma has_column_app (df : DataFrame) (c c' : string) :
  bool_decide (c' ∈ (if has_column df c then columns df else columns df ++ [c]))
  = has_column df c' || String.eqb c' c.
Proof.
  unfold has_column.
  destruct (String.eqb_spec c' c) as [->|Hne].
  - rewrite orb_true_r. destruct (bool_decide (c ∈ columns df)) eqn:E.
    + exact E.
    + apply bool_decide_eq_true_2. apply elem_of_app. right. left.
  - rewrite orb_false_r. destruct (bool_decide (c ∈ columns df)); [reflexivity|].
    apply bool_decide_ext. rewrite elem_of_app, list_elem_of_singleton. tauto.
Qed.


End SelectionFacts.

(** ** Filtering, the gates and the main program *)

Section MainFacts.

Context `{P : Pandas}.

(** C10.  A frame without a [link] column goes through
    [filter_unseen_items] unchanged, whatever the seen set. *)
Theorem filter_without_link_column (df : DataFrame) (seen_links : gset string) :
  has_column df "link" = false -> filter_unseen_items df seen_links = df.
Proof. intros H. unfold filter_unseen_items. now rewrite H. Qed.

(** What [load_seen_links] returns holds none of the texts of a missing
    value. *)
Lemma load_seen_links_not_na (store : SeenStore) (id : string) :
  id ∈ load_seen_links store -> is_na_text id = false.
Proof.
  destruct store as [cells|]; cbn [load_seen_links]; [|intros H; now apply elem_of_empty in H].
  unfold read_links. rewrite elem_of_list_to_set, list_elem_of_omap.
  intros (t & _ & Ht). destruct (is_na_text t); [discriminate|].
  eapply csv_read_back_not_na. exact Ht.
Qed.

(** A link the filter keeps is rendered as no member of the seen set. *)
Lemma filter_unseen_items_unseen (df : DataFrame) (seen_links : gset string)
    (r : gmap string pyval) :
  has_column df "link" = true ->
  r ∈ rows (filter_unseen_items df seen_links) ->
  isna (cell r "link") = false ->
  link_id df r ∉ seen_links.
Proof.
  intros Hcol Hr Hna. unfold link_id, row_get. rewrite Hcol.
  unfold filter_unseen_items in Hr. rewrite Hcol in Hr. cbn [negb] in Hr.
  destruct (decide (seen_links = ∅)) as [->|Hne]; [apply not_elem_of_empty|].
  cbn [select_rows rows] in Hr.
  apply list_elem_of_In, filter_In in Hr as [_ Hr].
  unfold astype_str in Hr. rewrite Hna in Hr.
  apply negb_true_iff, bool_decide_eq_false in Hr. exact Hr.
Qed.

(** For a seen set read from the store this holds of every row the
    filter keeps: a missing link renders as ["nan"] and the absence of
    the column as [""], and neither is ever read from the store. *)
Lemma filter_unseen_items_not_loaded (df : DataFrame) (store : SeenStore)
    (r : gmap string pyval) :
  csv_cells df = true ->
  r ∈ rows (filter_unseen_items df (load_seen_links store)) ->
  link_id df r ∉ load_seen_links store.
Proof.
  intros Hcsv Hr Hin.
  destruct (has_column df "link") eqn:Hcol.
  - destruct (isna (cell r "link")) eqn:Hna.
    + assert (Hrdf : r ∈ rows df).
      { unfold filter_unseen_items in Hr. rewrite Hcol in Hr. cbn [negb] in Hr.
        destruct (decide _); [exact Hr|].
        cbn [select_rows rows] in Hr.
        apply list_elem_of_In, filter_In in Hr as [Hr _]. now apply list_elem_of_In. }
      assert (Hcell : csv_cell (cell r "link") = true).
      { unfold csv_cells in Hcsv. rewrite forallb_forall in Hcsv.
        specialize (Hcsv r ltac:(now apply list_elem_of_In)).
        rewrite forallb_forall in Hcsv. apply Hcsv.
        apply list_elem_of_In. unfold has_column in Hcol.
        now apply bool_decide_eq_true in Hcol. }
      assert (Hnan : cell r "link" = VNaN).
      { destruct (cell r "link"); try discriminate; reflexivity. }
      apply load_seen_links_not_na in Hin.
      unfold link_id, row_get in Hin. rewrite Hcol, Hnan in Hin. discriminate.
    + now apply (filter_unseen_items_unseen df _ r Hcol Hr Hna).
  - apply load_seen_links_not_na in Hin.
    unfold link_id, row_get in Hin. rewrite Hcol in Hin. discriminate.
Qed.

Lemma filter_unseen_items_sub (df : DataFrame) (seen_links : gset string)
    (r : gmap string pyval) :
  r ∈ rows (filter_unseen_items df seen_links) -> r ∈ rows df.
Proof.
  unfold filter_unseen_items. destruct (negb _); [auto|].
  destruct (decide _); [auto|]. cbn [select_rows rows].
  intros Hr. apply list_elem_of_In, filter_In in Hr as [Hr _]. now apply list_elem_of_In.
Qed.

Lemma filter_unseen_items_columns (df : DataFrame) (seen_links : gset string) :
  columns (filter_unseen_items df seen_links) = columns df.
Proof.
  unfold filter_unseen_items. destruct (negb _); [reflexivity|].
  now destruct (decide _).
Qed.

(** The filter keeps every row whose link is missing. *)
Lemma filter_unseen_items_keeps_missing (df : DataFrame) (seen_links : gset string)
    (r : gmap string pyval) :
  r ∈ rows df -> isna (cell r "link") = true ->
  r ∈ rows (filter_unseen_items df seen_links).
Proof.
  intros Hr Hna. unfold filter_unseen_items.
  destruct (negb _); [exact Hr|]. destruct (decide _); [exact Hr|].
  cbn [select_rows rows]. apply list_elem_of_In, filter_In.
  split; [now apply list_elem_of_In|]. unfold astype_str. now rewrite Hna.
Qed.

Lemma df_empty_iff (df : DataFrame) :
  df_empty df = true <-> rows df = [] \/ columns df = [].
Proof.
  unfold df_empty. destruct (rows df), (columns df); split; intros H;
    try tauto; try discriminate; destruct H; discriminate.
Qed.

Lemma filter_unseen_items_empty (df : DataFrame) (seen_links : gset string) :
  df_empty df = true -> df_empty (filter_unseen_items df seen_links) = true.
Proof.
  intros H. apply df_empty_iff. apply df_empty_iff in H as [H|H].
  - left. destruct (rows (filter_unseen_items df seen_links)) as [|r l] eqn:E; [reflexivity|].
    assert (Hr : r ∈ rows df).
    { apply (filter_unseen_items_sub df seen_links). rewrite E. left. }
    rewrite H in Hr. inversion Hr.
  - right. now rewrite filter_unseen_items_columns.
Qed.

(** C8, on the code.  The gates of [personalized_recommendations], for
    settings whose [personalization] is a mapping or is not there.
    When personalisation is off (or not configured) the result is
    [None].  When the profile is text (or not there), the result is
    [None] if the text is empty or blank, and also if there is no API
    key (unset or empty), in which case no client is made; this for
    every frame and whatever the other entries are.  But with
    personalisation switched on and a [user_profile] that is not text,
    the function raises [AttributeError]: [.strip()] is called on the
    value before the profile is tested for emptiness and before the
    API key is looked at.  A [user_profile:] left blank in
    [settings.yaml] is such a value (null), so the step raises for an
    empty profile, with and without the key, for every batch. *)
Theorem gates_of_personalized_recommendations (w : World) (recent_df : DataFrame)
    (settings : Settings) (p : Personalization) :
  get_personalization settings = Ok p ->
  (cfg_enabled settings = false ->
   personalized_recommendations w recent_df settings = Ok None) /\
  (forall profile,
      cfg_profile settings = Ok profile ->
      (profile = ""%string ->
       personalized_recommendations w recent_df settings = Ok None) /\
      (DEEPSEEK_API_KEY w = None \/ DEEPSEEK_API_KEY w = Some ""%string ->
       get_deepseek_client w = None /\
       personalized_recommendations w recent_df settings = Ok None)) /\
  (forall v,
      cfg_enabled settings = true ->
      user_profile p = Some v ->
      (forall s, v <> YStr s) ->
      personalized_recommendations w recent_df settings = Raise AttributeError).
Proof.
  intros Hp. unfold personalized_recommendations, cfg_enabled, cfg_profile.
  rewrite Hp. cbn [mbind Result_bind]. split; [|split].
  - intros ->. reflexivity.
  - intros profile ->. cbn [mbind Result_bind]. split.
    + intros ->. now destruct (negb _).
    + intros Hkey.
      assert (Hc : get_deepseek_client w = None).
      { unfold get_deepseek_client. now destruct Hkey as [-> | ->]. }
      split; [exact Hc|]. rewrite Hc.
      destruct (negb _); [reflexivity|]. now destruct (String.eqb _ _).
  - intros v -> Hv Hs. rewrite Hv. cbn [negb default].
    destruct v; try reflexivity. now destruct (Hs s).
Qed.

Lemma personalized_recommendations_empty (w : World) (recent_df : DataFrame)
    (settings : Settings) :
  well_formed settings ->
  df_empty recent_df = true ->
  personalized_recommendations w recent_df settings = Ok None.
Proof.
  intros (profile & mc & tn & mw & Hprof & Hmc & Htn & Hmw) H.
  unfold personalized_recommendations.
  unfold cfg_profile, cfg_max_candidates, cfg_top_n, cfg_max_workers in *.
  destruct (get_personalization settings) as [p|]; [|discriminate].
  cbn [mbind Result_bind] in *. rewrite Hprof, Hmc, Htn, Hmw, H.
  cbn [mbind Result_bind].
  destruct (negb _); [reflexivity|]. destruct (String.eqb _ _); [reflexivity|].
  now destruct (get_deepseek_client w).
Qed.

Lemma columns_set_column (d : DataFrame) (c : string) (values : list pyval) :
  has_column d c = true -> columns (set_column d c values) = columns d.
Proof. intros H. unfold set_column. cbn [columns]. now rewrite H. Qed.

(** The conversion loop leaves the labels as they are. *)
Lemma convert_date_columns_columns (df : DataFrame) :
  columns (convert_date_columns df) = columns df.
Proof.
  unfold convert_date_columns. cbn [fold_left].
  destruct (has_column df "published") eqn:Hp.
  - match goal with |- context [has_column ?d "fetched_at"] => set (d1 := d) end.
    assert (H1 : columns d1 = columns df) by (now apply columns_set_column).
    destruct (has_column d1 "fetched_at") eqn:Hf; [|exact H1].
    now rewrite columns_set_column.
  - destruct (has_column df "fetched_at") eqn:Hf; [|reflexivity].
    now rewrite columns_set_column.
Qed.

Lemma convert_date_columns_has_column (df : DataFrame) (c : string) :
  has_column (convert_date_columns df) c = has_column df c.
Proof. unfold has_column. now rewrite convert_date_columns_columns. Qed.

Lemma convert_date_columns_no_rows (df : DataFrame) :
  rows df = [] -> rows (convert_date_columns df) = [].
Proof.
  intros H. unfold convert_date_columns. cbn [fold_left].
  destruct (has_column df "published").
  - match goal with |- context [has_column ?d "fetched_at"] => set (d1 := d) end.
    assert (H1 : rows d1 = []) by (subst d1; unfold set_column; cbn [rows]; now rewrite H).
    destruct (has_column d1 "fetched_at"); [|exact H1].
    unfold set_column. cbn [rows]. now rewrite H1.
  - destruct (has_column df "fetched_at"); [|exact H].
    unfold set_column. cbn [rows]. now rewrite H.
Qed.

Lemma get_recent_data_no_rows (df : DataFrame) (days_window : yaml_value) (now cutoff : Z) :
  rows df = [] ->
  has_column df "published" = true -> has_column df "fetched_at" = true ->
  cutoff_of now days_window = Ok cutoff ->
  exists df', get_recent_data df days_window now = Ok df' /\ rows df' = [].
Proof.
  intros Hrows Hp Hf Hc. unfold get_recent_data.
  rewrite !convert_date_columns_has_column, Hp, Hf, Hc. cbn [negb mbind Result_bind].
  eexists. split; [reflexivity|].
  cbn [select_rows rows]. now rewrite convert_date_columns_no_rows.
Qed.

(** The store changes only at the end of a run that reports. *)
Lemma main_store (w : World) (store : SeenStore) :
  (exists report recommended_links,
      fst (main w store) = Ok (Reported report) /\
      df_empty report = false /\
      recommend_rows w report (rows report) ∅ = Ok recommended_links /\
      snd (main w store)
      = if decide (recommended_links = ∅) then store
        else save_seen_links (load_seen_links store ∪ recommended_links)) \/
  ((forall report, fst (main w store) <> Ok (Reported report)) /\
   snd (main w store) = store).
Proof.
  unfold main. destruct (load_today_news _ _) as [file|]; [|right; now split].
  destruct (read_csv file) as [df|e]; [|destruct e; right; now split].
  destruct (df_empty _); [right; now split|].
  destruct (settings_file w) as [settings|]; [|right; now split].
  cbn [mbind Result_bind].
  destruct (get_days_window settings); [|right; now split].
  cbn [mbind Result_bind].
  destruct (get_recent_data _ _ _) as [recent|]; [|right; now split].
  cbn [mbind Result_bind].
  destruct (personalized_recommendations _ _ _) as [[report|]|];
    [|right; now split|right; now split].
  cbn [mbind Result_bind].
  destruct (df_empty report) eqn:He; [right; now split|].
  destruct (recommend_rows _ _ _ _) as [links|] eqn:Hl; [|right; now split].
  cbn [mbind Result_bind].
  left. exists report, links.
  destruct (decide (links = ∅)); cbn [fst snd]; repeat split; assumption.
Qed.

Lemma news_of_Some (w : World) (r : Result CsvFrame) :
  news_of w = Some r ->
  exists file, load_today_news (raw_dir w) (today_str w) = Some file /\ read_csv file = r.
Proof.
  unfold news_of. destruct (load_today_news _ _) as [file|]; [|discriminate].
  cbn. intros [= <-]. eauto.
Qed.

(** C9, amended.  Empty input.  Each stage [main] runs on a frame gives
    the empty result on an empty one and does not raise: the filter;
    the recency window, for a frame that has the two date columns and a
    window for which the cutoff is a date; and
    [personalized_recommendations], which returns [None], for settings
    it reads without an exception.  A run on an empty batch ends with
    nothing to report and leaves the store as it was, whatever the
    columns and the settings; so does a run whose recommendation step
    returns [None] or an empty report; and every run that does not end
    with a report, for whatever reason, leaves the store as it was. *)
Theorem empty_input_is_not_an_error :
  (forall df seen_links,
      df_empty df = true -> df_empty (filter_unseen_items df seen_links) = true) /\
  (forall df days_window now cutoff,
      rows df = [] ->
      has_column df "published" = true -> has_column df "fetched_at" = true ->
      cutoff_of now days_window = Ok cutoff ->
      exists df', get_recent_data df days_window now = Ok df' /\ rows df' = []) /\
  (forall w df settings,
      well_formed settings ->
      df_empty df = true -> personalized_recommendations w df settings = Ok None) /\
  (forall w store (df : CsvFrame),
      news_of w = Some (Ok df) -> df_empty df = true ->
      main w store = (Ok NoNewItems, store)) /\
  (forall w store (df : CsvFrame) settings days_window recent personalized,
      news_of w = Some (Ok df) ->
      df_empty (filter_unseen_items df (load_seen_links store)) = false ->
      settings_file w = Ok settings ->
      get_days_window settings = Ok days_window ->
      get_recent_data (filter_unseen_items df (load_seen_links store)) days_window (now w)
      = Ok recent ->
      personalized_recommendations w recent settings = Ok personalized ->
      (personalized = None \/
       exists report, personalized = Some report /\ df_empty report = true) ->
      main w store = (Ok NothingToRecommend, store)) /\
  (forall w store,
      (forall report, fst (main w store) <> Ok (Reported report)) ->
      snd (main w store) = store).
Proof.
  split; [exact filter_unseen_items_empty|].
  split; [exact get_recent_data_no_rows|].
  split; [exact personalized_recommendations_empty|].
  split; [|split].
  - intros w store df Hnews Hempty.
    apply news_of_Some in Hnews as (file & Hfile & Hread).
    unfold main. rewrite Hfile, Hread.
    now rewrite filter_unseen_items_empty.
  - intros w store df settings days_window recent personalized
      Hnews Hne Hset Hdays Hrecent Hrec Hnone.
    apply news_of_Some in Hnews as (file & Hfile & Hread).
    unfold main. rewrite Hfile, Hread, Hne, Hset. cbn [mbind Result_bind].
    rewrite Hdays. cbn [mbind Result_bind].
    rewrite Hrecent. cbn [mbind Result_bind]. rewrite Hrec. cbn [mbind Result_bind].
    destruct Hnone as [->|(report & -> & ->)]; reflexivity.
  - intros w store Hno.
    destruct (main_store w store) as [(report & _ & Hr & _)|[_ Hs]]; [|exact Hs].
    now destruct (Hno report).
Qed.

Lemma recommend_rows_links (w : World) (personalized : DataFrame)
    (rs : list (gmap string pyval)) (acc recommended_links : gset string) :
  recommend_rows w personalized rs acc = Ok recommended_links ->
  recommended_links
  = list_to_set (List.filter (fun l => negb (String.eqb l ""))
                             (map (link_id personalized) rs)) ∪ acc.
Proof.
  revert acc. induction rs as [|r rs IH]; intros acc H.
  - cbn in H. injection H as <-. cbn. now rewrite union_empty_l_L.
  - cbn [recommend_rows] in H.
    destruct (translate_to_zh _ _); [|discriminate]. cbn [mbind Result_bind] in H.
    destruct (py_int _); [|discriminate]. cbn [mbind Result_bind] in H.
    apply IH in H. rewrite H. cbn [map List.filter]. fold (link_id personalized r).
    destruct (negb _); cbn [list_to_set]; [|reflexivity].
    rewrite union_assoc_L. f_equal. apply union_comm_L.
Qed.

Lemma report_links_elem (report : DataFrame) (r : gmap string pyval) :
  r ∈ rows report -> link_id report r <> ""%string ->
  link_id report r ∈ report_links report.
Proof.
  intros Hr Hne. unfold report_links. rewrite elem_of_list_to_set.
  apply list_elem_of_In, filter_In. split.
  - apply in_map. now apply list_elem_of_In.
  - now destruct (String.eqb_spec (link_id report r) "").
Qed.

(** What a run that reports leaves in the store. *)
Lemma main_reported_store (w : World) (store store' : SeenStore) (report : DataFrame) :
  main w store = (Ok (Reported report), store') ->
  rows report <> [] /\
  store' = if decide (report_links report = ∅) then store
           else save_seen_links (load_seen_links store ∪ report_links report).
Proof.
  intros Hmain.
  destruct (main_store w store) as [(report' & links & Hr & He & Hl & Hs)|[Hno _]].
  2: { destruct (Hno report). now rewrite Hmain. }
  rewrite Hmain in Hr, Hs. cbn [fst snd] in Hr, Hs. injection Hr as <-.
  apply recommend_rows_links in Hl. fold (report_links report) in Hl.
  rewrite union_empty_r_L in Hl. subst links.
  split; [|exact Hs].
  intros Hnil. unfold df_empty in He. now rewrite Hnil in He.
Qed.

Lemma sorted_links_elem (links : gset string) (id : string) :
  id ∈ sorted_links links <-> id ∈ links.
Proof.
  unfold sorted_links. rewrite merge_sort_Permutation. apply elem_of_elements.
Qed.

(** C1, on the code.  A row of a report whose link cell is empty has
    the identifier ["nan"]: the report loop renders the missing link
    with [str] and the test [if link:] lets the text pass.  The
    identifier is in the report and is written to the store, but the
    seen set the next run loads from that store does not hold it,
    because [read_csv] takes the text for a missing value and [dropna]
    removes it; and the filter of the next run keeps every row whose
    link is empty, whatever the seen set.  So the item is an unseen
    candidate again and the identifier of the report of run N is that
    of a candidate of run N+1. *)
Theorem linkless_item_is_reported_again (w : World) (store store' : SeenStore)
    (report : DataFrame) (r : gmap string pyval) :
  main w store = (Ok (Reported report), store') ->
  r ∈ rows report ->
  has_column report "link" = true ->
  cell r "link" = VNaN ->
  link_id report r = "nan"%string /\
  "nan"%string ∈ report_links report /\
  (exists cells, store' = Some cells /\ "nan"%string ∈ cells) /\
  ("nan"%string ∉ load_seen_links store') /\
  (forall df r',
      has_column df "link" = true -> r' ∈ rows df -> cell r' "link" = VNaN ->
      r' ∈ rows (filter_unseen_items df (load_seen_links store')) /\
      link_id df r' = "nan"%string).
Proof.
  intros Hmain Hr Hcol Hcell.
  assert (Hid : link_id report r = "nan"%string).
  { unfold link_id, row_get. now rewrite Hcol, Hcell. }
  assert (Hin : "nan"%string ∈ report_links report).
  { rewrite <- Hid. apply report_links_elem; [exact Hr|]. now rewrite Hid. }
  split; [exact Hid|]. split; [exact Hin|].
  destruct (main_reported_store w store store' report Hmain) as [_ Hs].
  split; [|split].
  - destruct (decide (report_links report = ∅)) as [E|_].
    { rewrite E in Hin. now apply elem_of_empty in Hin. }
    rewrite Hs. eexists. split; [reflexivity|].
    apply sorted_links_elem, elem_of_union. now right.
  - intros H. apply load_seen_links_not_na in H. discriminate.
  - intros df r' Hc Hr' Hcell'. split.
    + apply filter_unseen_items_keeps_missing; [exact Hr'|]. now rewrite Hcell'.
    + unfold link_id, row_get. now rewrite Hc, Hcell'.
Qed.

(** X31.  No repeat across runs, for the identifiers that come back
    from the store.  When a run ends with a report, the report is not empty and
    the store the run leaves is the sorted list of the seen set it
    loaded together with exactly the identifiers of the rows of the
    report (the links as [str] renders them; a row whose link is the
    empty string has none); the store is left as it was when the report
    has no identifier.  In the run that loads this store, no row the
    filter keeps has an identifier of the loaded set; hence an
    identifier of the report that the next run reads back from the
    store is the link of no row the next run keeps as unseen. *)
Theorem no_repeat_for_links_read_back (w : World) (store store' : SeenStore)
    (report : DataFrame) :
  main w store = (Ok (Reported report), store') ->
  rows report <> [] /\
  store' = (if decide (report_links report = ∅) then store
            else Some (sorted_links (load_seen_links store ∪ report_links report))) /\
  (forall id, id ∈ sorted_links (load_seen_links store ∪ report_links report) <->
              id ∈ load_seen_links store \/ id ∈ report_links report) /\
  (forall (df : CsvFrame) r,
      r ∈ rows (filter_unseen_items df (load_seen_links store')) ->
      link_id df r ∉ load_seen_links store') /\
  (forall (df : CsvFrame) r id,
      id ∈ report_links report ->
      id ∈ load_seen_links store' ->
      r ∈ rows (filter_unseen_items df (load_seen_links store')) ->
      link_id df r <> id).
Proof.
  intros Hmain.
  destruct (main_reported_store w store store' report Hmain) as [Hne Hs].
  split; [exact Hne|]. split; [exact Hs|]. split; [|split].
  - intros id. rewrite sorted_links_elem. apply elem_of_union.
  - intros df r Hr. apply filter_unseen_items_not_loaded; [apply frame_cells|exact Hr].
  - intros df r id _ Hid Hr Heq. subst id.
    now apply (filter_unseen_items_not_loaded df store' r (frame_cells df) Hr).
Qed.

End MainFacts.

(** * Further properties of [daily_report.py] *)

(** ** The filter *)

Lemma filter_twice {T : Type} (p q : T -> bool) (l : list T) :
  List.filter q (List.filter p l) = List.filter (fun x => p x && q x) l.
Proof.
  induction l as [|x l IH]; [reflexivity|].
  cbn [List.filter]. destruct (p x) eqn:Hp; cbn [andb].
  - cbn [List.filter]. destruct (q x); now rewrite IH.
  - exact IH.
Qed.

Lemma sublist_of_filter {T : Type} (p : T -> bool) (l : list T) :
  sublist (List.filter p l) l.
Proof.
  induction l as [|x l IH]; [constructor|].
  cbn [List.filter]. destruct (p x); now constructor.
Qed.

Section FilterFacts.

Context `{P : Pandas}.

(** X1.  For a frame with a [link] column the filter keeps the columns,
    keeps the rows in their order, and keeps exactly the rows whose
    link is missing or, as [str] renders it, is not in the seen set. *)
Theorem filter_unseen_items_keeps (df : DataFrame) (seen_links : gset string) :
  has_column df "link" = true ->
  columns (filter_unseen_items df seen_links) = columns df /\
  sublist (rows (filter_unseen_items df seen_links)) (rows df) /\
  forall r, r ∈ rows (filter_unseen_items df seen_links)
            <-> r ∈ rows df /\
                (isna (cell r "link") = true \/ py_str (cell r "link") ∉ seen_links).
Proof.
  intros Hcol. unfold filter_unseen_items. rewrite Hcol. cbn [negb].
  destruct (decide (seen_links = ∅)) as [->|Hne].
  - split; [reflexivity|]. split; [reflexivity|].
    intros r. split; [intros Hr; split; [exact Hr|right; apply not_elem_of_empty]|tauto].
  - cbn [select_rows rows columns]. split; [reflexivity|].
    split; [apply sublist_of_filter|].
    intros r. rewrite !list_elem_of_In, filter_In.
    unfold astype_str. destruct (isna (cell r "link")).
    + split; [intros [H _]; split; [exact H|now left]|intros [H _]; now split].
    + rewrite negb_true_iff, bool_decide_eq_false.
      split; [intros [H H']; split; [exact H|now right]|].
      intros [H [H'|H']]; [discriminate|now split].
Qed.

(** X2.  Filtering against one seen set and then against another is
    filtering against their union: what a run keeps does not depend on
    how the history was accumulated. *)
Theorem filter_unseen_items_union (df : DataFrame) (s1 s2 : gset string) :
  filter_unseen_items (filter_unseen_items df s1) s2 = filter_unseen_items df (s1 ∪ s2).
Proof.
  unfold filter_unseen_items at 2.
  destruct (has_column df "link") eqn:Hcol; cbn [negb].
  2: { unfold filter_unseen_items. now rewrite Hcol. }
  destruct (decide (s1 = ∅)) as [->|H1].
  { now rewrite union_empty_l_L. }
  unfold filter_unseen_items.
  match goal with |- context [has_column (select_rows df ?f) "link"] =>
    assert (Hcol' : has_column (select_rows df f) "link" = true) by exact Hcol
  end.
  rewrite Hcol', Hcol. cbn [negb].
  destruct (decide (s2 = ∅)) as [->|H2].
  { rewrite union_empty_r_L. now destruct (decide (s1 = ∅)). }
  destruct (decide (s1 ∪ s2 = ∅)) as [E|_].
  { apply empty_union_L in E as [? _]. contradiction. }
  unfold select_rows. cbn [rows columns]. f_equal.
  rewrite filter_twice. apply filter_ext. intros r.
  destruct (astype_str (cell r "link")) as [link|]; [|reflexivity].
  rewrite <- negb_orb. f_equal.
  apply eq_true_iff_eq. rewrite orb_true_iff, !bool_decide_eq_true, elem_of_union.
  reflexivity.
Qed.

End FilterFacts.

(** ** The recency window *)

Lemma imap_shift {A B : Type} (f : nat -> A -> B) (k : nat) (l : list A) :
  imap ((fun i => f (k + i)%nat) ∘ S) l = imap (fun i => f (S k + i)%nat) l.
Proof.
  apply imap_ext. intros i x _. unfold compose. f_equal. lia.
Qed.

Lemma filter_imap_omap_from {A B : Type} (p : B -> bool) (f : nat -> A -> B)
    (q : nat -> bool) (l : list A) (k : nat) :
  (forall i x, l !! i = Some x -> p (f (k + i)%nat x) = q (k + i)%nat) ->
  List.filter p (imap (fun i => f (k + i)%nat) l)
  = omap (fun ix => if q ix.1 then Some (f ix.1 ix.2) else None)
         (imap (fun i => pair (k + i)%nat) l).
Proof.
  revert k. induction l as [|x l IH]; intros k H; [reflexivity|].
  rewrite !imap_cons, !imap_shift. cbn [List.filter omap list_omap fst snd].
  rewrite (H 0%nat x eq_refl).
  rewrite (IH (S k)).
  2: { intros i y Hy. specialize (H (S i) y Hy).
       now replace (S k + i)%nat with (k + S i)%nat by lia. }
  now destruct (q (k + 0)%nat).
Qed.

Lemma filter_imap_omap {A B : Type} (p : B -> bool) (f : nat -> A -> B) (q : nat -> bool)
    (l : list A) :
  (forall i x, l !! i = Some x -> p (f i x) = q i) ->
  List.filter p (imap f l)
  = omap (fun ix => if q ix.1 then Some (f ix.1 ix.2) else None) (imap pair l).
Proof. intros H. exact (filter_imap_omap_from p f q l 0 H). Qed.

Lemma omap_imap_lookup {A B : Type} (g : nat -> A -> option B) (l : list A) (k : nat) (y : B) :
  omap (fun ix => g ix.1 ix.2) (imap pair l) !! k = Some y ->
  exists i x, l !! i = Some x /\ g i x = Some y.
Proof.
  intros H. apply list_elem_of_lookup_2, list_elem_of_omap in H as ([i x] & Hin & Hg).
  apply elem_of_lookup_imap in Hin as (i' & x' & [= -> ->] & Hx).
  exists i', x'. now split.
Qed.

Lemma omap_imap_id_from {A : Type} (g : nat -> A -> option A) (l : list A) (k : nat) :
  (forall i x, l !! i = Some x -> g (k + i)%nat x = Some x) ->
  omap (fun ix => g ix.1 ix.2) (imap (fun i => pair (k + i)%nat) l) = l.
Proof.
  revert k. induction l as [|x l IH]; intros k H; [reflexivity|].
  rewrite imap_cons, imap_shift. cbn [omap list_omap fst snd].
  rewrite (H 0%nat x eq_refl). f_equal. apply IH.
  intros i y Hy. specialize (H (S i) y Hy).
  now replace (S k + i)%nat with (k + S i)%nat by lia.
Qed.

Lemma omap_imap_id {A : Type} (g : nat -> A -> option A) (l : list A) :
  (forall i x, l !! i = Some x -> g i x = Some x) ->
  omap (fun ix => g ix.1 ix.2) (imap pair l) = l.
Proof. intros H. exact (omap_imap_id_from g l 0 H). Qed.

Section WindowFacts.

Context `{P : Pandas}.

(** A column of timestamps and missing dates is its own conversion. *)
Lemma to_datetime_fixed (col : list pyval) :
  Forall (fun v => (exists t, v = VTime t) \/ v = VNaT) col -> to_datetime col = col.
Proof.
  intros H. apply list_eq. intros i. unfold to_datetime. rewrite list_lookup_imap.
  destruct (col !! i) as [v|] eqn:E; [|reflexivity]. cbn.
  destruct (Forall_lookup_1 _ _ _ _ H E) as [[t ->]| ->]; reflexivity.
Qed.

Lemma convert_dates_published (df : DataFrame) (i : nat) (r : gmap string pyval) :
  cell (convert_dates df i r) "published" = converted df "published" i.
Proof.
  unfold convert_dates. rewrite cell_insert_ne by discriminate. apply cell_insert_eq.
Qed.

Lemma convert_dates_fetched_at (df : DataFrame) (i : nat) (r : gmap string pyval) :
  cell (convert_dates df i r) "fetched_at" = converted df "fetched_at" i.
Proof. unfold convert_dates. apply cell_insert_eq. Qed.

Lemma convert_dates_other (df : DataFrame) (i : nat) (r : gmap string pyval) (c : string) :
  c <> "published"%string -> c <> "fetched_at"%string ->
  cell (convert_dates df i r) c = cell r c.
Proof.
  intros H1 H2. unfold convert_dates.
  rewrite !cell_insert_ne by congruence. reflexivity.
Qed.

(** Converting a row again with the values it holds changes nothing. *)
Lemma convert_dates_again (df : DataFrame) (i : nat) (r : gmap string pyval) :
  <["fetched_at" := converted df "fetched_at" i]>
    (<["published" := converted df "published" i]> (convert_dates df i r))
  = convert_dates df i r.
Proof.
  unfold convert_dates. apply map_eq. intros k.
  destruct (decide (k = "fetched_at"%string)) as [->|Hf];
    [now rewrite !lookup_insert_eq|].
  rewrite (lookup_insert_ne _ "fetched_at" k) by congruence.
  destruct (decide (k = "published"%string)) as [->|Hp].
  - rewrite lookup_insert_eq.
    rewrite (lookup_insert_ne _ "fetched_at" "published") by discriminate.
    now rewrite lookup_insert_eq.
  - now rewrite !lookup_insert_ne by congruence.
Qed.

(** The row test of [get_recent_data], on the converted row. *)
Lemma window_test (df : DataFrame) (cutoff : Z) (i : nat) (r : gmap string pyval) :
  match fillna (cell (convert_dates df i r) "published")
               (cell (convert_dates df i r) "fetched_at") with
  | VTime t => cutoff <=? t
  | _ => false
  end = in_window df cutoff i.
Proof.
  rewrite convert_dates_published, convert_dates_fetched_at.
  unfold in_window, effective_ts.
  destruct (converted_cases df "published" i) as [[t ->]| ->]; [reflexivity|].
  cbn [fillna isna].
  now destruct (converted_cases df "fetched_at" i) as [[t ->]| ->].
Qed.

Lemma get_recent_data_eq (df : DataFrame) (days_window : yaml_value) (now : Z) :
  has_column df "published" = true -> has_column df "fetched_at" = true ->
  get_recent_data df days_window now
  = (cutoff ← cutoff_of now days_window;
     Ok {| columns := columns df; rows := window_rows df cutoff |}).
Proof.
  intros Hp Hf. unfold get_recent_data.
  rewrite !convert_date_columns_has_column, Hp, Hf. cbn [negb].
  destruct (cutoff_of now days_window) as [cutoff|]; [|reflexivity].
  cbn [mbind Result_bind]. unfold select_rows.
  rewrite convert_date_columns_eq by assumption. cbn [rows columns]. do 2 f_equal.
  unfold window_rows. apply filter_imap_omap.
  intros i r _. apply window_test.
Qed.

Lemma in_window_spec (df : DataFrame) (cutoff : Z) (i : nat) :
  in_window df cutoff i = true <-> exists t, effective_ts df i = Some t /\ cutoff <= t.
Proof.
  unfold in_window. destruct (effective_ts df i) as [t|].
  - rewrite Z.leb_le. split; [eauto|]. now intros (t' & [= <-] & H).
  - split; [discriminate|]. now intros (t' & [=] & _).
Qed.

(** X3.  For a frame with the two date columns and a window for which
    the cutoff [now - days_window] days is a date, [get_recent_data]
    returns, with the same columns and in input order, the rows whose
    effective timestamp ([published], else [fetched_at], as
    [pd.to_datetime] converts the two columns) exists and is not before
    the cutoff, their date cells converted and every other cell as it
    was.  When the cutoff cannot be computed, the exception of that
    computation is raised: [TypeError] or [ValueError] for a window
    that is not a number, [OverflowError] for one that leads out of the
    range of dates. *)
Theorem get_recent_data_window (df : DataFrame) (days_window : yaml_value) (now : Z) :
  has_column df "published" = true -> has_column df "fetched_at" = true ->
  (forall cutoff,
      cutoff_of now days_window = Ok cutoff ->
      exists recent,
        get_recent_data df days_window now = Ok recent /\
        columns recent = columns df /\
        rows recent = window_rows df cutoff /\
        (forall k r', rows recent !! k = Some r' ->
                      exists i r, rows df !! i = Some r /\ in_window df cutoff i = true /\
                                  r' = convert_dates df i r) /\
        (forall i r, rows df !! i = Some r -> in_window df cutoff i = true ->
                     convert_dates df i r ∈ rows recent)) /\
  (forall cutoff i,
      in_window df cutoff i = true <->
      exists t, effective_ts df i = Some t /\ cutoff <= t) /\
  (forall i r c, c <> "published"%string -> c <> "fetched_at"%string ->
                 cell (convert_dates df i r) c = cell r c) /\
  (forall i r, cell (convert_dates df i r) "published" = converted df "published" i /\
               cell (convert_dates df i r) "fetched_at" = converted df "fetched_at" i) /\
  (forall e, cutoff_of now days_window = Raise e ->
             get_recent_data df days_window now = Raise e) /\
  (forall days,
      days_window = YInt days ->
      cutoff_of now days_window
      = if (Z.abs days <=? 999999999)
           && (datetime_min <=? now - days * nanoseconds_per_day)
           && (now - days * nanoseconds_per_day <=? datetime_max)
        then Ok (now - days * nanoseconds_per_day) else Raise OverflowError).
Proof.
  intros Hp Hf. split; [|split; [|split; [|split; [|split]]]].
  - intros cutoff Hc. eexists. split.
    { rewrite get_recent_data_eq by assumption. rewrite Hc. reflexivity. }
    cbn [columns rows]. split; [reflexivity|]. split; [reflexivity|]. split.
    + intros k r' Hk. unfold window_rows in Hk.
      apply (omap_imap_lookup
               (fun i r => if in_window df cutoff i then Some (convert_dates df i r) else None))
        in Hk as (i & r & Hr & Hg).
      exists i, r. destruct (in_window df cutoff i); [|discriminate].
      injection Hg as <-. auto.
    + intros i r Hr Hw. unfold window_rows. apply list_elem_of_omap.
      exists (i, r). split.
      * apply elem_of_lookup_imap. eauto.
      * cbn [fst snd]. now rewrite Hw.
  - intros cutoff i. apply in_window_spec.
  - intros i r c. apply convert_dates_other.
  - intros i r. split; [apply convert_dates_published|apply convert_dates_fetched_at].
  - intros e He. rewrite get_recent_data_eq by assumption. now rewrite He.
  - intros days ->. unfold cutoff_of, timedelta_days.
    destruct (Z.abs days <=? 999999999); [|reflexivity].
    cbn [mbind Result_bind andb]. reflexivity.
Qed.

(** X4.  Without the [published] column [get_recent_data] raises
    [KeyError], and with it but without [fetched_at] as well, whatever
    the rows, an empty frame included: the fallback column is read
    even when every row has a [published] date. *)
Theorem get_recent_data_missing_column (df : DataFrame) (days_window : yaml_value)
    (now : Z) :
  (has_column df "published" = false ->
   get_recent_data df days_window now = Raise (KeyError "published")) /\
  (has_column df "published" = true -> has_column df "fetched_at" = false ->
   get_recent_data df days_window now = Raise (KeyError "fetched_at")).
Proof.
  unfold get_recent_data. rewrite !convert_date_columns_has_column.
  split; [intros ->; reflexivity|intros -> ->; reflexivity].
Qed.

Lemma get_recent_data_ok (df recent : DataFrame) (days_window : yaml_value) (now : Z) :
  get_recent_data df days_window now = Ok recent ->
  has_column df "published" = true /\ has_column df "fetched_at" = true /\
  exists cutoff, cutoff_of now days_window = Ok cutoff /\
                 recent = {| columns := columns df; rows := window_rows df cutoff |}.
Proof.
  intros H.
  assert (Hc : has_column df "published" = true /\ has_column df "fetched_at" = true).
  { unfold get_recent_data in H. rewrite !convert_date_columns_has_column in H.
    destruct (has_column df "published"); [|discriminate].
    destruct (has_column df "fetched_at"); [now split|discriminate]. }
  destruct Hc as [Hp Hf]. split; [exact Hp|]. split; [exact Hf|].
  rewrite get_recent_data_eq in H by assumption.
  destruct (cutoff_of now days_window) as [cutoff|]; [|discriminate].
  cbn [mbind Result_bind] in H. injection H as <-. eauto.
Qed.

(** The rows of a window: where each comes from. *)
Lemma window_rows_lookup (df : DataFrame) (cutoff : Z) (k : nat) (r' : gmap string pyval) :
  window_rows df cutoff !! k = Some r' ->
  exists i r, rows df !! i = Some r /\ in_window df cutoff i = true /\
              r' = convert_dates df i r.
Proof.
  intros Hk. unfold window_rows in Hk.
  apply (omap_imap_lookup
           (fun i r => if in_window df cutoff i then Some (convert_dates df i r) else None))
    in Hk as (i & r & Hr & Hg).
  exists i, r. destruct (in_window df cutoff i); [|discriminate].
  injection Hg as <-. auto.
Qed.

(** In the frame of a window the date columns hold timestamps and
    missing dates, so their conversion leaves them as they are. *)
Lemma converted_window (df : DataFrame) (cols : list string) (cutoff : Z) (c : string)
    (k : nat) (r' : gmap string pyval) :
  c = "published"%string \/ c = "fetched_at"%string ->
  window_rows df cutoff !! k = Some r' ->
  converted {| columns := cols; rows := window_rows df cutoff |} c k = cell r' c.
Proof.
  intros Hc Hk. unfold converted. rewrite to_datetime_fixed.
  - rewrite column_lookup. cbn [rows]. now rewrite Hk.
  - apply Forall_lookup_2. intros j v Hv. rewrite column_lookup in Hv. cbn [rows] in Hv.
    destruct (window_rows df cutoff !! j) as [r1|] eqn:Hj; [|discriminate].
    cbn in Hv. injection Hv as <-.
    apply window_rows_lookup in Hj as (i & r & _ & _ & ->).
    destruct Hc as [-> | ->].
    + rewrite convert_dates_published. apply converted_cases.
    + rewrite convert_dates_fetched_at. apply converted_cases.
Qed.

(** X5.  [get_recent_data] is idempotent: applied to its own result,
    with the same window and clock, it returns that result.  Dates that
    are already converted stay as they are, so the second conversion in
    [personalized_recommendations] changes nothing. *)
Theorem get_recent_data_idempotent (df recent : DataFrame) (days_window : yaml_value)
    (now : Z) :
  get_recent_data df days_window now = Ok recent ->
  get_recent_data recent days_window now = Ok recent.
Proof.
  intros H. destruct (get_recent_data_ok _ _ _ _ H) as (Hp & Hf & cutoff & Hc & ->).
  rewrite get_recent_data_eq by assumption. rewrite Hc. cbn [mbind Result_bind columns].
  do 2 f_equal. unfold window_rows at 1. cbn [rows].
  apply (omap_imap_id
           (fun i r => if in_window {| columns := columns df;
                                       rows := window_rows df cutoff |} cutoff i
                       then Some (convert_dates {| columns := columns df;
                                                   rows := window_rows df cutoff |} i r)
                       else None)).
  intros k r' Hk.
  pose proof (converted_window df (columns df) cutoff "published" k r' ltac:(now left) Hk)
    as Ep.
  pose proof (converted_window df (columns df) cutoff "fetched_at" k r' ltac:(now right) Hk)
    as Ef.
  destruct (window_rows_lookup df cutoff k r' Hk) as (i & r & Hr & Hw & ->).
  assert (Hin : in_window {| columns := columns df; rows := window_rows df cutoff |} cutoff k
                = true).
  { unfold in_window, effective_ts in *. rewrite Ep, Ef.
    rewrite convert_dates_published, convert_dates_fetched_at. exact Hw. }
  rewrite Hin. f_equal. unfold convert_dates at 1. rewrite Ep, Ef.
  rewrite convert_dates_published, convert_dates_fetched_at.
  apply convert_dates_again.
Qed.

(** X6.  A wider window loses nothing: every row kept for [d1] days is
    kept for any larger number of days [d2] for which the cutoff is
    still a date, and a row is kept only if it has an effective
    timestamp.  For a [d2] that leads out of the range of dates the
    call raises [OverflowError] instead. *)
Theorem get_recent_data_monotone (df recent : DataFrame) (d1 d2 now : Z) :
  get_recent_data df (YInt d1) now = Ok recent -> d1 <= d2 ->
  (forall cutoff,
      cutoff_of now (YInt d2) = Ok cutoff ->
      exists recent',
        get_recent_data df (YInt d2) now = Ok recent' /\
        (forall r, r ∈ rows recent -> r ∈ rows recent') /\
        (forall r', r' ∈ rows recent' ->
                    exists i r t, rows df !! i = Some r /\ r' = convert_dates df i r /\
                                  effective_ts df i = Some t)) /\
  (forall e, cutoff_of now (YInt d2) = Raise e ->
             e = OverflowError /\ get_recent_data df (YInt d2) now = Raise OverflowError).
Proof.
  intros H Hle. destruct (get_recent_data_ok _ _ _ _ H) as (Hp & Hf & c1 & Hc1 & ->).
  split.
  - intros c2 Hc2. eexists. split.
    { rewrite get_recent_data_eq by assumption. rewrite Hc2. reflexivity. }
    cbn [rows]. split.
    + intros r' Hr'. apply list_elem_of_lookup_1 in Hr' as [k Hk].
      apply window_rows_lookup in Hk as (i & r & Hr & Hw & ->).
      unfold window_rows. apply list_elem_of_omap. exists (i, r). split.
      * apply elem_of_lookup_imap. eauto.
      * cbn [fst snd].
        assert (Hw2 : in_window df c2 i = true).
        { apply in_window_spec in Hw as (t & Ht & Hct). apply in_window_spec.
          exists t. split; [exact Ht|].
          unfold cutoff_of, timedelta_days in Hc1, Hc2.
          destruct (Z.abs d1 <=? 999999999); [|discriminate].
          destruct (Z.abs d2 <=? 999999999); [|discriminate].
          cbn [mbind Result_bind] in Hc1, Hc2.
          destruct (_ && _) in Hc1; [|discriminate].
          destruct (_ && _) in Hc2; [|discriminate].
          injection Hc1 as <-. injection Hc2 as <-.
          unfold nanoseconds_per_day in *. nia. }
        now rewrite Hw2.
    + intros r' Hr'. apply list_elem_of_lookup_1 in Hr' as [k Hk].
      apply window_rows_lookup in Hk as (i & r & Hr & Hw & ->).
      apply in_window_spec in Hw as (t & Ht & _). exists i, r, t. auto.
  - intros e He.
    assert (e = OverflowError) as ->.
    { unfold cutoff_of, timedelta_days in He.
      destruct (Z.abs d2 <=? 999999999); [|now injection He as <-].
      cbn [mbind Result_bind] in He.
      destruct (_ && _) in He; [discriminate|now injection He as <-]. }
    split; [reflexivity|].
    rewrite get_recent_data_eq by assumption. now rewrite He.
Qed.

End WindowFacts.

(** ** From the batch to the report *)

Section TraceFacts.

Context `{P : Pandas}.
Hypothesis contract : sort_contract P.

Lemma prepare_other (df : DataFrame) (i : nat) (r : gmap string pyval) (c : string) :
  c <> "published"%string -> c <> "fetched_at"%string -> c <> "_ts"%string ->
  cell (prepare df i r) c = cell r c.
Proof.
  intros H1 H2 H3. unfold prepare. rewrite cell_insert_ne by congruence.
  now apply convert_dates_other.
Qed.

Lemma sort_values_desc_elem (df : DataFrame) (c : string) (r : gmap string pyval) :
  r ∈ rows (sort_values_desc df c) <-> r ∈ rows df.
Proof. now rewrite (sort_values_desc_perm contract df c). Qed.

Lemma truncate_elem {T : Type} (n : Z) (l : list T) (x : T) :
  x ∈ truncate n l -> x ∈ l.
Proof.
  destruct (truncate_is_take n l) as [k ->]. intros H.
  rewrite <- (take_drop k l). apply elem_of_app. now left.
Qed.

(** What a successful [select_candidates] returns. *)
Lemma select_candidates_ok (recent_df candidates : DataFrame) (max_candidates : Z) :
  select_candidates recent_df max_candidates = Ok candidates ->
  has_column recent_df "published" = true /\
  has_column recent_df "fetched_at" = true /\
  (forall c, has_column candidates c = has_column recent_df c || String.eqb c "_ts") /\
  (forall r, r ∈ rows candidates ->
             exists k r0, rows recent_df !! k = Some r0 /\ r = prepare recent_df k r0).
Proof.
  intros H.
  assert (Hcols : has_column recent_df "published" = true /\
                  has_column recent_df "fetched_at" = true).
  { unfold select_candidates in H. rewrite !convert_date_columns_has_column in H.
    destruct (has_column recent_df "published"); [|discriminate].
    destruct (has_column recent_df "fetched_at"); [now split|discriminate]. }
  destruct Hcols as [Hp Hf]. split; [exact Hp|]. split; [exact Hf|].
  rewrite select_candidates_eq in H by assumption. injection H as <-.
  split.
  - intros c. unfold head, sort_values_desc, has_column at 1. cbn [columns].
    apply has_column_app.
  - unfold head. cbn [rows].
    intros r Hr. apply truncate_elem, sort_values_desc_elem in Hr. cbn [rows] in Hr.
    apply elem_of_lookup_imap in Hr as (k & r0 & -> & Hr0). eauto.
Qed.

Lemma zip_column_elem (c : string) (rs : list (gmap string pyval)) (vs : list pyval)
    (r : gmap string pyval) :
  r ∈ zip_column c rs vs ->
  exists i r0 v, rs !! i = Some r0 /\ vs !! i = Some v /\ r = <[c := v]> r0.
Proof.
  revert vs. induction rs as [|r0 rs IH]; intros [|v vs] H; cbn in H;
    try (inversion H; fail).
  apply elem_of_cons in H as [->|H].
  - exists 0%nat, r0, v. now repeat split.
  - destruct (IH vs H) as (i & r1 & v1 & H1 & H2 & ->).
    exists (S i), r1, v1. now repeat split.
Qed.

(** What a successful [rank] returns: each row of the report is a
    candidate with the score at its own position. *)
Lemma rank_ok (candidates report : DataFrame) (scores : list Z) (top_n : Z) :
  rank candidates scores top_n = Ok report ->
  (forall c, c <> "_personal_score"%string ->
             has_column report c = has_column candidates c) /\
  has_column report "_personal_score" = true /\
  (forall r, r ∈ rows report ->
     exists i c z, rows candidates !! i = Some c /\ scores !! i = Some z /\
                   r = <["_personal_score" := VFloat z]> c).
Proof.
  unfold rank, assign. destruct (decide _) as [Hlen|]; [|discriminate].
  cbn [mbind Result_bind]. intros [= <-].
  split; [|split].
  - intros c Hc. unfold head, sort_values_desc, has_column at 1. cbn [columns].
    destruct (has_column candidates "_personal_score"); [reflexivity|].
    unfold has_column. apply bool_decide_ext.
    rewrite elem_of_app, list_elem_of_singleton.
    split; [intros [H|H]; [exact H|congruence]|tauto].
  - unfold head, sort_values_desc, has_column at 1. cbn [columns].
    destruct (has_column candidates "_personal_score") eqn:E; [exact E|].
    apply bool_decide_eq_true. apply elem_of_app. right. now left.
  - intros r Hr. unfold head in Hr. cbn [rows] in Hr.
    apply truncate_elem, sort_values_desc_elem in Hr. cbn [rows] in Hr.
    destruct (zip_column_elem _ _ _ _ Hr) as (i & c & v & Hc & Hv & ->).
    rewrite list_lookup_fmap in Hv.
    destruct (scores !! i) as [z|] eqn:Hz; [|discriminate].
    injection Hv as <-. eauto 6.
Qed.

Lemma scorer_result_bounds (client : Client) (profile : string)
    (item : gmap string pyval) (z : Z) :
  score_item_with_deepseek client profile item = Ok z -> 0 <= z <= 100.
Proof.
  intros Hscore.
  destruct (summary_of item) eqn:Hs;
    try (rewrite scorer_on_other in Hscore
           by (intros s'; rewrite Hs; discriminate); discriminate).
  destruct (scorer_on_text client profile item s Hs) as (p & _ & E).
  rewrite E in Hscore. injection Hscore as <-. apply score_of_outcome_bounds.
Qed.

(** X7.  Every row of a report [personalized_recommendations] returns
    is one of the frame's rows, dates converted and [_ts] added,
    carrying in [_personal_score] the score the scorer returned for
    this very row, a number in [0, 100]: the record the scorer was
    given holds, under each label of the candidates, the cell of that
    row and nothing else, and sorting and truncating never separate an
    item from its score. *)
Theorem report_rows_carry_their_score (w : World) (recent_df report : DataFrame)
    (settings : Settings) :
  personalized_recommendations w recent_df settings = Ok (Some report) ->
  exists client profile max_candidates candidates,
    get_deepseek_client w = Some client /\
    cfg_profile settings = Ok profile /\
    cfg_max_candidates settings = Ok max_candidates /\
    select_candidates recent_df max_candidates = Ok candidates /\
    forall r, r ∈ rows report ->
      exists i c item z k r0,
        rows candidates !! i = Some c /\
        rows recent_df !! k = Some r0 /\ c = prepare recent_df k r0 /\
        to_dict_records candidates !! i = Some item /\
        (forall label, item !! label
                       = if has_column candidates label then Some (cell c label)
                         else None) /\
        score_item_with_deepseek client profile item = Ok z /\
        0 <= z <= 100 /\
        r = <["_personal_score" := VFloat z]> c.
Proof.
  intros H.
  destruct (personalized_recommendations_some _ _ _ _ H)
    as (client & profile & mc & tn & mw & candidates & scores
        & Hclient & _ & Hprof & Hmc & _ & _ & _ & Hsel & Hex & Hlen & Hrank).
  exists client, profile, mc, candidates.
  split; [exact Hclient|]. split; [exact Hprof|]. split; [exact Hmc|].
  split; [exact Hsel|].
  intros r Hr.
  destruct (rank_ok _ _ _ _ Hrank) as (_ & _ & Hrows).
  destruct (Hrows r Hr) as (i & c & z & Hc & Hz & ->).
  destruct (select_candidates_ok _ _ _ Hsel) as (_ & _ & _ & Hprep).
  destruct (Hprep c) as (k & r0 & Hr0 & Hc0); [now apply list_elem_of_lookup_2 with i|].
  assert (Hw : (0 < Z.to_nat mw)%nat).
  { unfold executor_map in Hex. destruct (decide _); [discriminate|lia]. }
  rewrite executor_map_mapM in Hex by exact Hw.
  apply mapM_aligned in Hex as [_ Hal].
  assert (Hitem : exists item, to_dict_records candidates !! i = Some item).
  { apply lookup_lt_is_Some_2. rewrite to_dict_records_length.
    now apply lookup_lt_Some in Hc. }
  destruct Hitem as [item Hitem].
  destruct (Hal i item Hitem) as (z' & Hz' & Hscore).
  assert (z' = z) by congruence. subst z'.
  destruct (to_dict_records_lookup _ _ _ Hitem) as (c' & Hc' & Hlabels).
  assert (c' = c) by congruence. subst c'.
  exists i, c, item, z, k, r0.
  split; [exact Hc|]. split; [exact Hr0|]. split; [exact Hc0|].
  split; [exact Hitem|]. split; [exact Hlabels|]. split; [exact Hscore|].
  split; [|reflexivity]. eapply scorer_result_bounds. exact Hscore.
Qed.

End TraceFacts.

(** ** The main program *)

Section MainFacts2.

Context `{P : Pandas}.

(** What a run that ends with a report went through. *)
Lemma main_reported (w : World) (store store' : SeenStore) (report : DataFrame) :
  main w store = (Ok (Reported report), store') ->
  exists (df : CsvFrame) settings days_window recent,
    news_of w = Some (Ok df) /\
    settings_file w = Ok settings /\
    get_days_window settings = Ok days_window /\
    get_recent_data (filter_unseen_items df (load_seen_links store)) days_window (now w)
    = Ok recent /\
    personalized_recommendations w recent settings = Ok (Some report).
Proof.
  unfold main, news_of. destruct (load_today_news _ _) as [file|]; [|discriminate].
  destruct (read_csv file) as [df|e] eqn:Hread; [|destruct e; discriminate].
  destruct (df_empty _); [discriminate|].
  destruct (settings_file w) as [settings|] eqn:Hset; [|discriminate].
  cbn [mbind Result_bind].
  destruct (get_days_window settings) as [d|] eqn:Hd; [|discriminate].
  cbn [mbind Result_bind].
  destruct (get_recent_data _ _ _) as [recent|] eqn:Hrecent; [|discriminate].
  cbn [mbind Result_bind].
  destruct (personalized_recommendations _ _ _) as [[rep|]|] eqn:Hrec; try discriminate.
  cbn [mbind Result_bind].
  destruct (df_empty rep); [discriminate|].
  destruct (recommend_rows _ _ _ _) as [links|]; [|discriminate].
  cbn [mbind Result_bind].
  intros H. exists df, settings, d, recent.
  assert (rep = report) by (destruct (decide _); congruence). subst rep.
  cbn [fmap option_fmap option_map]. rewrite Hread. now repeat split.
Qed.


Hypothesis contract : sort_contract P.

(** X9.  A run reports nothing it has delivered before: when the batch
    has a [link] column, the report has one too and every row of the
    report carries the link of a row of the batch whose link was not in
    the store the run loaded. *)
Theorem reported_links_are_new (w : World) (store store' : SeenStore)
    (report : DataFrame) (df : CsvFrame) :
  main w store = (Ok (Reported report), store') ->
  news_of w = Some (Ok df) ->
  has_column df "link" = true ->
  has_column report "link" = true /\
  forall r, r ∈ rows report ->
    (link_id report r ∉ load_seen_links store) /\
    exists r0, r0 ∈ rows df /\ cell r "link" = cell r0 "link".
Proof.
  intros Hmain Hnews Hcol.
  destruct (main_reported _ _ _ _ Hmain)
    as (df' & settings & d & recent & Hnews' & _ & _ & Hrecent & Hrec).
  assert (df' = df) by congruence. subst df'.
  set (unseen := filter_unseen_items df (load_seen_links store)) in *.
  assert (Hucol : has_column unseen "link" = true).
  { unfold has_column, unseen. now rewrite filter_unseen_items_columns. }
  destruct (get_recent_data_ok _ _ _ _ Hrecent) as (Hp & Hf & cutoff & _ & ->).
  destruct (personalized_recommendations_some _ _ _ _ Hrec)
    as (client & profile & mc & tn & mw & candidates & scores
        & _ & _ & _ & _ & _ & _ & _ & Hsel & _ & _ & Hrank).
  destruct (select_candidates_ok contract _ _ _ Hsel) as (_ & _ & Hccol & Hprep).
  destruct (rank_ok contract _ _ _ _ Hrank) as (Hrcol & _ & Hrows).
  assert (Hreport_col : has_column report "link" = true).
  { rewrite Hrcol, Hccol by discriminate.
    change (has_column {| columns := columns unseen;
                          rows := window_rows unseen cutoff |} "link")
      with (has_column unseen "link").
    now rewrite Hucol. }
  split; [exact Hreport_col|].
  intros r Hr. destruct (Hrows r Hr) as (i & c & z & Hc & _ & ->).
  destruct (Hprep c) as (k & r1 & Hr1 & ->); [now apply list_elem_of_lookup_2 with i|].
  cbn [rows] in Hr1.
  apply window_rows_lookup in Hr1 as (j & r0 & Hr0 & _ & ->).
  apply list_elem_of_lookup_2 in Hr0.
  assert (Hlink : cell (<["_personal_score" := VFloat z]>
                          (prepare {| columns := columns unseen;
                                      rows := window_rows unseen cutoff |} k
                             (convert_dates unseen j r0))) "link"
                  = cell r0 "link").
  { rewrite cell_insert_ne by discriminate.
    rewrite prepare_other by discriminate.
    now apply convert_dates_other. }
  split.
  - unfold link_id, row_get. rewrite Hreport_col, Hlink.
    pose proof (filter_unseen_items_not_loaded df store r0 (frame_cells df) Hr0) as Hnew.
    unfold link_id, row_get in Hnew. now rewrite Hcol in Hnew.
  - exists r0. split; [|exact Hlink].
    now apply (filter_unseen_items_sub df (load_seen_links store)).
Qed.

End MainFacts2.

(** ** Translation and the report loop *)

Section TranslateFacts.

Context `{P : Pandas}.

(** X10.  [translate_to_zh] on a textual title never raises and never
    loses the title: a blank title gives the empty text; without an API
    key, or when the request raises or carries no content, the title
    comes back as it is; otherwise the stripped answer is returned. *)
Theorem translate_to_zh_falls_back (w : World) (s : string) :
  (strip s = ""%string -> translate_to_zh w (VStr s) = Ok ""%string) /\
  (strip s <> ""%string -> get_deepseek_client w = None ->
   translate_to_zh w (VStr s) = Ok s) /\
  (strip s <> ""%string ->
   translator w s = ApiRaises \/ translator w s = ApiContent None ->
   translate_to_zh w (VStr s) = Ok s) /\
  (forall c, strip s <> ""%string -> get_deepseek_client w <> None ->
             translator w s = ApiContent (Some c) ->
             translate_to_zh w (VStr s) = Ok (strip c)).
Proof.
  assert (Hnb : strip s <> ""%string -> py_or (VStr s) (VStr "") = VStr s).
  { intros H. unfold py_or. cbn [py_truthy].
    destruct (String.eqb_spec s ""); [subst; now destruct H|reflexivity]. }
  assert (Hor : exists s', py_or (VStr s) (VStr "") = VStr s' /\ strip s' = strip s).
  { unfold py_or. cbn [py_truthy].
    destruct (String.eqb_spec s ""); [subst; now exists ""%string|now exists s]. }
  unfold translate_to_zh, get_deepseek_client. split; [|split; [|split]].
  - intros Hs. destruct Hor as (s' & -> & Hs'). cbn [py_strip mbind Result_bind].
    now rewrite Hs', Hs.
  - intros Hs Hkey. rewrite (Hnb Hs). cbn [py_strip mbind Result_bind py_str].
    destruct (String.eqb_spec (strip s) ""); [contradiction|].
    destruct (DEEPSEEK_API_KEY w) as [key|]; [|reflexivity].
    destruct (String.eqb key ""); [reflexivity|discriminate].
  - intros Hs Hfail. rewrite (Hnb Hs). cbn [py_strip mbind Result_bind py_str].
    destruct (String.eqb_spec (strip s) ""); [contradiction|].
    destruct (DEEPSEEK_API_KEY w) as [key|]; [|reflexivity].
    destruct (String.eqb key ""); [reflexivity|].
    now destruct Hfail as [-> | ->].
  - intros c Hs Hkey Hc. rewrite (Hnb Hs). cbn [py_strip mbind Result_bind py_str].
    destruct (String.eqb_spec (strip s) ""); [contradiction|].
    destruct (DEEPSEEK_API_KEY w) as [key|]; [|contradiction].
    destruct (String.eqb key ""); [contradiction|].
    now rewrite Hc.
Qed.

Lemma translate_to_zh_without_text (w : World) (v : pyval) :
  has_strip v = false -> translate_to_zh w v = Raise AttributeError.
Proof.
  unfold has_strip, translate_to_zh. now destruct (py_or v (VStr "")).
Qed.

Lemma translate_to_zh_outcome (w : World) (v : pyval) :
  (exists out, translate_to_zh w v = Ok out) \/ translate_to_zh w v = Raise AttributeError.
Proof.
  unfold translate_to_zh. destruct (py_or v (VStr "")); try (now right).
  cbn [py_strip mbind Result_bind]. left.
  destruct (String.eqb _ _); [eauto|].
  destruct (DEEPSEEK_API_KEY w) as [key|]; [|eauto].
  destruct (String.eqb key ""); [eauto|].
  destruct (translator w _) as [|[c|]]; cbn; eauto.
Qed.

Lemma recommend_rows_aborts (w : World) (personalized : DataFrame)
    (rs : list (gmap string pyval)) (acc : gset string) :
  (forall r, r ∈ rs ->
     exists z, row_get personalized r "_personal_score" (VInt 0) = VFloat z) ->
  (exists r, r ∈ rs /\ has_strip (row_get personalized r "title" (VStr "")) = false) ->
  recommend_rows w personalized rs acc = Raise AttributeError.
Proof.
  revert acc. induction rs as [|r rs IH]; intros acc Hscore (r0 & Hr0 & Hbad).
  - inversion Hr0.
  - cbn [recommend_rows].
    destruct (has_strip (row_get personalized r "title" (VStr ""))) eqn:Hhead.
    2: { now rewrite translate_to_zh_without_text. }
    destruct (translate_to_zh_outcome w (row_get personalized r "title" (VStr "")))
      as [[out ->]| ->]; [|reflexivity].
    cbn [mbind Result_bind].
    destruct (Hscore r) as [z ->]; [left|]. cbn [py_int mbind Result_bind].
    apply IH.
    + intros r' Hr'. apply Hscore. now right.
    + apply elem_of_cons in Hr0 as [->|Hr0]; [congruence|eauto].
Qed.

End TranslateFacts.

Section AbortFacts.

Context `{P : Pandas}.
Hypothesis contract : sort_contract P.

(** Past the gates, with a frame that is not empty. *)
Lemma personalized_recommendations_gates (w : World) (recent_df : DataFrame)
    (settings : Settings) (client : Client) (profile : string)
    (max_candidates top_n max_workers : Z) :
  cfg_enabled settings = true ->
  cfg_profile settings = Ok profile ->
  profile <> ""%string ->
  get_deepseek_client w = Some client ->
  cfg_max_candidates settings = Ok max_candidates ->
  cfg_top_n settings = Ok top_n ->
  cfg_max_workers settings = Ok max_workers ->
  df_empty recent_df = false ->
  personalized_recommendations w recent_df settings
  = (candidates ← select_candidates recent_df max_candidates;
     scores ← executor_map (score_item_with_deepseek client profile)
                (to_dict_records candidates) (Z.to_nat max_workers) (schedule w);
     ranked ← rank candidates scores top_n;
     Ok (Some ranked)).
Proof.
  unfold personalized_recommendations, cfg_enabled, cfg_profile, cfg_max_candidates,
    cfg_top_n, cfg_max_workers.
  destruct (get_personalization settings) as [p|]; [|discriminate].
  cbn [mbind Result_bind].
  intros -> -> Hne Hclient -> -> -> Hempty. cbn [negb mbind Result_bind].
  destruct (String.eqb_spec profile ""); [contradiction|].
  now rewrite Hclient, Hempty.
Qed.

(** X11.  A report row whose title is not text (the NaN of an empty
    cell) aborts the run after the ranking is done: [translate_to_zh],
    called outside any [try], raises [AttributeError] out of [main], and
    the store is left as it was, whatever was printed for the rows
    before. *)
Theorem report_row_without_title_aborts_run (w : World) (store : SeenStore)
    (df : CsvFrame) (recent report : DataFrame) (settings : Settings)
    (days_window : yaml_value) :
  news_of w = Some (Ok df) ->
  df_empty (filter_unseen_items df (load_seen_links store)) = false ->
  settings_file w = Ok settings ->
  get_days_window settings = Ok days_window ->
  get_recent_data (filter_unseen_items df (load_seen_links store)) days_window (now w)
  = Ok recent ->
  personalized_recommendations w recent settings = Ok (Some report) ->
  (exists r, r ∈ rows report /\ has_strip (row_get report r "title" (VStr "")) = false) ->
  main w store = (Raise AttributeError, store).
Proof.
  intros Hnews Hne Hset Hdays Hrecent Hrec (r & Hr & Hbad).
  destruct (personalized_recommendations_some _ _ _ _ Hrec)
    as (client & profile & mc & tn & mw & candidates & scores
        & _ & _ & _ & _ & _ & _ & _ & _ & _ & _ & Hrank).
  destruct (rank_ok contract _ _ _ _ Hrank) as (_ & Hscol & Hrows).
  assert (Hempty : df_empty report = false).
  { unfold df_empty. destruct (rows report); [inversion Hr|].
    destruct (columns report) eqn:E; [|reflexivity].
    unfold has_column in Hscol. rewrite E in Hscol.
    apply bool_decide_eq_true in Hscol. inversion Hscol. }
  apply news_of_Some in Hnews as (file & Hfile & Hread).
  unfold main. rewrite Hfile, Hread, Hne, Hset. cbn [mbind Result_bind].
  rewrite Hdays. cbn [mbind Result_bind].
  rewrite Hrecent. cbn [mbind Result_bind]. rewrite Hrec. cbn [mbind Result_bind].
  rewrite Hempty.
  rewrite recommend_rows_aborts; [reflexivity| |eauto].
  intros r' Hr'. destruct (Hrows r' Hr') as (i & c & z & _ & _ & ->).
  exists z. unfold row_get. rewrite Hscol. apply cell_insert_eq.
Qed.

Lemma mapM_raises {A B : Type} (fn : A -> Result B) (l : list A) (e0 : exn) :
  (forall a e, a ∈ l -> fn a = Raise e -> e = e0) ->
  (exists a, a ∈ l /\ fn a = Raise e0) ->
  mapM fn l = Raise e0.
Proof.
  induction l as [|a l IH]; intros Hall (a0 & Ha0 & Hraise); [inversion Ha0|].
  cbn [mapM]. destruct (fn a) as [b|e] eqn:Ha.
  - cbn [mbind Result_bind]. rewrite IH; [reflexivity| |].
    + intros a' e Ha' He. apply (Hall a' e); [now right|exact He].
    + apply elem_of_cons in Ha0 as [->|Ha0]; [congruence|eauto].
  - cbn [mbind Result_bind]. f_equal. apply (Hall a e); [left|exact Ha].
Qed.

Lemma scorer_raises_attribute_error (client : Client) (profile : string)
    (item : gmap string pyval) (e : exn) :
  score_item_with_deepseek client profile item = Raise e -> e = AttributeError.
Proof.
  intros H.
  assert (Hcase : (exists s, summary_of item = VStr s)
                  \/ (forall s, summary_of item <> VStr s)).
  { destruct (summary_of item); eauto; right; discriminate. }
  destruct Hcase as [[s Hs]|Hs].
  - destruct (scorer_on_text client profile item s Hs) as (p & _ & E). congruence.
  - rewrite scorer_on_other in H by exact Hs. congruence.
Qed.

(** X12.  Scoring failures are not isolated from the batch when they
    come from the item itself: if one candidate's summary is not text
    (the NaN of an empty cell), [personalized_recommendations] raises
    [AttributeError] for the whole batch, whatever the schedule, the
    number of workers and the scores of the other candidates. *)
Theorem one_summary_without_text_aborts_batch (w : World) (recent_df candidates : DataFrame)
    (settings : Settings) (client : Client) (profile : string)
    (max_candidates top_n max_workers : Z) :
  cfg_enabled settings = true ->
  cfg_profile settings = Ok profile ->
  profile <> ""%string ->
  get_deepseek_client w = Some client ->
  cfg_max_candidates settings = Ok max_candidates ->
  cfg_top_n settings = Ok top_n ->
  cfg_max_workers settings = Ok max_workers ->
  df_empty recent_df = false ->
  select_candidates recent_df max_candidates = Ok candidates ->
  0 < max_workers ->
  (exists item, item ∈ to_dict_records candidates /\
                forall s, summary_of item <> VStr s) ->
  personalized_recommendations w recent_df settings = Raise AttributeError.
Proof.
  intros Hen Hprof Hne' Hclient Hmc Htn Hmw Hne Hsel Hw (item & Hitem & Hbad).
  rewrite (personalized_recommendations_gates w recent_df settings client profile
             max_candidates top_n max_workers) by assumption.
  rewrite Hsel. cbn [mbind Result_bind].
  rewrite executor_map_mapM by lia.
  rewrite (mapM_raises _ _ AttributeError); [reflexivity| |].
  - intros a e _. apply scorer_raises_attribute_error.
  - exists item. split; [exact Hitem|]. now apply scorer_on_other.
Qed.

(** X13.  A worker bound that is not positive is only found out when
    the pool is built: with personalisation on, a profile, a key and a
    frame that is not empty, [personalized_recommendations] selects the
    candidates and then raises [ValueError], before any item is
    scored. *)
Theorem non_positive_max_workers_raises (w : World) (recent_df candidates : DataFrame)
    (settings : Settings) (client : Client) (profile : string)
    (max_candidates top_n max_workers : Z) :
  cfg_enabled settings = true ->
  cfg_profile settings = Ok profile ->
  profile <> ""%string ->
  get_deepseek_client w = Some client ->
  cfg_max_candidates settings = Ok max_candidates ->
  cfg_top_n settings = Ok top_n ->
  cfg_max_workers settings = Ok max_workers ->
  df_empty recent_df = false ->
  select_candidates recent_df max_candidates = Ok candidates ->
  max_workers <= 0 ->
  personalized_recommendations w recent_df settings = Raise ValueError.
Proof.
  intros Hen Hprof Hne' Hclient Hmc Htn Hmw Hne Hsel Hw.
  rewrite (personalized_recommendations_gates w recent_df settings client profile
             max_candidates top_n max_workers) by assumption.
  rewrite Hsel. cbn [mbind Result_bind].
  unfold executor_map. destruct (decide _) as [_|Hn]; [reflexivity|].
  destruct Hn. lia.
Qed.

(** X14.  A [top_n] that is not positive is not rejected: the ranking
    step returns an empty report for 0 and, for a negative value, all
    candidates but the last [-top_n] of the ranking. *)
Theorem non_positive_top_n (candidates : DataFrame) (scores : list Z) (top_n : Z) :
  length scores = length (rows candidates) ->
  top_n <= 0 ->
  exists report,
    rank candidates scores top_n = Ok report /\
    (top_n = 0 -> rows report = []) /\
    (top_n < 0 ->
     length (rows report) = (length (rows candidates) - Z.to_nat (- top_n))%nat).
Proof.
  intros Hlen Hn.
  destruct (rank_sorted contract candidates scores top_n Hlen)
    as (report & order & Hrank & Hperm & _ & Hrows).
  exists report. split; [exact Hrank|].
  assert (Hol : length order = length (rows candidates)).
  { rewrite Hperm. unfold scored_rows.
    apply zip_column_length. now rewrite length_map. }
  rewrite Hrows. unfold truncate. split.
  - intros ->. reflexivity.
  - intros Hneg. destruct (decide (0 <= top_n)); [lia|].
    rewrite length_take, Hol. lia.
Qed.

End AbortFacts.

(** ** The request of the scorer *)

Section RequestFacts.

Context `{P : Pandas}.

Lemma scorer_request_eq (client : Client) (profile : string)
    (item : gmap string pyval) (s : string) :
  summary_of item = VStr s ->
  score_item_with_deepseek client profile item
  = Ok (score_of_outcome (chat_completions_create client (request_of profile item s))).
Proof.
  intros Hs. unfold score_item_with_deepseek. fold (summary_of item). rewrite Hs.
  cbn [py_strip mbind Result_bind]. unfold request_of, field_of.
  destruct (String.eqb (strip s) ""); cbn [negb py_str];
    destruct (chat_completions_create client _) as [|[c|]];
    cbn [mbind Result_bind try_except score_of_outcome]; try reflexivity;
    rewrite findall_digits_strip; now destruct (findall_digits c).
Qed.

(** X16.  What the scorer makes of the answer to its request: 0 when
    the request raises or the answer has no content, 0 when the content
    has no digit, and otherwise the first run of digits of the content
    read as a number, 100 when that number is larger. *)
Theorem scorer_reads_first_number (client : Client) (profile : string)
    (item : gmap string pyval) (s : string) :
  summary_of item = VStr s ->
  let answer := chat_completions_create client (request_of profile item s) in
  (answer = ApiRaises \/ answer = ApiContent None ->
   score_item_with_deepseek client profile item = Ok 0) /\
  (forall content, answer = ApiContent (Some content) -> no_digits content = true ->
   score_item_with_deepseek client profile item = Ok 0) /\
  (forall pre run post,
     answer = ApiContent (Some (pre ++ run ++ post)%string) ->
     no_digits pre = true -> all_digits run = true -> run <> EmptyString ->
     starts_with_digit post = false ->
     score_item_with_deepseek client profile item = Ok (Z.min 100 (digits_value run))).
Proof.
  intros Hs answer. rewrite (scorer_request_eq client profile item s Hs). fold answer.
  split; [|split].
  - now intros [-> | ->].
  - intros content -> Hno. cbn [score_of_outcome].
    apply findall_digits_nil in Hno. now rewrite Hno.
  - intros pre run post -> Hpre Hrun Hne Hpost. cbn [score_of_outcome].
    rewrite findall_digits_skip, findall_digits_run by assumption.
    unfold clamp_score.
    pose proof (digits_value_from_nonneg run 0 ltac:(lia) Hrun) as Hnn.
    fold (digits_value run) in Hnn. f_equal. lia.
Qed.

End RequestFacts.

(** ** Choosing the news file *)

Lemma substring_all (b : string) : substring 0 (String.length b) b = b.
Proof. induction b as [|c b IH]; simpl; [reflexivity|now rewrite IH]. Qed.

Lemma substring_app_suffix (a b : string) :
  substring (String.length a) (String.length b) (a ++ b) = b.
Proof.
  induction a as [|c a IH]; simpl.
  - apply substring_all.
  - exact IH.
Qed.

Lemma string_length_app (a b : string) :
  String.length (a ++ b) = (String.length a + String.length b)%nat.
Proof. induction a as [|c a IH]; simpl; [reflexivity|now f_equal]. Qed.

Lemma is_suffix_app (a b : string) : is_suffix b (a ++ b) = true.
Proof.
  unfold is_suffix. rewrite string_length_app.
  replace (String.length a + String.length b - String.length b)%nat
    with (String.length a) by lia.
  rewrite substring_app_suffix, String.eqb_refl.
  rewrite andb_true_r. apply Nat.leb_le. lia.
Qed.

Lemma prefix_app (a b : string) : String.prefix a (a ++ b) = true.
Proof.
  induction a as [|c a IH]; simpl; [now destruct b|].
  destruct (ascii_dec c c); [exact IH|contradiction].
Qed.

Lemma today_name_matches (today_str : string) : glob_news (today_name today_str) = true.
Proof.
  unfold glob_news, today_name.
  rewrite prefix_app.
  replace ("news_" ++ today_str ++ ".csv")%string
    with (("news_" ++ today_str) ++ ".csv")%string by reflexivity.
  rewrite is_suffix_app, !andb_true_l.
  apply Nat.leb_le. rewrite !string_length_app. simpl. lia.
Qed.

Lemma latest_from_spec (best : RawFile) (files : list RawFile) :
  In (latest_from best files) (best :: files) /\
  forall g, In g (best :: files) -> mtime g <= mtime (latest_from best files).
Proof.
  revert best. induction files as [|f files IH]; intros best; cbn [latest_from].
  - split; [now left|]. intros g [Hg|[]]. subst g. lia.
  - destruct (IH (if mtime best <? mtime f then f else best)) as [Hin Hmax].
    split.
    + destruct Hin as [E|Hin]; [|right; now right].
      rewrite <- E. destruct (mtime best <? mtime f); [right; now left|now left].
    + intros g [Hg|[Hg|Hg]].
      * subst g. etransitivity; [|apply Hmax; now left].
        destruct (Z.ltb_spec (mtime best) (mtime f)); lia.
      * subst g. etransitivity; [|apply Hmax; now left].
        destruct (Z.ltb_spec (mtime best) (mtime f)); lia.
      * apply Hmax. now right.
Qed.

(** X17.  When the directory holds today's file, [load_today_news] reads
    a file of that name, whatever else is there and however recent. *)
Theorem load_today_news_prefers_today (raw_dir : list RawFile) (today_str : string)
    (f : RawFile) :
  In f raw_dir -> file_name f = today_name today_str ->
  exists today, load_today_news raw_dir today_str = Some today /\
                In today raw_dir /\ file_name today = today_name today_str.
Proof.
  intros Hin Hname. unfold load_today_news.
  destruct (List.find _ raw_dir) as [today|] eqn:Hfind.
  - apply find_some in Hfind as [Hin' Heq]. apply String.eqb_eq in Heq. eauto.
  - apply (find_none _ _ Hfind) in Hin. rewrite Hname, String.eqb_refl in Hin.
    discriminate.
Qed.

(** X18.  Without today's file, [load_today_news] reads a file whose name
    matches [news_*.csv] and than which no matching file was modified
    later; it raises [FileNotFoundError] exactly when no name in the
    directory matches the pattern. *)
Theorem load_today_news_falls_back (raw_dir : list RawFile) (today_str : string) :
  (forall f, In f raw_dir -> file_name f <> today_name today_str) ->
  match load_today_news raw_dir today_str with
  | Some f =>
      In f raw_dir /\ glob_news (file_name f) = true /\
      forall g, In g raw_dir -> glob_news (file_name g) = true -> mtime g <= mtime f
  | None => forall g, In g raw_dir -> glob_news (file_name g) = false
  end.
Proof.
  intros Hno. unfold load_today_news.
  destruct (List.find _ raw_dir) as [today|] eqn:Hfind.
  { apply find_some in Hfind as [Hin Heq]. apply String.eqb_eq in Heq.
    now destruct (Hno today Hin). }
  destruct (List.filter _ raw_dir) as [|f files] eqn:Hfilter.
  - intros g Hg. destruct (glob_news (file_name g)) eqn:E; [|reflexivity].
    assert (Hin : In g (List.filter (fun f => glob_news (file_name f)) raw_dir))
      by (apply filter_In; now split).
    rewrite Hfilter in Hin. inversion Hin.
  - destruct (latest_from_spec f files) as [Hin Hmax].
    rewrite <- Hfilter in Hin, Hmax.
    apply filter_In in Hin as [Hin Hglob].
    split; [exact Hin|]. split; [exact Hglob|].
    intros g Hg Hgg. apply Hmax. apply filter_In. now split.
Qed.

(** X19.  [load_today_news] raises [FileNotFoundError] exactly when no
    name in the directory matches [news_*.csv]; today's file name
    matches it, so no directory with a news file is turned down. *)
Theorem load_today_news_not_found (raw_dir : list RawFile) (today_str : string) :
  load_today_news raw_dir today_str = None <->
  forall g, In g raw_dir -> glob_news (file_name g) = false.
Proof.
  split.
  - intros H g Hg. unfold load_today_news in H.
    destruct (List.find _ raw_dir); [discriminate|].
    destruct (List.filter _ raw_dir) as [|f files] eqn:Hfilter; [|discriminate].
    destruct (glob_news (file_name g)) eqn:E; [|reflexivity].
    assert (Hin : In g (List.filter (fun f => glob_news (file_name f)) raw_dir))
      by (apply filter_In; now split).
    rewrite Hfilter in Hin. inversion Hin.
  - intros H. unfold load_today_news.
    destruct (List.find _ raw_dir) as [today|] eqn:Hfind.
    + apply find_some in Hfind as [Hin Heq]. apply String.eqb_eq in Heq.
      specialize (H today Hin). rewrite Heq, today_name_matches in H. discriminate.
    + destruct (List.filter _ raw_dir) as [|f files] eqn:Hfilter; [reflexivity|].
      assert (Hin : In f (List.filter (fun f => glob_news (file_name f)) raw_dir))
        by (rewrite Hfilter; now left).
      apply filter_In in Hin as [Hin Hg]. rewrite (H f Hin) in Hg. discriminate.
Qed.

(** ** The fetcher *)

Lemma mapM_total {A B : Type} (f : A -> Result B) (g : A -> B) (l : list A) :
  (forall a, a ∈ l -> f a = Ok (g a)) -> mapM f l = Ok (g <$> l).
Proof.
  induction l as [|a l IH]; intros H; [reflexivity|].
  cbn [mapM fmap list_fmap]. rewrite (H a) by left. cbn [mbind Result_bind].
  rewrite IH by (intros a' Ha'; apply H; now right). reflexivity.
Qed.

Section FetchFacts.
Variable parse : pyval -> Result (list Entry).

Lemma fetch_feed_closed (clock : nat -> string) (feed : Feed)
    (url id name : pyval) (entries : list Entry) :
  feed_url feed = Some url -> feed_id feed = Some id -> feed_name feed = Some name ->
  parse url = Ok entries ->
  fetch_feed parse clock feed =
  Ok (imap (fun k e => feed_row id name (feed_tags feed) (clock k) e) entries).
Proof.
  intros Hurl Hid Hname Hparse. unfold fetch_feed.
  rewrite Hurl. cbn [feed_item mbind Result_bind]. rewrite Hparse.
  cbn [mbind Result_bind].
  rewrite (mapM_total _ (fun ke => feed_row id name (feed_tags feed) (clock ke.1) ke.2)).
  - f_equal. rewrite fmap_imap. apply imap_ext. intros k e _. reflexivity.
  - intros [k e] _. unfold entry_row. rewrite Hid, Hname. reflexivity.
Qed.

(** X20.  For a feed that has its [url], [id] and [name], [fetch_feed]
    returns one row per entry of the parsed feed, in the order of the
    entries.  Every row has exactly the eight columns of the news
    file; an attribute the entry does not have is the empty string in
    its row, and the feed's tags are joined with commas. *)
Theorem fetch_feed_rows (clock : nat -> string) (feed : Feed)
    (url id name : pyval) (entries : list Entry) :
  feed_url feed = Some url -> feed_id feed = Some id -> feed_name feed = Some name ->
  parse url = Ok entries ->
  exists rows,
    fetch_feed parse clock feed = Ok rows /\
    length rows = length entries /\
    forall k e, entries !! k = Some e ->
      exists r, rows !! k = Some r /\
        dom r = list_to_set news_columns /\
        r !! "feed_id" = Some id /\ r !! "feed_name" = Some name /\
        r !! "tags" = Some (VStr (String.concat "," (default [] (feed_tags feed)))) /\
        r !! "fetched_at" = Some (VStr (clock k)) /\
        forall attribute, attribute ∈ ["title"; "link"; "summary"; "published"] ->
          r !! attribute = Some (default (VStr "") (e !! attribute)).
Proof.
  intros Hurl Hid Hname Hparse.
  eexists. split; [exact (fetch_feed_closed clock feed url id name entries Hurl Hid Hname Hparse)|].
  split; [apply length_imap|].
  intros k e Hk. eexists. split; [rewrite list_lookup_imap, Hk; reflexivity|].
  split; [unfold feed_row; rewrite dom_list_to_map_L; reflexivity|].
  repeat (split; [reflexivity|]).
  intros attribute Ha.
  repeat (apply elem_of_cons in Ha as [->|Ha]; [reflexivity|]).
  inversion Ha.
Qed.

(** X21.  A feed without [id] or [name] is only found out when there is
    an entry to build a row for: on a feed that parses to no entry
    [fetch_feed] returns the empty list, on any other it raises
    [KeyError], for [id] when that is missing and for [name]
    otherwise. *)
Theorem fetch_feed_missing_key (clock : nat -> string) (feed : Feed)
    (url : pyval) (entries : list Entry) :
  feed_url feed = Some url -> parse url = Ok entries ->
  feed_id feed = None \/ feed_name feed = None ->
  fetch_feed parse clock feed =
  match entries with
  | [] => Ok []
  | _ :: _ => Raise (KeyError (match feed_id feed with Some _ => "name" | None => "id" end))
  end.
Proof.
  intros Hurl Hparse Hmiss. unfold fetch_feed.
  rewrite Hurl. cbn [feed_item mbind Result_bind]. rewrite Hparse.
  cbn [mbind Result_bind].
  destruct entries as [|e entries]; [reflexivity|].
  cbn [imap mapM].
  assert (Hrow : entry_row feed (clock 0%nat) e =
                 Raise (KeyError (match feed_id feed with Some _ => "name" | None => "id" end))).
  { unfold entry_row. destruct (feed_id feed) as [id|]; [|reflexivity].
    destruct Hmiss as [Hmiss|Hmiss]; [discriminate|]. now rewrite Hmiss. }
  cbn [fst snd]. rewrite Hrow. reflexivity.
Qed.

Lemma fetch_turn_named (clock : nat -> string) (feed : Feed)
    (all_rows : list (gmap string pyval)) :
  is_Some (feed_name feed) ->
  fetch_turn parse clock feed all_rows = Ok (all_rows ++ rows_of_feed parse clock feed).
Proof.
  intros [name Hname]. unfold fetch_turn, rows_of_feed.
  rewrite Hname. cbn [feed_item].
  destruct (fetch_feed parse clock feed) as [rows|e]; cbn.
  - reflexivity.
  - now rewrite app_nil_r.
Qed.

Lemma fetch_turn_nameless (clock : nat -> string) (feed : Feed)
    (all_rows : list (gmap string pyval)) :
  feed_name feed = None ->
  fetch_turn parse clock feed all_rows = Raise (KeyError "name").
Proof.
  intros Hname. unfold fetch_turn. rewrite Hname. cbn [feed_item].
  destruct (fetch_feed parse clock feed) as [rows|e]; reflexivity.
Qed.

Lemma fetch_loop_named (clock : nat -> nat -> string) (i : nat) (feeds : list Feed)
    (all_rows : list (gmap string pyval)) :
  (forall feed, feed ∈ feeds -> is_Some (feed_name feed)) ->
  fetch_loop parse clock i feeds all_rows =
  Ok (all_rows ++
      concat (imap (fun j feed => rows_of_feed parse (clock (i + j)%nat) feed) feeds)).
Proof.
  revert i all_rows. induction feeds as [|feed feeds IH]; intros i all_rows H.
  - cbn. now rewrite app_nil_r.
  - cbn [fetch_loop]. rewrite fetch_turn_named by (apply H; left).
    cbn [mbind Result_bind]. rewrite IH by (intros f Hf; apply H; now right).
    cbn [imap concat]. rewrite <- app_assoc, Nat.add_0_r. do 4 f_equal.
    apply imap_ext. intros j f _. cbn. do 2 f_equal. lia.
Qed.

Lemma fetch_loop_nameless (clock : nat -> nat -> string) (i : nat) (feeds : list Feed)
    (all_rows : list (gmap string pyval)) (feed : Feed) :
  feed ∈ feeds -> feed_name feed = None ->
  fetch_loop parse clock i feeds all_rows = Raise (KeyError "name").
Proof.
  revert i all_rows. induction feeds as [|f feeds IH]; intros i all_rows Hin Hname.
  - inversion Hin.
  - cbn [fetch_loop]. destruct (feed_name f) as [name|] eqn:Hf.
    + rewrite fetch_turn_named by (rewrite Hf; eauto). cbn [mbind Result_bind].
      apply IH; [|exact Hname].
      apply elem_of_cons in Hin as [->|Hin]; [congruence|exact Hin].
    + now rewrite fetch_turn_nameless.
Qed.

(** X22.  When every configured feed has a name, a feed whose fetch
    raises costs only its own rows: [main] does not raise, and what it
    saves, under today's file name, is the rows of the feeds that
    could be fetched, feed after feed in the order of the
    configuration.  The file is written exactly when there is at
    least one such row. *)
Theorem fetch_main_isolates_failures (feeds : list Feed) (clock : nat -> nat -> string)
    (today : string) :
  (forall feed, feed ∈ feeds -> is_Some (feed_name feed)) ->
  fetch_main parse (Ok feeds) clock today =
  Ok (match concat (imap (fun i feed => rows_of_feed parse (clock i) feed) feeds) with
      | [] => None
      | all_rows => Some (today_name today, {| columns := news_columns; rows := all_rows |})
      end).
Proof.
  intros H. unfold fetch_main. cbn [mbind Result_bind].
  rewrite fetch_loop_named by exact H. cbn [mbind Result_bind app Nat.add].
  now destruct (concat _).
Qed.

(** X23.  One configured feed without a name makes [main] raise
    [KeyError]: the message printed for that feed, after its fetch or
    in the handler, needs the name.  Nothing is saved then, not even
    the rows fetched from the feeds before it. *)
Theorem fetch_main_nameless_feed_aborts (feeds : list Feed) (clock : nat -> nat -> string)
    (today : string) (feed : Feed) :
  feed ∈ feeds -> feed_name feed = None ->
  fetch_main parse (Ok feeds) clock today = Raise (KeyError "name").
Proof.
  intros Hin Hname. unfold fetch_main. cbn [mbind Result_bind].
  now rewrite (fetch_loop_nameless clock 0 feeds [] feed Hin Hname).
Qed.
End FetchFacts.

(** ** Mail *)

Lemma from_environ_fold (environ : gmap string string) (keys : list string)
    (cfg : gmap string string) (k : string) :
  fold_left
    (fun cfg key =>
       match env_value environ key with
       | Some val => <[key := val]> cfg
       | None => cfg
       end) keys cfg !! k =
  if bool_decide (k ∈ keys)
  then match env_value environ k with Some v => Some v | None => cfg !! k end
  else cfg !! k.
Proof.
  revert cfg. induction keys as [|key keys IH]; intros cfg; [reflexivity|].
  cbn [fold_left]. rewrite IH.
  destruct (decide (k = key)) as [->|Hne].
  - rewrite (bool_decide_eq_true_2 (key ∈ key :: keys)) by left.
    destruct (env_value environ key) as [v|] eqn:E.
    + rewrite lookup_insert_eq. now destruct (bool_decide (key ∈ keys)).
    + now destruct (bool_decide (key ∈ keys)).
  - assert (Hk : bool_decide (k ∈ key :: keys) = bool_decide (k ∈ keys)).
    { apply bool_decide_ext. rewrite elem_of_cons. tauto. }
    rewrite Hk.
    assert (Hcfg : match env_value environ key with
                   | Some val => <[key:=val]> cfg
                   | None => cfg
                   end !! k = cfg !! k).
    { destruct (env_value environ key); [now rewrite lookup_insert_ne|reflexivity]. }
    now rewrite Hcfg.
Qed.

Lemma from_environ_lookup (environ : gmap string string) (k : string) :
  from_environ environ !! k =
  if bool_decide (k ∈ env_keys) then env_value environ k else None.
Proof.
  unfold from_environ. rewrite from_environ_fold, lookup_empty.
  destruct (bool_decide (k ∈ env_keys)); [|reflexivity].
  now destruct (env_value environ k).
Qed.

Lemma has_required_spec (cfg : gmap string string) :
  has_required cfg = true <-> forall k, k ∈ required_keys -> is_Some (cfg !! k).
Proof.
  unfold has_required. rewrite forallb_forall. split.
  - intros H k Hk. apply list_elem_of_In in Hk. apply H in Hk.
    now apply bool_decide_eq_true in Hk.
  - intros H k Hk. apply bool_decide_eq_true, H. now apply list_elem_of_In.
Qed.

Lemma required_in_env_keys (k : string) : k ∈ required_keys -> k ∈ env_keys.
Proof.
  intros Hk. unfold required_keys, env_keys in *.
  repeat (apply elem_of_cons in Hk as [->|Hk]; [repeat constructor|]).
  inversion Hk.
Qed.

Lemma setdefault_lookup (k v : string) (cfg : gmap string string) (k' : string) :
  setdefault k v cfg !! k' =
  match cfg !! k' with
  | Some x => Some x
  | None => if String.eqb k' k then Some v else None
  end.
Proof.
  unfold setdefault. destruct (String.eqb_spec k' k) as [->|Hne].
  - destruct (cfg !! k) eqn:E; [now rewrite E|now rewrite lookup_insert_eq].
  - destruct (cfg !! k) eqn:E; [now destruct (cfg !! k')|].
    rewrite lookup_insert_ne by congruence. now destruct (cfg !! k').
Qed.

Lemma from_yaml_lookup (y : gmap string yaml_value) (cfg : gmap string string) (k : string) :
  from_yaml y cfg !! k =
  match cfg !! k with
  | Some v => Some v
  | None => yaml_entry y k
  end.
Proof.
  unfold from_yaml, yaml_entry.
  apply (map_fold_weak_ind
           (fun (r : gmap string string) (m : gmap string yaml_value) =>
              r !! k = match cfg !! k with
                       | Some v => Some v
                       | None => match m !! k with
                                 | Some YNull | None => None
                                 | Some v => Some (yaml_str v)
                                 end
                       end)).
  - rewrite lookup_empty. now destruct (cfg !! k).
  - intros i x m r Hi IH.
    destruct (decide (k = i)) as [->|Hne].
    + rewrite lookup_insert_eq. rewrite Hi in IH.
      destruct (cfg !! i) as [c|] eqn:Hc.
      * destruct x; rewrite ?IH; try reflexivity; now rewrite IH.
      * destruct x; rewrite ?IH; try reflexivity; now rewrite lookup_insert_eq.
    + rewrite (lookup_insert_ne m) by congruence.
      destruct x; try exact IH;
        (destruct (r !! i); [exact IH|now rewrite lookup_insert_ne by congruence]).
Qed.

Lemma has_required_environ (environ : gmap string string) :
  has_required (from_environ environ) = true <->
  forall k, k ∈ required_keys -> given_by_environ environ k.
Proof.
  rewrite has_required_spec. unfold given_by_environ.
  split; intros H k Hk; specialize (H k Hk);
    rewrite from_environ_lookup,
      (bool_decide_eq_true_2 _ (required_in_env_keys k Hk)) in *; exact H.
Qed.

(** What reading the file adds to the configuration. *)
Lemma read_yaml_lookup (doc : yaml_document) (cfg0 cfg : gmap string string) (k : string) :
  read_yaml doc cfg0 = inr cfg ->
  yaml_loads doc = true /\
  cfg !! k = match cfg0 !! k with
             | Some v => Some v
             | None => yaml_entries doc k
             end.
Proof.
  unfold read_yaml, yaml_loads, yaml_entries. destruct doc as [|y|v]; [discriminate| |].
  - intros [= <-]. split; [reflexivity|]. apply from_yaml_lookup.
  - destruct (yaml_truthy v); [discriminate|]. intros [= <-].
    split; [reflexivity|]. now destruct (cfg0 !! k).
Qed.


Lemma load_email_config_lookup (environ : gmap string string)
    (yaml_file : option yaml_document) (cfg : gmap string string) (k : string) :
  load_email_config environ yaml_file = inr cfg ->
  cfg !! k = with_defaults k (merged environ yaml_file k).
Proof.
  unfold load_email_config, merged, with_defaults. intros H.
  destruct (has_required (from_environ environ)) eqn:Henv.
  - rewrite Henv in H. injection H as <-.
    rewrite !setdefault_lookup, from_environ_lookup.
    destruct (if bool_decide (k ∈ env_keys) then env_value environ k else None);
      [reflexivity|].
    destruct (String.eqb_spec k "EMAIL_SMTP_SERVER") as [->|]; reflexivity.
  - destruct yaml_file as [doc|]; [|discriminate].
    destruct (read_yaml doc (from_environ environ)) as [e|cfg1] eqn:Hread; [discriminate|].
    destruct (has_required cfg1); [|discriminate].
    injection H as <-.
    destruct (read_yaml_lookup doc _ cfg1 k Hread) as [_ Hk].
    rewrite !setdefault_lookup, Hk, from_environ_lookup.
    destruct (if bool_decide (k ∈ env_keys) then env_value environ k else None);
      [reflexivity|].
    destruct (yaml_entries doc k); [reflexivity|].
    destruct (String.eqb_spec k "EMAIL_SMTP_SERVER") as [->|]; reflexivity.
Qed.



Lemma load_email_config_inr (environ : gmap string string)
    (yaml_file : option yaml_document) (cfg : gmap string string) :
  load_email_config environ yaml_file = inr cfg ->
  exists cfg0, has_required cfg0 = true /\
    cfg = setdefault "EMAIL_SMTP_PORT" "587"
            (setdefault "EMAIL_SMTP_SERVER" "smtp.gmail.com" cfg0).
Proof.
  unfold load_email_config. intros H.
  destruct (has_required (from_environ environ)) eqn:Henv.
  - rewrite Henv in H. injection H as <-. eauto.
  - destruct yaml_file as [doc|]; [|discriminate].
    destruct (read_yaml doc (from_environ environ)) as [e|cfg1]; [discriminate|].
    destruct (has_required cfg1) eqn:Hy; [|discriminate].
    injection H as <-. eauto.
Qed.

Lemma load_email_config_has_keys (environ : gmap string string)
    (yaml_file : option yaml_document) (cfg : gmap string string) :
  load_email_config environ yaml_file = inr cfg ->
  forall k, k ∈ env_keys -> is_Some (cfg !! k).
Proof.
  intros H.
  destruct (load_email_config_inr environ yaml_file cfg H) as (cfg0 & Hreq & ->).
  intros k Hk. rewrite !setdefault_lookup.
  assert (Hcases : k ∈ required_keys \/ k = "EMAIL_SMTP_SERVER"%string
                   \/ k = "EMAIL_SMTP_PORT"%string).
  { unfold env_keys, required_keys in *.
    repeat (apply elem_of_cons in Hk as [->|Hk];
            [first [left; repeat constructor; fail | right; now left | right; now right]|]).
    inversion Hk. }
  destruct Hcases as [Hr|[->| ->]].
  - destruct (proj1 (has_required_spec cfg0) Hreq k Hr) as [v ->]. eauto.
  - destruct (cfg0 !! "EMAIL_SMTP_SERVER"%string); cbn; eauto.
  - destruct (cfg0 !! "EMAIL_SMTP_PORT"%string); cbn; eauto.
Qed.

(** X25.  A configuration [load_email_config] returns has all five
    keys, and a key set to non-empty text in the environment has the
    environment's value, whatever [config/email.yaml] says. *)
Theorem environment_takes_precedence (environ : gmap string string)
    (yaml_file : option yaml_document) (cfg : gmap string string) :
  load_email_config environ yaml_file = inr cfg ->
  (forall k, k ∈ env_keys -> is_Some (cfg !! k)) /\
  (forall k v, k ∈ env_keys -> env_value environ k = Some v -> cfg !! k = Some v).
Proof.
  intros H. split.
  - exact (load_email_config_has_keys environ yaml_file cfg H).
  - intros k v Hk Hv. rewrite (load_email_config_lookup environ yaml_file cfg k H).
    unfold merged. now rewrite (bool_decide_eq_true_2 _ Hk), Hv.
Qed.

(** X26.  When the environment gives the three required keys,
    [config/email.yaml] is not read at all: the SMTP server and port
    are the environment's, or the Gmail defaults, even if the file
    names others. *)
Theorem complete_environment_ignores_yaml (environ : gmap string string)
    (yaml_file : option yaml_document) :
  (forall k, k ∈ required_keys -> given_by_environ environ k) ->
  load_email_config environ yaml_file = load_email_config environ None /\
  exists cfg, load_email_config environ yaml_file = inr cfg /\
    cfg !! "EMAIL_SMTP_SERVER" =
      Some (default "smtp.gmail.com"%string (env_value environ "EMAIL_SMTP_SERVER")) /\
    cfg !! "EMAIL_SMTP_PORT" =
      Some (default "587"%string (env_value environ "EMAIL_SMTP_PORT")).
Proof.
  intros H. apply has_required_environ in H.
  assert (Heq : load_email_config environ yaml_file = load_email_config environ None).
  { unfold load_email_config. now rewrite H. }
  split; [exact Heq|].
  destruct (load_email_config environ yaml_file) as [e|cfg] eqn:Hload.
  { exfalso. unfold load_email_config in Hload. rewrite H in Hload.
    rewrite H in Hload. discriminate. }
  exists cfg. split; [reflexivity|].
  rewrite !(load_email_config_lookup environ yaml_file cfg _ Hload).
  unfold merged. rewrite H.
  rewrite !bool_decide_eq_true_2 by (unfold env_keys; repeat constructor).
  split.
  - now destruct (env_value environ "EMAIL_SMTP_SERVER").
  - now destruct (env_value environ "EMAIL_SMTP_PORT").
Qed.

(** X27.  When the environment lacks a required key and the file gives
    it, the configuration takes from [config/email.yaml] every key the
    environment does not give and the file gives a value that is not
    null, as [str] of that value. *)
Theorem yaml_fills_the_gaps (environ : gmap string string)
    (y : gmap string yaml_value) (cfg : gmap string string) :
  ~ (forall k, k ∈ required_keys -> given_by_environ environ k) ->
  load_email_config environ (Some (YamlDict y)) = inr cfg ->
  forall k v, env_value environ k = None -> y !! k = Some v -> v <> YNull ->
    cfg !! k = Some (yaml_str v).
Proof.
  intros Hmiss H k v Hk Hy Hv.
  rewrite (load_email_config_lookup environ (Some (YamlDict y)) cfg k H).
  unfold merged. rewrite Hk.
  destruct (has_required (from_environ environ)) eqn:Henv.
  { destruct Hmiss. now apply has_required_environ. }
  unfold yaml_entries, yaml_entry. rewrite Hy.
  destruct (bool_decide (k ∈ env_keys)); now destruct v.
Qed.

Lemma remove_whitespace_clean (s : string) (c : ascii) :
  In c (list_ascii_of_string (remove_whitespace s)) -> py_isspace c = false.
Proof.
  induction s as [|a s IH]; cbn [remove_whitespace]; [intros []|].
  destruct (py_isspace a) eqn:Ha; [exact IH|].
  cbn [list_ascii_of_string]. intros [<-|Hc]; [exact Ha|now apply IH].
Qed.

(** X28.  Whenever [send_email] gets as far as the SMTP server, it logs
    in as [EMAIL_FROM] with [EMAIL_PASSWORD] stripped of all its
    whitespace, both being ASCII, on the port [int] reads from
    [EMAIL_SMTP_PORT], and sends from [EMAIL_FROM] to the one address
    [EMAIL_TO]. *)
Theorem send_email_session (environ : gmap string string)
    (yaml_file : option yaml_document) (subject body : string) (s : SmtpSession) :
  send_email environ yaml_file subject body = inr s ->
  exists cfg raw_pwd email_to port_text,
    load_email_config environ yaml_file = inr cfg /\
    cfg !! "EMAIL_FROM" = Some (login_user s) /\
    cfg !! "EMAIL_PASSWORD" = Some raw_pwd /\
    cfg !! "EMAIL_TO" = Some email_to /\
    cfg !! "EMAIL_SMTP_SERVER" = Some (smtp_server s) /\
    cfg !! "EMAIL_SMTP_PORT" = Some port_text /\
    int_of_text port_text = Some (smtp_port s) /\
    login_password s = remove_whitespace raw_pwd /\
    (forall c, In c (list_ascii_of_string (login_password s)) -> py_isspace c = false) /\
    is_ascii (login_user s) = true /\ is_ascii (login_password s) = true /\
    mail_from s = login_user s /\ mail_to s = [email_to] /\
    mail_subject s = subject /\ mail_body s = body.
Proof.
  unfold send_email, cfg_item. intros H.
  destruct (load_email_config environ yaml_file) as [e|cfg]; [discriminate|].
  destruct (cfg !! "EMAIL_FROM"%string) as [email_from|] eqn:Hf; [|discriminate].
  destruct (cfg !! "EMAIL_TO"%string) as [email_to|] eqn:Ht; [|discriminate].
  destruct (cfg !! "EMAIL_SMTP_SERVER"%string) as [server|] eqn:Hs; [|discriminate].
  destruct (cfg !! "EMAIL_SMTP_PORT"%string) as [port_text|] eqn:Hp; [|discriminate].
  destruct (int_of_text port_text) as [port|] eqn:Hport; [|discriminate].
  destruct (cfg !! "EMAIL_PASSWORD"%string) as [raw_pwd|] eqn:Hw; [|discriminate].
  destruct (is_ascii email_from && is_ascii (remove_whitespace raw_pwd)) eqn:Hascii;
    [|discriminate].
  apply andb_true_iff in Hascii as [Hfrom Hpwd].
  inversion H; subst s; clear H. cbn.
  exists cfg, raw_pwd, email_to, port_text.
  repeat (split; [first [reflexivity | assumption]|]).
  split; [apply remove_whitespace_clean|].
  repeat (split; [first [reflexivity | assumption]|]). reflexivity.
Qed.


(** ** The properties on the sample data *)

Lemma ranking_descending_witness :
  length [50; 70; 50] = length (rows batch_ABC) /\
  exists report rest,
    @rank stable_pandas batch_ABC [50; 70; 50] 2 = Ok report /\
    Permutation (rows report ++ rest) (scored_rows batch_ABC [50; 70; 50]) /\
    StronglySorted score_order (rows report ++ rest) /\
    (0 <= 2 -> rows report = take (Z.to_nat 2) (rows report ++ rest)).
Proof.
  split; [reflexivity|].
  apply (ranking_descending stable_pandas_contract batch_ABC [50; 70; 50] 2).
  reflexivity.
Defined.

Lemma bounded_output_witness :
  0 < 1 /\
  exists report,
    @rank stable_pandas batch_ABC [0; 80; 40] 1 = Ok report /\
    length (rows report) = 1%nat.
Proof.
  split; [lia|].
  destruct (bounded_output stable_pandas_contract 1 ltac:(lia)) as [H _].
  destruct (H batch_ABC [0; 80; 40] eq_refl) as (report & Hrank & Hlen & _).
  exists report. split; [exact Hrank|exact Hlen].
Defined.


Lemma filter_without_link_column_witness :
  has_column batch_no_link "link" = false /\
  @filter_unseen_items stable_pandas batch_no_link {[ "https://a"%string ]} = batch_no_link.
Proof.
  split; [reflexivity|].
  apply (@filter_without_link_column stable_pandas). reflexivity.
Defined.

Lemma gates_of_personalized_recommendations_witness :
  get_personalization sample_settings = Ok sample_personalization /\
  get_personalization bare_settings = Ok no_personalization /\
  DEEPSEEK_API_KEY empty_world = None /\
  cfg_profile sample_settings = Ok "likes robots"%string /\
  cfg_enabled bare_settings = false /\
  get_deepseek_client empty_world = None /\
  @personalized_recommendations stable_pandas empty_world batch_ABC sample_settings = Ok None /\
  @personalized_recommendations stable_pandas sample_world batch_ABC bare_settings = Ok None /\
  (exists p, get_personalization blank_profile_settings = Ok p /\
             user_profile p = Some YNull) /\
  cfg_enabled blank_profile_settings = true /\
  @personalized_recommendations stable_pandas empty_world batch_ABC blank_profile_settings
  = Raise AttributeError /\
  @personalized_recommendations stable_pandas sample_world empty_batch blank_profile_settings
  = Raise AttributeError.
Proof.
  split; [reflexivity|]. split; [reflexivity|]. split; [reflexivity|].
  split; [reflexivity|]. split; [reflexivity|].
  destruct (@gates_of_personalized_recommendations stable_pandas empty_world batch_ABC
              sample_settings sample_personalization eq_refl) as (_ & Hprofile & _).
  destruct (@gates_of_personalized_recommendations stable_pandas sample_world batch_ABC
              bare_settings no_personalization eq_refl) as (Hoff & _ & _).
  destruct (Hprofile "likes robots"%string eq_refl) as (_ & Hkey).
  destruct (Hkey ltac:(now left)) as [Hclient Hnone].
  split; [exact Hclient|]. split; [exact Hnone|].
  split; [exact (Hoff eq_refl)|].
  split; [eexists; split; reflexivity|]. split; [reflexivity|].
  split.
  - eapply (proj2 (proj2 (@gates_of_personalized_recommendations stable_pandas empty_world
                            batch_ABC blank_profile_settings _ eq_refl)) YNull);
      [reflexivity|reflexivity|discriminate].
  - eapply (proj2 (proj2 (@gates_of_personalized_recommendations stable_pandas sample_world
                            empty_batch blank_profile_settings _ eq_refl)) YNull);
      [reflexivity|reflexivity|discriminate].
Defined.

(** C9 as stated fails on these inputs: on a batch of no row whose file
    names no date column the recency window raises, and on an empty
    batch the recommendation step raises when a number of its settings
    is not one.  Nothing of the sort backend or of the date parser is
    used on the way. *)
Lemma empty_batch_stages_can_raise :
  df_empty batch_header_only = true /\
  @get_recent_data stable_pandas batch_header_only (YInt 1) 1000
  = Raise (KeyError "published") /\
  df_empty empty_batch = true /\
  @personalized_recommendations stable_pandas sample_world empty_batch bad_top_n_settings
  = Raise ValueError.
Proof. repeat split; reflexivity. Qed.

Lemma empty_input_witness :
  news_of empty_world = Some (Ok csv_empty) /\
  df_empty csv_empty = true /\
  well_formed sample_settings /\
  cutoff_of 1000 (YInt 1) = Ok (1000 - nanoseconds_per_day) /\
  @main stable_pandas empty_world None = (Ok NoNewItems, None) /\
  (exists df', @get_recent_data stable_pandas empty_batch (YInt 1) 1000 = Ok df' /\
               rows df' = []) /\
  @personalized_recommendations stable_pandas sample_world empty_batch sample_settings
  = Ok None.
Proof.
  assert (Hwf : well_formed sample_settings).
  { exists "likes robots"%string, 80, 1, 2. repeat split; reflexivity. }
  split; [reflexivity|]. split; [reflexivity|]. split; [exact Hwf|].
  split; [reflexivity|].
  destruct (@empty_input_is_not_an_error stable_pandas) as (_ & Hwin & Hrec & Hmain & _ & _).
  split; [apply (Hmain empty_world None csv_empty); reflexivity|].
  split.
  - apply (Hwin empty_batch (YInt 1) 1000 (1000 - nanoseconds_per_day)); reflexivity.
  - apply (Hrec sample_world empty_batch sample_settings Hwf). reflexivity.
Defined.

(** The run on a batch whose one item has no link, with the store a
    first such run left: the item is reported. *)
Lemma linkless_second_run :
  exists report,
    @main stable_pandas linkless_world (Some ["nan"%string])
    = (Ok (Reported report), Some ["nan"%string]) /\
    map (fun r => (cell r "title", cell r "link")) (rows report) = [(VStr "Epsilon", VNaN)].
Proof.
  assert (Hok : match @main stable_pandas linkless_world (Some ["nan"%string]) with
                | (Ok (Reported report), store') =>
                    bool_decide (store' = Some ["nan"%string])
                    && bool_decide (map (fun r => (cell r "title", cell r "link"))
                                        (rows report)
                                    = [(VStr "Epsilon", VNaN)])
                | _ => false
                end = true) by (vm_compute; reflexivity).
  destruct (@main stable_pandas linkless_world (Some ["nan"%string]))
    as [[[ | | |report]|e] store']; try discriminate Hok.
  apply andb_true_iff in Hok as [Hstore Hrows].
  apply bool_decide_eq_true in Hstore, Hrows. subst store'.
  exists report. split; [reflexivity|exact Hrows].
Qed.

(** The first run on that batch, and what it means for the second. *)
Lemma linkless_item_is_reported_again_witness :
  exists report r,
    @main stable_pandas linkless_world None = (Ok (Reported report), Some ["nan"%string]) /\
    rows report = [r] /\
    has_column report "link" = true /\
    cell r "link" = VNaN /\
    cell r "title" = VStr "Epsilon" /\
    @link_id stable_pandas report r = "nan"%string /\
    "nan"%string ∈ @report_links stable_pandas report /\
    @load_seen_links stable_pandas (Some ["nan"%string]) = ∅ /\
    row_E ∈ rows (@filter_unseen_items stable_pandas batch_E
                    (@load_seen_links stable_pandas (Some ["nan"%string]))).
Proof.
  assert (Hok : match @main stable_pandas linkless_world None with
                | (Ok (Reported report), store') =>
                    match rows report with
                    | [r] => has_column report "link"
                             && bool_decide (cell r "link" = VNaN)
                             && bool_decide (cell r "title" = VStr "Epsilon")
                             && bool_decide (store' = Some ["nan"%string])
                    | _ => false
                    end
                | _ => false
                end = true) by (vm_compute; reflexivity).
  destruct (@main stable_pandas linkless_world None) as [[[ | | |report]|e] store'] eqn:Hmain;
    try discriminate Hok.
  destruct (rows report) as [|r [|r' rest]] eqn:Hrows; try discriminate Hok.
  apply andb_true_iff in Hok as [Hok Hstore'].
  apply andb_true_iff in Hok as [Hok Htitle].
  apply andb_true_iff in Hok as [Hcol Hcell].
  apply bool_decide_eq_true in Hcell, Htitle, Hstore'.
  subst store'.
  assert (Hr : r ∈ rows report) by (rewrite Hrows; left).
  destruct (@linkless_item_is_reported_again stable_pandas linkless_world None
              (Some ["nan"%string]) report r Hmain Hr Hcol Hcell)
    as (Hid & Hin & _ & Hlost & Hnext).
  exists report, r.
  split; [reflexivity|]. split; [exact Hrows|].
  split; [exact Hcol|]. split; [exact Hcell|]. split; [exact Htitle|].
  split; [exact Hid|]. split; [exact Hin|]. split; [reflexivity|].
  apply (Hnext batch_E row_E); [reflexivity|left|reflexivity].
Defined.

(** The run of the specification's scenario: seen set {A}, batch
    [A, B, C], scores B 80 and C 40, [top_n = 1]. *)
Lemma no_repeat_for_links_read_back_witness :
  exists report,
    @main stable_pandas sample_world seen_A
    = (Ok (Reported report), Some ["https://a"; "https://b"]%string) /\
    map (fun r => (cell r "link", row_score r)) (rows report) = [(VStr "https://b", 80)] /\
    "https://b"%string ∈ @report_links stable_pandas report /\
    "https://b"%string
      ∈ @load_seen_links stable_pandas (Some ["https://a"; "https://b"]%string) /\
    forall r,
      r ∈ rows (@filter_unseen_items stable_pandas batch_ABC
                  (@load_seen_links stable_pandas (Some ["https://a"; "https://b"]%string))) ->
      @link_id stable_pandas batch_ABC r <> "https://b"%string.
Proof.
  assert (Hok : match @main stable_pandas sample_world seen_A with
                | (Ok (Reported report), store') =>
                    bool_decide (store' = Some ["https://a"; "https://b"]%string)
                    && bool_decide (map (fun r => (cell r "link", row_score r)) (rows report)
                                    = [(VStr "https://b", 80)])
                    && bool_decide ("https://b"%string ∈ @report_links stable_pandas report)
                | _ => false
                end = true) by (vm_compute; reflexivity).
  destruct (@main stable_pandas sample_world seen_A) as [[[ | | |report]|e] store'] eqn:Hmain;
    try discriminate Hok.
  apply andb_true_iff in Hok as [Hok Hin].
  apply andb_true_iff in Hok as [Hstore Hrows].
  apply bool_decide_eq_true in Hstore, Hrows, Hin. subst store'.
  assert (Hback : "https://b"%string
                    ∈ @load_seen_links stable_pandas (Some ["https://a"; "https://b"]%string)).
  { assert (Hb : bool_decide ("https://b"%string
                                ∈ @load_seen_links stable_pandas
                                    (Some ["https://a"; "https://b"]%string)) = true)
      by (vm_compute; reflexivity).
    apply bool_decide_eq_true in Hb. exact Hb. }
  destruct (@no_repeat_for_links_read_back stable_pandas sample_world seen_A _ report Hmain)
    as (_ & _ & _ & _ & Hnext).
  exists report. split; [reflexivity|]. split; [exact Hrows|].
  split; [exact Hin|]. split; [exact Hback|].
  intros r Hr. exact (Hnext csv_ABC r "https://b"%string Hin Hback Hr).
Defined.

(** ** The further properties on the sample data *)

Lemma filter_unseen_items_keeps_witness :
  has_column batch_ABC "link" = true /\
  (forall r, r ∈ rows (@filter_unseen_items stable_pandas batch_ABC {[ "https://a"%string ]})
             <-> r ∈ rows batch_ABC /\
                 (isna (cell r "link") = true \/
                  @py_str stable_pandas (cell r "link")
                    ∉ ({[ "https://a"%string ]} : gset string))) /\
  row_E ∈ rows (@filter_unseen_items stable_pandas batch_E {[ "nan"%string ]}).
Proof.
  split; [reflexivity|]. split.
  - apply (@filter_unseen_items_keeps stable_pandas batch_ABC {[ "https://a"%string ]}
             eq_refl).
  - apply (@filter_unseen_items_keeps stable_pandas batch_E {[ "nan"%string ]} eq_refl).
    split; [left|now left].
Defined.

Lemma get_recent_data_window_witness :
  has_column batch_ABC "published" = true /\
  has_column batch_ABC "fetched_at" = true /\
  cutoff_of 1000 (YInt 1) = Ok (1000 - nanoseconds_per_day) /\
  cutoff_of 1000 (YInt 999999999) = Raise OverflowError /\
  (exists recent,
     @get_recent_data stable_pandas batch_ABC (YInt 1) 1000 = Ok recent /\
     columns recent = news_columns /\ length (rows recent) = 3%nat) /\
  @get_recent_data stable_pandas batch_ABC (YInt 999999999) 1000 = Raise OverflowError.
Proof.
  split; [reflexivity|]. split; [reflexivity|]. split; [reflexivity|].
  split; [reflexivity|].
  destruct (@get_recent_data_window stable_pandas batch_ABC (YInt 1) 1000 eq_refl eq_refl)
    as (Hwin & _).
  destruct (@get_recent_data_window stable_pandas batch_ABC (YInt 999999999) 1000
              eq_refl eq_refl) as (_ & _ & _ & _ & Hraise & _).
  split; [|apply Hraise; reflexivity].
  destruct (Hwin (1000 - nanoseconds_per_day) eq_refl) as (recent & H & Hcols & Hrows & _).
  exists recent. split; [exact H|]. split; [exact Hcols|].
  rewrite Hrows. reflexivity.
Defined.

Lemma get_recent_data_missing_column_witness :
  has_column batch_no_link "published" = false /\
  @get_recent_data stable_pandas batch_no_link (YInt 1) 1000 = Raise (KeyError "published") /\
  has_column batch_no_fetched_at "published" = true /\
  has_column batch_no_fetched_at "fetched_at" = false /\
  @get_recent_data stable_pandas batch_no_fetched_at (YInt 1) 1000
  = Raise (KeyError "fetched_at").
Proof.
  split; [reflexivity|].
  split; [apply (@get_recent_data_missing_column stable_pandas batch_no_link (YInt 1) 1000);
          reflexivity|].
  split; [reflexivity|]. split; [reflexivity|].
  apply (@get_recent_data_missing_column stable_pandas batch_no_fetched_at (YInt 1) 1000);
    reflexivity.
Defined.

Lemma get_recent_data_idempotent_witness :
  exists recent,
    @get_recent_data stable_pandas batch_ABC (YInt 1) 1000 = Ok recent /\
    @get_recent_data stable_pandas recent (YInt 1) 1000 = Ok recent.
Proof.
  assert (Hok : match @get_recent_data stable_pandas batch_ABC (YInt 1) 1000 with
                | Ok _ => true
                | Raise _ => false
                end = true) by (vm_compute; reflexivity).
  destruct (@get_recent_data stable_pandas batch_ABC (YInt 1) 1000) as [recent|e] eqn:H;
    [|discriminate Hok].
  exists recent. split; [reflexivity|].
  exact (@get_recent_data_idempotent stable_pandas batch_ABC recent (YInt 1) 1000 H).
Defined.

Lemma get_recent_data_monotone_witness :
  1 <= 2 /\
  cutoff_of 1000 (YInt 2) = Ok (1000 - 2 * nanoseconds_per_day) /\
  cutoff_of 1000 (YInt 999999999) = Raise OverflowError /\
  (exists recent recent',
     @get_recent_data stable_pandas batch_ABC (YInt 1) 1000 = Ok recent /\
     @get_recent_data stable_pandas batch_ABC (YInt 2) 1000 = Ok recent' /\
     forall r, r ∈ rows recent -> r ∈ rows recent') /\
  @get_recent_data stable_pandas batch_ABC (YInt 999999999) 1000 = Raise OverflowError.
Proof.
  split; [lia|]. split; [reflexivity|]. split; [reflexivity|].
  assert (Hok : match @get_recent_data stable_pandas batch_ABC (YInt 1) 1000 with
                | Ok _ => true
                | Raise _ => false
                end = true) by (vm_compute; reflexivity).
  destruct (@get_recent_data stable_pandas batch_ABC (YInt 1) 1000) as [recent|e] eqn:H;
    [|discriminate Hok].
  destruct (@get_recent_data_monotone stable_pandas batch_ABC recent 1 2 1000 H ltac:(lia))
    as (Hwider & _).
  destruct (@get_recent_data_monotone stable_pandas batch_ABC recent 1 999999999 1000 H
              ltac:(lia)) as (_ & Hover).
  split; [|exact (proj2 (Hover OverflowError eq_refl))].
  destruct (Hwider (1000 - 2 * nanoseconds_per_day) eq_refl) as (recent' & H' & Hsub & _).
  exists recent, recent'. split; [reflexivity|]. split; [exact H'|exact Hsub].
Defined.

Lemma report_rows_carry_their_score_witness :
  exists report,
    @personalized_recommendations stable_pandas sample_world batch_ABC sample_settings
    = Ok (Some report) /\
    forall r, r ∈ rows report ->
      exists z item, 0 <= z <= 100 /\ cell r "_personal_score" = VFloat z /\
                     @score_item_with_deepseek stable_pandas sample_client "likes robots" item
                     = Ok z /\
                     item !! "title" = Some (cell r "title") /\
                     item !! "summary" = Some (cell r "summary").
Proof.
  assert (Hok : match @personalized_recommendations stable_pandas sample_world batch_ABC
                        sample_settings with
                | Ok (Some _) => true
                | _ => false
                end = true) by (vm_compute; reflexivity).
  destruct (@personalized_recommendations stable_pandas sample_world batch_ABC
              sample_settings) as [[report|]|e] eqn:H; try discriminate Hok.
  exists report. split; [reflexivity|].
  destruct (@report_rows_carry_their_score stable_pandas stable_pandas_contract
              sample_world batch_ABC report sample_settings H)
    as (client & profile & mc & candidates & Hclient & Hprof & Hmc & Hsel & Hrows).
  injection Hclient as <-. injection Hprof as <-. injection Hmc as <-.
  assert (Hcols : has_column candidates "title" = true /\
                  has_column candidates "summary" = true).
  { assert (Hc : match @select_candidates stable_pandas batch_ABC 80 with
                 | Ok c => has_column c "title" && has_column c "summary"
                 | Raise _ => false
                 end = true) by (vm_compute; reflexivity).
    rewrite Hsel in Hc. now apply andb_true_iff in Hc. }
  destruct Hcols as [Htitle Hsummary].
  intros r Hr.
  destruct (Hrows r Hr) as (i & c & item & z & k & r0 & _ & _ & _ & _ & Hlabels & Hscore
                            & Hz & ->).
  exists z, item. split; [exact Hz|]. split; [apply cell_insert_eq|].
  split; [exact Hscore|].
  rewrite !Hlabels, Htitle, Hsummary, !cell_insert_ne by discriminate. now split.
Defined.

Lemma reported_links_are_new_witness :
  news_of sample_world = Some (Ok csv_ABC) /\
  has_column batch_ABC "link" = true /\
  exists report store',
    @main stable_pandas sample_world seen_A = (Ok (Reported report), store') /\
    forall r, r ∈ rows report ->
      @link_id stable_pandas report r ∉ @load_seen_links stable_pandas seen_A.
Proof.
  split; [reflexivity|]. split; [reflexivity|].
  assert (Hok : match fst (@main stable_pandas sample_world seen_A) with
                | Ok (Reported _) => true
                | _ => false
                end = true) by (vm_compute; reflexivity).
  destruct (@main stable_pandas sample_world seen_A) as [[[ | | |report]|e] store'] eqn:Hmain;
    try discriminate Hok.
  exists report, store'. split; [reflexivity|].
  destruct (@reported_links_are_new stable_pandas stable_pandas_contract
              sample_world seen_A store' report csv_ABC Hmain eq_refl eq_refl) as [_ Hnew].
  intros r Hr. exact (proj1 (Hnew r Hr)).
Defined.

Lemma translate_to_zh_falls_back_witness :
  strip "Alpha" <> ""%string /\
  translator sample_world "Alpha" = ApiRaises /\
  @translate_to_zh stable_pandas sample_world (VStr "Alpha") = Ok "Alpha"%string.
Proof.
  split; [discriminate|]. split; [reflexivity|].
  destruct (@translate_to_zh_falls_back stable_pandas sample_world "Alpha")
    as (_ & _ & H & _).
  apply H; [discriminate|now left].
Defined.

Lemma report_row_without_title_aborts_run_witness :
  news_of untitled_world = Some (Ok csv_untitled) /\
  settings_file untitled_world = Ok sample_settings /\
  get_days_window sample_settings = Ok (YInt 1) /\
  @main stable_pandas untitled_world None = (Raise AttributeError, None).
Proof.
  split; [reflexivity|]. split; [reflexivity|]. split; [reflexivity|].
  assert (Hok : match @get_recent_data stable_pandas
                        (@filter_unseen_items stable_pandas batch_untitled
                           (@load_seen_links stable_pandas None))
                        (YInt 1) (now untitled_world) with
                | Ok recent =>
                    match @personalized_recommendations stable_pandas untitled_world recent
                            sample_settings with
                    | Ok (Some report) =>
                        match rows report with
                        | r :: _ => negb (has_strip (row_get report r "title" (VStr "")))
                        | [] => false
                        end
                    | _ => false
                    end
                | Raise _ => false
                end = true) by (vm_compute; reflexivity).
  destruct (@get_recent_data stable_pandas _ (YInt 1) (now untitled_world))
    as [recent|e] eqn:Hrecent; [|discriminate Hok].
  destruct (@personalized_recommendations stable_pandas untitled_world recent
              sample_settings) as [[report|]|e] eqn:Hrec;
    try discriminate Hok.
  destruct (rows report) as [|r rest] eqn:Hrows; [discriminate Hok|].
  apply negb_true_iff in Hok.
  apply (@report_row_without_title_aborts_run stable_pandas stable_pandas_contract
           untitled_world None csv_untitled recent report sample_settings (YInt 1));
    [reflexivity|reflexivity|reflexivity|reflexivity|exact Hrecent|exact Hrec|].
  exists r. split; [rewrite Hrows; left|exact Hok].
Defined.

Lemma one_summary_without_text_aborts_batch_witness :
  cfg_enabled sample_settings = true /\
  cfg_profile sample_settings = Ok "likes robots"%string /\
  get_deepseek_client sample_world = Some sample_client /\
  cfg_max_candidates sample_settings = Ok 80 /\
  cfg_top_n sample_settings = Ok 1 /\
  cfg_max_workers sample_settings = Ok 2 /\
  df_empty batch_BD = false /\
  @personalized_recommendations stable_pandas sample_world batch_BD sample_settings
  = Raise AttributeError.
Proof.
  split; [reflexivity|]. split; [reflexivity|]. split; [reflexivity|].
  split; [reflexivity|]. split; [reflexivity|]. split; [reflexivity|].
  split; [reflexivity|].
  assert (Hok : match @select_candidates stable_pandas batch_BD 80 with
                | Ok candidates =>
                    existsb (fun item => match summary_of item with
                                         | VStr _ => false
                                         | _ => true
                                         end) (to_dict_records candidates)
                | Raise _ => false
                end = true) by (vm_compute; reflexivity).
  destruct (@select_candidates stable_pandas batch_BD 80)
    as [candidates|e] eqn:Hsel; [|discriminate Hok].
  apply existsb_exists in Hok as (item & Hin & Hitem).
  apply (@one_summary_without_text_aborts_batch stable_pandas
           sample_world batch_BD candidates sample_settings sample_client
           "likes robots"%string 80 1 2);
    [reflexivity|reflexivity|discriminate|reflexivity|reflexivity|reflexivity|reflexivity
    |reflexivity|exact Hsel|lia|].
  exists item. split; [now apply list_elem_of_In|].
  intros s Hs. rewrite Hs in Hitem. discriminate Hitem.
Defined.

Lemma non_positive_max_workers_raises_witness :
  cfg_max_workers no_workers_settings = Ok 0 /\
  @personalized_recommendations stable_pandas sample_world batch_ABC no_workers_settings
  = Raise ValueError.
Proof.
  split; [reflexivity|].
  assert (Hok : match @select_candidates stable_pandas batch_ABC 80 with
                | Ok _ => true
                | Raise _ => false
                end = true) by (vm_compute; reflexivity).
  destruct (@select_candidates stable_pandas batch_ABC 80) as [candidates|e] eqn:Hsel;
    [|discriminate Hok].
  apply (@non_positive_max_workers_raises stable_pandas
           sample_world batch_ABC candidates no_workers_settings sample_client
           "likes robots"%string 80 1 0);
    [reflexivity|reflexivity|discriminate|reflexivity|reflexivity|reflexivity|reflexivity
    |reflexivity|exact Hsel|lia].
Defined.

Lemma non_positive_top_n_witness :
  length [50; 70; 50] = length (rows batch_ABC) /\
  -1 <= 0 /\
  exists report,
    @rank stable_pandas batch_ABC [50; 70; 50] (-1) = Ok report /\
    length (rows report) = 2%nat.
Proof.
  split; [reflexivity|]. split; [lia|].
  destruct (@non_positive_top_n stable_pandas stable_pandas_contract
              batch_ABC [50; 70; 50] (-1) eq_refl ltac:(lia))
    as (report & Hrank & _ & Hneg).
  exists report. split; [exact Hrank|]. exact (Hneg ltac:(lia)).
Defined.

Lemma scorer_reads_first_number_witness :
  summary_of row_B = VStr "about b" /\
  @score_item_with_deepseek stable_pandas failing_client "likes robots" row_B = Ok 0 /\
  @score_item_with_deepseek stable_pandas (constant_client "Score: 250 of 100")
    "likes robots" row_B = Ok (Z.min 100 (digits_value "250")).
Proof.
  split; [reflexivity|]. split.
  - destruct (@scorer_reads_first_number stable_pandas failing_client "likes robots"
                row_B "about b" eq_refl) as (H & _ & _).
    apply H. now left.
  - destruct (@scorer_reads_first_number stable_pandas (constant_client "Score: 250 of 100")
                "likes robots" row_B "about b" eq_refl) as (_ & _ & H).
    apply (H "Score: " "250" " of 100")%string;
      [reflexivity|reflexivity|reflexivity|discriminate|reflexivity].
Defined.

Lemma load_today_news_prefers_today_witness :
  In news_of_may_1 sample_raw_dir /\
  file_name news_of_may_1 = today_name "2024-05-01" /\
  exists today,
    load_today_news sample_raw_dir "2024-05-01" = Some today /\
    file_name today = "news_2024-05-01.csv"%string.
Proof.
  split; [now left|]. split; [reflexivity|].
  destruct (load_today_news_prefers_today sample_raw_dir "2024-05-01" news_of_may_1
              ltac:(now left) eq_refl) as (today & H & _ & Hname).
  exists today. split; [exact H|exact Hname].
Defined.

Lemma load_today_news_falls_back_witness :
  (forall f, In f sample_raw_dir -> file_name f <> today_name "2024-05-09") /\
  load_today_news sample_raw_dir "2024-05-09" = Some news_of_may_3 /\
  forall g, In g sample_raw_dir -> glob_news (file_name g) = true ->
            mtime g <= mtime news_of_may_3.
Proof.
  assert (Hno : forall f, In f sample_raw_dir -> file_name f <> today_name "2024-05-09").
  { intros f [<-|[<-|[<-|[<-|[]]]]]; discriminate. }
  split; [exact Hno|]. split; [reflexivity|].
  pose proof (load_today_news_falls_back sample_raw_dir "2024-05-09" Hno) as H.
  change (load_today_news sample_raw_dir "2024-05-09") with (Some news_of_may_3) in H.
  exact (proj2 (proj2 H)).
Defined.

Lemma fetch_feed_rows_witness :
  feed_url sample_feed = Some (VStr "https://mit/rss") /\
  sample_parse (VStr "https://mit/rss") = Ok sample_entries /\
  exists rows,
    fetch_feed sample_parse sample_clock sample_feed = Ok rows /\
    length rows = 2%nat /\
    exists r, rows !! 1%nat = Some r /\
              r !! "summary" = Some (VStr "") /\ r !! "tags" = Some (VStr "ai,campus").
Proof.
  split; [reflexivity|]. split; [reflexivity|].
  destruct (fetch_feed_rows sample_parse sample_clock sample_feed
              (VStr "https://mit/rss") (VStr "mit") (VStr "MIT News") sample_entries
              eq_refl eq_refl eq_refl eq_refl) as (rows & H & Hlen & Hrows).
  exists rows. split; [exact H|]. split; [exact Hlen|].
  destruct (Hrows 1%nat _ eq_refl) as (r & Hr & _ & _ & _ & Htags & _ & Hattr).
  exists r. split; [exact Hr|]. split; [|exact Htags].
  apply (Hattr "summary"%string). right. right. left.
Defined.

Lemma fetch_feed_missing_key_witness :
  feed_url idless_feed = Some (VStr "https://mit/rss") /\
  feed_id idless_feed = None /\
  fetch_feed sample_parse sample_clock idless_feed = Raise (KeyError "id").
Proof.
  split; [reflexivity|]. split; [reflexivity|].
  apply (fetch_feed_missing_key sample_parse sample_clock idless_feed
           (VStr "https://mit/rss") sample_entries eq_refl eq_refl).
  now left.
Defined.

Lemma fetch_main_isolates_failures_witness :
  (forall feed, feed ∈ [broken_feed; sample_feed] -> is_Some (feed_name feed)) /\
  exists df,
    fetch_main sample_parse (Ok [broken_feed; sample_feed]) (fun _ => sample_clock)
      "2024-05-01" = Ok (Some ("news_2024-05-01.csv"%string, df)) /\
    length (rows df) = 2%nat.
Proof.
  assert (Hnames : forall feed, feed ∈ [broken_feed; sample_feed] ->
                                is_Some (feed_name feed)).
  { intros feed Hf. apply elem_of_cons in Hf as [->|Hf]; [cbn; eauto|].
    apply elem_of_cons in Hf as [->|Hf]; [cbn; eauto|inversion Hf]. }
  split; [exact Hnames|].
  rewrite (fetch_main_isolates_failures sample_parse [broken_feed; sample_feed]
             (fun _ => sample_clock) "2024-05-01" Hnames).
  eexists. split; reflexivity.
Defined.

Lemma fetch_main_nameless_feed_aborts_witness :
  nameless_feed ∈ [sample_feed; nameless_feed] /\
  feed_name nameless_feed = None /\
  fetch_main sample_parse (Ok [sample_feed; nameless_feed]) (fun _ => sample_clock)
    "2024-05-01" = Raise (KeyError "name").
Proof.
  assert (Hin : nameless_feed ∈ [sample_feed; nameless_feed]) by (right; left).
  split; [exact Hin|]. split; [reflexivity|].
  exact (fetch_main_nameless_feed_aborts sample_parse [sample_feed; nameless_feed]
           (fun _ => sample_clock) "2024-05-01" nameless_feed Hin eq_refl).
Defined.


Lemma environment_takes_precedence_witness :
  env_value partial_environ "EMAIL_FROM" = Some "me@example.org"%string /\
  sample_yaml !! "EMAIL_FROM" = Some (YStr "other@example.org") /\
  exists cfg,
    load_email_config partial_environ (Some (YamlDict sample_yaml)) = inr cfg /\
    cfg !! "EMAIL_FROM" = Some "me@example.org"%string.
Proof.
  split; [vm_compute; reflexivity|]. split; [vm_compute; reflexivity|].
  assert (Hok : match load_email_config partial_environ (Some (YamlDict sample_yaml)) with
                | inr _ => true
                | inl _ => false
                end = true) by (vm_compute; reflexivity).
  destruct (load_email_config partial_environ (Some (YamlDict sample_yaml)))
    as [e|cfg] eqn:H; [discriminate Hok|].
  exists cfg. split; [reflexivity|].
  apply (proj2 (environment_takes_precedence partial_environ
                  (Some (YamlDict sample_yaml)) cfg H) "EMAIL_FROM"%string);
    [unfold env_keys; left|vm_compute; reflexivity].
Defined.

Lemma complete_environment_ignores_yaml_witness :
  (forall k, k ∈ required_keys -> given_by_environ sample_environ k) /\
  sample_yaml !! "EMAIL_SMTP_SERVER" = Some (YStr "smtp.example.org") /\
  (exists cfg,
     load_email_config sample_environ (Some (YamlDict sample_yaml)) = inr cfg /\
     cfg !! "EMAIL_SMTP_SERVER" = Some "smtp.gmail.com"%string /\
     cfg !! "EMAIL_SMTP_PORT" = Some "587"%string) /\
  load_email_config sample_environ (Some YamlInvalid) = load_email_config sample_environ None.
Proof.
  assert (Hreq : forall k, k ∈ required_keys -> given_by_environ sample_environ k).
  { intros k Hk. unfold required_keys in Hk.
    repeat (apply elem_of_cons in Hk as [->|Hk]; [vm_compute; eauto|]).
    inversion Hk. }
  split; [exact Hreq|]. split; [vm_compute; reflexivity|].
  split.
  - destruct (complete_environment_ignores_yaml sample_environ
                (Some (YamlDict sample_yaml)) Hreq) as (_ & cfg & H & Hserver & Hport).
    exists cfg. split; [exact H|].
    assert (Hs : env_value sample_environ "EMAIL_SMTP_SERVER" = None)
      by (vm_compute; reflexivity).
    assert (Hp : env_value sample_environ "EMAIL_SMTP_PORT" = None)
      by (vm_compute; reflexivity).
    rewrite Hs in Hserver. rewrite Hp in Hport. split; [exact Hserver|exact Hport].
  - exact (proj1 (complete_environment_ignores_yaml sample_environ (Some YamlInvalid) Hreq)).
Defined.

Lemma yaml_fills_the_gaps_witness :
  ~ (forall k, k ∈ required_keys -> given_by_environ partial_environ k) /\
  exists cfg,
    load_email_config partial_environ (Some (YamlDict sample_yaml)) = inr cfg /\
    cfg !! "EMAIL_SMTP_PORT" = Some "2525"%string.
Proof.
  assert (Hmiss : ~ (forall k, k ∈ required_keys -> given_by_environ partial_environ k)).
  { intros H. destruct (H "EMAIL_TO"%string) as [v Hv]; [right; left|].
    vm_compute in Hv. discriminate Hv. }
  split; [exact Hmiss|].
  assert (Hok : match load_email_config partial_environ (Some (YamlDict sample_yaml)) with
                | inr _ => true
                | inl _ => false
                end = true) by (vm_compute; reflexivity).
  destruct (load_email_config partial_environ (Some (YamlDict sample_yaml)))
    as [e|cfg] eqn:H; [discriminate Hok|].
  exists cfg. split; [reflexivity|].
  apply (yaml_fills_the_gaps partial_environ sample_yaml cfg Hmiss H
           "EMAIL_SMTP_PORT"%string (YInt 2525));
    [vm_compute; reflexivity|vm_compute; reflexivity|discriminate].
Defined.

Lemma send_email_session_witness :
  exists s,
    send_email sample_environ None "subject" "body" = inr s /\
    login_password s = "abcdefgh"%string /\
    smtp_port s = 587 /\
    forall c, In c (list_ascii_of_string (login_password s)) -> py_isspace c = false.
Proof.
  assert (Hok : match send_email sample_environ None "subject" "body" with
                | inr s => Some (login_password s, smtp_port s)
                | inl _ => None
                end = Some ("abcdefgh"%string, 587)) by (vm_compute; reflexivity).
  destruct (send_email sample_environ None "subject" "body")
    as [e|s] eqn:H; [discriminate Hok|].
  injection Hok as Hpwd Hport.
  exists s. split; [reflexivity|]. split; [exact Hpwd|]. split; [exact Hport|].
  destruct (send_email_session sample_environ None "subject" "body" s H)
    as (cfg & raw_pwd & email_to & port_text & _ & _ & _ & _ & _ & _ & _ & _ & Hclean & _).
  exact Hclean.
Defined.

